(** * pydvdread: the ctypes bindings of libdvdcss, libdvdread and libdvdnav

    The three Python modules [dvdcss.py], [dvdread.py] and [dvdnav.py] are
    scripts of top-level statements: they load a shared library, create
    [ctypes.Structure] classes, assign [_fields_] lists, look symbols up and
    set [restype]/[argtypes] on the resulting function pointers.  This file
    embeds

    - the ctypes objects the scripts build (types, field lists, function
      pointers) and the part of ctypes they rely on: the structure layout
      rule of [ctypes.Structure] (data model LP64, little endian, the
      platform the sources name: x86_64-linux-gnu) and the foreign call
      protocol ([argtypes] conversion, [restype] conversion);
    - the three scripts, statement by statement, in source order;
    - an interpreter for these statements over an explicit interpreter
      state with a trace of the observable steps. *)

From Stdlib Require Import String Ascii List ZArith Bool Lia Relations.
Import ListNotations.
Set Warnings "-register-all".
Local Open Scope string_scope.
Local Open Scope list_scope.
Local Open Scope Z_scope.

(** ** Python builtins used by the scripts *)

Definition digit_value (c : ascii) : option Z :=
  let n := Z.of_nat (nat_of_ascii c) in
  if (48 <=? n) && (n <=? 57) then Some (n - 48)
  else if (97 <=? n) && (n <=? 122) then Some (n - 87)
  else if (65 <=? n) && (n <=? 90) then Some (n - 55)
  else None.

Fixpoint int_digits (base acc : Z) (s : string) : option Z :=
  match s with
  | EmptyString => Some acc
  | String c r =>
      match digit_value c with
      | Some d => if d <? base then int_digits base (acc * base + d) r else None
      | None => None
      end
  end.

(** [int(s, base)] on a plain digit string; [None] stands for ValueError. *)
Definition int (s : string) (base : Z) : option Z :=
  match s with
  | EmptyString => None
  | _ => int_digits base 0 s
  end.

(** The value a module constant [NAME = int("...", 16)] is bound to. *)
Definition int_literal (s : string) (base : Z) : Z :=
  match int s base with
  | Some z => z
  | None => 0
  end.

(** ** ctypes types *)

Inductive ctype : Type :=
| c_char | c_ubyte | c_int8 | c_uint8 | c_int16 | c_uint16
| c_int | c_uint | c_int32 | c_uint32
| c_long | c_int64 | c_uint64 | c_size_t | c_ssize_t | c_time_t
| c_void_p
| POINTER (t : ctype)
| Arr (t : ctype) (n : Z)                          (* [t * n] *)
| CFUNCTYPE (restype : ctype) (argtypes : list ctype)
| Cls (name : string).                             (* a Structure or Union class *)

(** ctypes binds the fixed-width names to the classes of the platform's
    basic types; on LP64 these are the same class objects. *)
Fixpoint canon (t : ctype) : ctype :=
  match t with
  | c_uint8 => c_ubyte
  | c_int32 => c_int
  | c_uint32 => c_uint
  | c_int64 | c_ssize_t | c_time_t => c_long
  | c_size_t => c_uint64
  | POINTER t => POINTER (canon t)
  | Arr t n => Arr (canon t) n
  | CFUNCTYPE r a => CFUNCTYPE (canon r) (map canon a)
  | _ => t
  end.

Fixpoint ctype_eqb (a b : ctype) {struct a} : bool :=
  match a, b with
  | c_char, c_char | c_ubyte, c_ubyte | c_int8, c_int8 | c_uint8, c_uint8
  | c_int16, c_int16 | c_uint16, c_uint16 | c_int, c_int | c_uint, c_uint
  | c_int32, c_int32 | c_uint32, c_uint32 | c_long, c_long
  | c_int64, c_int64 | c_uint64, c_uint64 | c_size_t, c_size_t
  | c_ssize_t, c_ssize_t | c_time_t, c_time_t | c_void_p, c_void_p => true
  | POINTER x, POINTER y => ctype_eqb x y
  | Arr x n, Arr y m => ctype_eqb x y && (n =? m)
  | CFUNCTYPE r xs, CFUNCTYPE s ys =>
      ctype_eqb r s &&
      (fix all2 (l : list ctype) (m : list ctype) {struct l} : bool :=
         match l, m with
         | [], [] => true
         | x :: l', y :: m' => ctype_eqb x y && all2 l' m'
         | _, _ => false
         end) xs ys
  | Cls n, Cls m => String.eqb n m
  | _, _ => false
  end.

(** Integer types: signedness and width in bits. *)
Definition int_kind (t : ctype) : option (bool * Z) :=
  match t with
  | c_ubyte | c_uint8 => Some (false, 8)
  | c_int8 => Some (true, 8)
  | c_int16 => Some (true, 16)
  | c_uint16 => Some (false, 16)
  | c_int | c_int32 => Some (true, 32)
  | c_uint | c_uint32 => Some (false, 32)
  | c_long | c_int64 | c_ssize_t | c_time_t => Some (true, 64)
  | c_uint64 | c_size_t => Some (false, 64)
  | _ => None
  end.

(** A C integer of [bits] bits holding [z]. *)
Definition wrap (signed : bool) (bits : Z) (z : Z) : Z :=
  if signed
  then (z + 2 ^ (bits - 1)) mod 2 ^ bits - 2 ^ (bits - 1)
  else z mod 2 ^ bits.

(** Class names a type expression mentions. *)
Fixpoint cls_names (t : ctype) : list string :=
  match t with
  | POINTER t | Arr t _ => cls_names t
  | CFUNCTYPE r a => cls_names r ++ flat_map cls_names a
  | Cls n => [n]
  | _ => []
  end.

(** Class names a type holds by value (not behind a pointer). *)
Fixpoint by_value (t : ctype) : list string :=
  match t with
  | Cls n => [n]
  | Arr t _ => by_value t
  | _ => []
  end.

(** ** Field lists *)

Record field := mkfield {
  f_name : string;
  f_type : ctype;
  f_bits : option Z       (* the third tuple element: a bit width *)
}.

Definition fld (n : string) (t : ctype) : field := mkfield n t None.
Definition bit (n : string) (t : ctype) (w : Z) : field := mkfield n t (Some w).

Inductive kind := KStructure | KUnion.

(** A field as ctypes places it. For a bit field [pf_bits] holds the width,
    the bit offset from the least significant bit of the storage unit at
    [pf_offset], and the width of that storage unit. *)
Record placed := mkplaced {
  pf_name : string;
  pf_type : ctype;
  pf_offset : Z;
  pf_bits : option (Z * Z * Z)
}.

Record cls := mkcls {
  cls_kind : kind;
  cls_fields : option (list field);   (* the list object bound to [_fields_] *)
  cls_final : bool;                   (* layout fixed *)
  cls_size : Z;
  cls_align : Z;
  cls_layout : list placed
}.

Definition classes := list (string * cls).

Fixpoint lookup {A : Type} (k : string) (l : list (string * A)) : option A :=
  match l with
  | [] => None
  | (k', v) :: r => if String.eqb k k' then Some v else lookup k r
  end.

Fixpoint update {A : Type} (k : string) (v : A) (l : list (string * A))
  : list (string * A) :=
  match l with
  | [] => [(k, v)]
  | (k', v') :: r =>
      if String.eqb k k' then (k, v) :: r else (k', v') :: update k v r
  end.

(** ** Sizes and alignments (LP64) *)

Fixpoint size_align (ct : classes) (t : ctype) : Z * Z :=
  match t with
  | c_char | c_ubyte | c_int8 | c_uint8 => (1, 1)
  | c_int16 | c_uint16 => (2, 2)
  | c_int | c_uint | c_int32 | c_uint32 => (4, 4)
  | c_long | c_int64 | c_uint64 | c_size_t | c_ssize_t | c_time_t
  | c_void_p | POINTER _ | CFUNCTYPE _ _ => (8, 8)
  | Arr t n => let '(s, a) := size_align ct t in (s * n, a)
  | Cls n =>
      match lookup n ct with
      | Some c => (cls_size c, cls_align c)
      | None => (0, 1)
      end
  end.

Definition sizeof (ct : classes) (t : ctype) : Z := fst (size_align ct t).
Definition alignment (ct : classes) (t : ctype) : Z := snd (size_align ct t).

(** ** Structure layout

    The running state of ctypes while it walks a [_fields_] list: bytes
    used, offset of the next field, alignment of the last field, width in
    bits of the open bit-field storage unit (0 when none is open) and bits
    used in it. *)
Record lstate := mklstate {
  l_size : Z;
  l_offset : Z;
  l_align : Z;
  l_field_size : Z;
  l_bitofs : Z
}.

Definition pad_to (offset align : Z) : Z :=
  if (0 <? align) && negb (offset mod align =? 0)
  then align - offset mod align
  else 0.

(** One field: continue the open storage unit when the bit field fits in
    it, widen the unit when the new type is wider and the field fits then,
    open a new unit otherwise; a plain field closes the unit. *)
Definition PyCField_FromDesc (ts ta : Z) (bits : option Z) (s : lstate)
  : lstate * (Z * option (Z * Z * Z)) :=
  let fs := l_field_size s in
  match bits with
  | Some b =>
      if (0 <? fs) && (ts * 8 <=? fs) && (l_bitofs s + b <=? fs) then
        (mklstate (l_size s) (l_offset s) (l_align s) fs (l_bitofs s + b),
         (l_offset s - ts, Some (b, l_bitofs s, fs)))
      else if (0 <? fs) && (fs <=? ts * 8) && (l_bitofs s + b <=? ts * 8) then
        let grow := ts - fs / 8 in
        (mklstate (l_size s + grow) (l_offset s + grow) (l_align s)
                  (ts * 8) (l_bitofs s + b),
         (l_offset s + grow - ts, Some (b, l_bitofs s, ts * 8)))
      else
        let delta := pad_to (l_offset s) ta in
        (mklstate (l_size s + delta + ts) (l_offset s + delta + ts) ta
                  (ts * 8) b,
         (l_offset s + delta, Some (b, 0, ts * 8)))
  | None =>
      let delta := pad_to (l_offset s) ta in
      (mklstate (l_size s + delta + ts) (l_offset s + delta + ts) ta 0 0,
       (l_offset s + delta, None))
  end.

(** The loop over [_fields_]: a Union restarts every field at offset 0. *)
Fixpoint layout_fields (ct : classes) (k : kind) (fs : list field)
  (s : lstate) (union_size total_align : Z) : list placed * Z * Z :=
  match fs with
  | [] =>
      let size := match k with KStructure => l_size s | KUnion => union_size end in
      ([], (size + total_align - 1) / total_align * total_align, total_align)
  | f :: r =>
      let s0 := match k with
                | KStructure => s
                | KUnion => mklstate 0 0 0 (l_field_size s) (l_bitofs s)
                end in
      let '(ts, ta) := size_align ct (f_type f) in
      let '(s1, (off, b)) := PyCField_FromDesc ts ta (f_bits f) s0 in
      let '(ps, size, al) :=
        layout_fields ct k r s1 (Z.max (l_size s1) union_size)
                      (Z.max (l_align s1) total_align) in
      (mkplaced (f_name f) (f_type f) off b :: ps, size, al)
  end.

Definition layout (ct : classes) (k : kind) (fs : list field)
  : list placed * Z * Z :=
  layout_fields ct k fs (mklstate 0 0 0 0 0) 0 1.

(** ** Python values crossing the foreign call boundary *)

Inductive pyval :=
| PNone
| PInt (z : Z)
| PPtr (pointee : ctype) (addr : Z)   (* an instance of [POINTER(pointee)] *)
| PObj (t : ctype) (raw : Z).         (* any other ctypes instance *)

Inductive exn :=
| RuntimeError (msg : string)
| OSError (msg : string)
| NameError (name : string)
| AttributeError (msg : string)
| TypeError (msg : string)
| ValueError (msg : string)
| ArgumentError (position : nat)
| Unmodelled (what : string).

Inductive result (A : Type) :=
| Ok (a : A)
| Err (e : exn).
Arguments Ok {A} a.
Arguments Err {A} e.

(** ** The statements of the scripts *)

Inductive pathexpr :=
| PLit (s : string)
| PExpandvars (s : string).          (* [os.path.expandvars(s)] *)

Inductive fpart := FLit (s : string) | FOsName.   (* pieces of a message *)

Inductive cond := OsNameIs (s : string).          (* [os.name == s] *)

Inductive rhs :=
| RInt (z : Z)
| RParseInt (s : string) (base : Z)               (* [int(s, base)] *)
| RStr (p : pathexpr)
| RType (t : ctype).

Inductive attr_value :=
| VType (t : option ctype)           (* a type, or [None] *)
| VTuple (ts : list ctype).

Inductive stmt :=
| SImport (module : string)
| SAssign (var : string) (v : rhs)
| SIf (c : cond) (thn els : list stmt)
| SRaiseRuntimeError (msg : list fpart)
| SCDLL (var : string) (path : pathexpr)          (* [var = ctypes.CDLL(path)] *)
| SClass (k : kind) (name : string) (body : option (list field))
| SSetFields (name : string) (fs : list field)    (* [name._fields_ = fs] *)
| SAppendField (name : string) (f : field)        (* [name._fields_.append(f)] *)
| SLookup (var lib symbol : string)               (* [var = lib.symbol] *)
| SSetAttr (var attr : string) (v : attr_value).  (* [var.attr = v] *)

(** ** The host and the interpreter state *)

Record host := mkhost {
  os_name : string;
  expandvars : string -> string;
  can_load : string -> bool;              (* the shared object can be loaded *)
  has_symbol : string -> string -> bool   (* library path, symbol *)
}.

(** A foreign function pointer object. Attributes other than [restype] and
    [argtypes] land in the instance dictionary. *)
Record cfunc := mkcfunc {
  fn_lib : string;
  fn_symbol : string;
  fn_restype : option ctype;
  fn_argtypes : option (list ctype);
  fn_dict : list (string * attr_value)
}.

Inductive event :=
| ELoad (var path : string)
| ELookup (var lib symbol : string)
| EClass (name : string) (with_fields : bool)
| EFields (name : string)                  (* a [_fields_] list took effect *)
| EAppend (name fname : string)
| ENative (symbol : string) (args : list Z) (ret : Z).

Record state := mkstate {
  imported : list string;
  libs : list (string * string);           (* variable, path *)
  types : classes;
  funcs : list (string * cfunc);
  trace : list event                       (* most recent first *)
}.

Definition empty_state : state := mkstate [] [] [] [] [].

Definition history (st : state) : list event := rev (trace st).

Definition log (e : event) (st : state) : state :=
  mkstate (imported st) (libs st) (types st) (funcs st) (e :: trace st).

Definition set_types (ct : classes) (st : state) : state :=
  mkstate (imported st) (libs st) ct (funcs st) (trace st).

Definition set_funcs (fs : list (string * cfunc)) (st : state) : state :=
  mkstate (imported st) (libs st) (types st) fs (trace st).

Inductive run :=
| Finished (st : state)
| Raised (e : exn) (st : state).

(** ** Evaluating the pieces of a statement *)

Definition eval_path (h : host) (p : pathexpr) : string :=
  match p with
  | PLit s => s
  | PExpandvars s => expandvars h s
  end.

Definition eval_cond (h : host) (c : cond) : bool :=
  match c with
  | OsNameIs s => String.eqb (os_name h) s
  end.

Fixpoint eval_msg (h : host) (m : list fpart) : string :=
  match m with
  | [] => ""
  | FLit s :: r => String.append s (eval_msg h r)
  | FOsName :: r => String.append (os_name h) (eval_msg h r)
  end.

Fixpoint first_unbound (ct : classes) (names : list string) : option string :=
  match names with
  | [] => None
  | n :: r =>
      match lookup n ct with
      | Some _ => first_unbound ct r
      | None => Some n
      end
  end.

(** Using a class by value fixes its layout, as it stands. *)
Fixpoint finalize (names : list string) (ct : classes) : classes :=
  match names with
  | [] => ct
  | n :: r =>
      match lookup n ct with
      | Some c =>
          finalize r
            (update n (mkcls (cls_kind c) (cls_fields c) true (cls_size c)
                             (cls_align c) (cls_layout c)) ct)
      | None => finalize r ct
      end
  end.

(** The checks ctypes applies to one [_fields_] entry. *)
Definition check_field (ct : classes) (f : field) : option exn :=
  match first_unbound ct (cls_names (f_type f)) with
  | Some n => Some (NameError n)
  | None =>
      match f_bits f with
      | None => None
      | Some w =>
          match int_kind (f_type f) with
          | None => Some (TypeError "bit fields not allowed for type")
          | Some _ =>
              if (0 <? w) && (w <=? 8 * sizeof ct (f_type f)) then None
              else Some (ValueError "number of bits invalid for bit field")
          end
      end
  end.

Fixpoint check_fields (ct : classes) (fs : list field) : option exn :=
  match fs with
  | [] => None
  | f :: r =>
      match check_field ct f with
      | Some e => Some e
      | None => check_fields ct r
      end
  end.

(** [name._fields_ = fs]: rejected on a class whose layout is already fixed,
    otherwise the layout is computed now, once, from the classes as they
    are. *)
Definition assign_fields (name : string) (fs : list field) (st : state) : run :=
  match lookup name (types st) with
  | None => Raised (NameError name) st
  | Some c =>
      if cls_final c then Raised (AttributeError "_fields_ is final") st
      else
        match check_fields (types st) fs with
        | Some e => Raised e st
        | None =>
            let ct := finalize (flat_map (fun f => by_value (f_type f)) fs)
                               (types st) in
            let '(ps, size, al) := layout ct (cls_kind c) fs in
            Finished
              (log (EFields name)
                 (set_types
                    (update name (mkcls (cls_kind c) (Some fs) true size al ps) ct)
                    st))
        end
  end.

Definition append_field (name : string) (f : field) (st : state) : run :=
  match lookup name (types st) with
  | None => Raised (NameError name) st
  | Some c =>
      match cls_fields c with
      | None => Raised (AttributeError "_fields_") st
      | Some fs =>
          Finished
            (log (EAppend name (f_name f))
               (set_types
                  (update name
                     (mkcls (cls_kind c) (Some (fs ++ [f])) (cls_final c)
                            (cls_size c) (cls_align c) (cls_layout c))
                     (types st))
                  st))
      end
  end.

Definition assign (v : rhs) (st : state) : run :=
  match v with
  | RInt _ | RStr _ => Finished st
  | RParseInt s base =>
      match int s base with
      | Some _ => Finished st
      | None => Raised (ValueError "invalid literal for int()") st
      end
  | RType t =>
      match first_unbound (types st) (cls_names t) with
      | Some n => Raised (NameError n) st
      | None =>
          match t with
          | Arr e _ => Finished (set_types (finalize (by_value e) (types st)) st)
          | _ => Finished st
          end
      end
  end.

Definition load (h : host) (var : string) (p : pathexpr) (st : state) : run :=
  let path := eval_path h p in
  if can_load h path
  then Finished (log (ELoad var path)
                   (mkstate (imported st) (update var path (libs st))
                            (types st) (funcs st) (trace st)))
  else Raised (OSError path) st.

Definition symbol_lookup (h : host) (var lib symbol : string) (st : state) : run :=
  match lookup lib (libs st) with
  | None => Raised (NameError lib) st
  | Some path =>
      let st' := log (ELookup var lib symbol) st in
      if has_symbol h path symbol
      then Finished
             (set_funcs
                (update var (mkcfunc path symbol (Some c_int) None []) (funcs st'))
                st')
      else Raised (AttributeError symbol) st'
  end.

Definition attr_names (v : attr_value) : list string :=
  match v with
  | VType (Some t) => cls_names t
  | VType None => []
  | VTuple ts => flat_map cls_names ts
  end.

Definition set_attr (var attr : string) (v : attr_value) (st : state) : run :=
  match lookup var (funcs st) with
  | None => Raised (NameError var) st
  | Some f =>
      match first_unbound (types st) (attr_names v) with
      | Some n => Raised (NameError n) st
      | None =>
          if String.eqb attr "restype" then
            match v with
            | VType t =>
                Finished (set_funcs
                  (update var (mkcfunc (fn_lib f) (fn_symbol f) t
                                       (fn_argtypes f) (fn_dict f)) (funcs st)) st)
            | VTuple _ => Raised (TypeError "restype must be a type or None") st
            end
          else if String.eqb attr "argtypes" then
            match v with
            | VTuple ts =>
                Finished (set_funcs
                  (update var (mkcfunc (fn_lib f) (fn_symbol f) (fn_restype f)
                                       (Some ts) (fn_dict f)) (funcs st)) st)
            | VType _ => Raised (TypeError "argtypes must be a sequence of types") st
            end
          else
            Finished (set_funcs
              (update var (mkcfunc (fn_lib f) (fn_symbol f) (fn_restype f)
                                   (fn_argtypes f) (update attr v (fn_dict f)))
                      (funcs st)) st)
      end
  end.

Definition declare_class (k : kind) (name : string) (body : option (list field))
  (st : state) : run :=
  let shell := mkcls k None false 0 1 [] in
  match body with
  | None =>
      Finished (log (EClass name false)
                  (set_types (update name shell (types st)) st))
  | Some fs =>
      (* the class body runs before the class object exists *)
      match check_fields (types st) fs with
      | Some e => Raised e st
      | None =>
          assign_fields name fs
            (log (EClass name true)
               (set_types (update name shell (types st)) st))
      end
  end.

(** ** The interpreter

    [imp] resolves the modules of this package; any other module is a
    standard library module and binds nothing the model tracks. A module
    already in [imported] is not run again. *)
Section Interpreter.

Variable h : host.
Variable imp : string -> option (state -> run).

Definition import (m : string) (st : state) : run :=
  if existsb (String.eqb m) (imported st) then Finished st
  else
    let mark st' := mkstate (m :: imported st') (libs st') (types st')
                            (funcs st') (trace st') in
    match imp m with
    | None => Finished (mark st)
    | Some body =>
        match body st with
        | Finished st' => Finished (mark st')
        | Raised e st' => Raised e st'
        end
    end.

Fixpoint exec (s : stmt) (st : state) {struct s} : run :=
  match s with
  | SImport m => import m st
  | SAssign _ v => assign v st
  | SIf c thn els =>
      (fix block (l : list stmt) (st : state) {struct l} : run :=
         match l with
         | [] => Finished st
         | x :: r =>
             match exec x st with
             | Finished st' => block r st'
             | Raised e st' => Raised e st'
             end
         end) (if eval_cond h c then thn else els) st
  | SRaiseRuntimeError m => Raised (RuntimeError (eval_msg h m)) st
  | SCDLL var p => load h var p st
  | SClass k name body => declare_class k name body st
  | SSetFields name fs => assign_fields name fs st
  | SAppendField name f => append_field name f st
  | SLookup var lib symbol => symbol_lookup h var lib symbol st
  | SSetAttr var attr v => set_attr var attr v st
  end.

Fixpoint exec_block (l : list stmt) (st : state) : run :=
  match l with
  | [] => Finished st
  | x :: r =>
      match exec x st with
      | Finished st' => exec_block r st'
      | Raised e st' => Raised e st'
      end
  end.

End Interpreter.

(** ** Foreign calls through a function pointer object *)

(** [argtypes[i].from_param(v)]: the C argument, or no conversion. *)
Definition from_param (t : ctype) (v : pyval) : option Z :=
  match int_kind t, t, v with
  | Some (sg, bits), _, PInt z => Some (wrap sg bits z)
  | None, c_void_p, PNone => Some 0
  | None, c_void_p, PInt z => Some (wrap false 64 z)
  | None, c_void_p, PPtr _ a => Some a
  | None, POINTER _, PNone => Some 0
  | None, POINTER t', PPtr t'' a =>
      if ctype_eqb (canon t') (canon t'') then Some a else None
  | _, _, _ => None
  end.

(** Conversion of an argument no [argtypes] entry covers. *)
Definition default_param (v : pyval) : option Z :=
  match v with
  | PNone => Some 0
  | PInt z => if (- 2 ^ 63 <=? z) && (z <? 2 ^ 64) then Some (wrap true 32 z) else None
  | PPtr _ a => Some a
  | PObj _ raw => Some raw
  end.

Fixpoint convert_args (i : nat) (ts : list ctype) (vs : list pyval)
  : result (list Z) :=
  match ts, vs with
  | [], [] => Ok []
  | [], v :: vs' =>
      match default_param v, convert_args (S i) [] vs' with
      | Some z, Ok zs => Ok (z :: zs)
      | None, _ => Err (ArgumentError (S i))
      | _, Err e => Err e
      end
  | _ :: _, [] => Err (TypeError "this function takes more arguments")
  | t :: ts', v :: vs' =>
      match from_param t v, convert_args (S i) ts' vs' with
      | Some z, Ok zs => Ok (z :: zs)
      | None, _ => Err (ArgumentError (S i))
      | _, Err e => Err e
      end
  end.

(** What the caller gets for the C return value [raw]. *)
Definition to_py (restype : option ctype) (raw : Z) : pyval :=
  match restype with
  | None => PNone
  | Some t =>
      match int_kind t, t with
      | Some (sg, bits), _ => PInt (wrap sg bits raw)
      | None, c_void_p => if wrap false 64 raw =? 0 then PNone
                          else PInt (wrap false 64 raw)
      | None, POINTER t' => PPtr t' (wrap false 64 raw)
      | None, _ => PObj t raw
      end
  end.

Section Call.

(** The native side: what the symbol returns for the C arguments. *)
Variable native : string -> list Z -> Z.

Definition ffi_call (st : state) (f : string) (args : list pyval)
  : state * result pyval :=
  match lookup f (funcs st) with
  | None => (st, Err (NameError f))
  | Some fp =>
      match convert_args 0 (match fn_argtypes fp with
                            | Some ts => ts
                            | None => []
                            end) args with
      | Err e => (st, Err e)
      | Ok zs =>
          let ret := native (fn_symbol fp) zs in
          let st' := log (ENative (fn_symbol fp) zs ret) st in
          match lookup "errcheck" (fn_dict fp) with
          | Some _ => (st', Err (Unmodelled "errcheck"))
          | None => (st', Ok (to_py (fn_restype fp) ret))
          end
      end
  end.

End Call.

(** Calls the native side received, oldest first. *)
Definition native_calls (st : state) : list (string * list Z) :=
  flat_map (fun e => match e with
                     | ENative s a _ => [(s, a)]
                     | _ => []
                     end) (history st).

(** Induction over statements, through the branches of [SIf]. *)
Section StmtInd.

Variable P : stmt -> Prop.
Hypothesis Himport : forall m, P (SImport m).
Hypothesis Hassign : forall x v, P (SAssign x v).
Hypothesis Hif : forall c thn els, Forall P thn -> Forall P els -> P (SIf c thn els).
Hypothesis Hraise : forall m, P (SRaiseRuntimeError m).
Hypothesis Hcdll : forall x p, P (SCDLL x p).
Hypothesis Hclass : forall k n b, P (SClass k n b).
Hypothesis Hset : forall n fs, P (SSetFields n fs).
Hypothesis Happend : forall n f, P (SAppendField n f).
Hypothesis Hlookup : forall x l s, P (SLookup x l s).
Hypothesis Hattr : forall x a v, P (SSetAttr x a v).

Fixpoint stmt_nested_ind (s : stmt) : P s :=
  match s with
  | SImport m => Himport m
  | SAssign x v => Hassign x v
  | SIf c thn els =>
      let all := fix all (l : list stmt) : Forall P l :=
        match l with
        | [] => Forall_nil P
        | x :: r => Forall_cons x (stmt_nested_ind x) (all r)
        end in
      Hif c thn els (all thn) (all els)
  | SRaiseRuntimeError m => Hraise m
  | SCDLL x p => Hcdll x p
  | SClass k n b => Hclass k n b
  | SSetFields n fs => Hset n fs
  | SAppendField n f => Happend n f
  | SLookup x l s => Hlookup x l s
  | SSetAttr x a v => Hattr x a v
  end.

End StmtInd.

(** * dvdcss.py

    The bindings the script creates, in script order, and the script
    itself as the list [body] of its top-level statements. Nested
    classes carry their qualified name. *)

Module dvdcss.

Definition _POSIX_DVDCSS_LIB : pathexpr := PLit "libdvdcss.so.2".

Definition _PATH_MAX : Z := 4096.

Definition _IOVec : ctype := Cls "_IOVec".

Definition _IOVec_fields : list field :=
  [ fld "iov_base" c_void_p;
    fld "iov_len" c_size_t ].

Definition _DVD_KEY_SIZE : Z := 5.

Definition _DVD_KEY : ctype := Arr c_uint8 _DVD_KEY_SIZE.

Definition _DVDTitle : ctype := Cls "_DVDTitle".

Definition _DVDTitle_fields : list field :=
  [ fld "i_startlb" c_int;
    fld "p_key" _DVD_KEY;
    fld "p_next" (POINTER _DVDTitle) ].

Definition _CSS : ctype := Cls "_CSS".

Definition _CSS_fields : list field :=
  [ fld "i_agid" c_int;
    fld "p_bus_key" _DVD_KEY;
    fld "p_disc_key" _DVD_KEY;
    fld "p_title_key" _DVD_KEY ].

Definition _DVDCSSMethod : ctype := c_int.

Definition _DVDCSSS : ctype := Cls "_DVDCSSS".

Definition _DVDCSST : ctype := POINTER _DVDCSSS.

Definition _DVDCSSStreamCB : ctype := Cls "_DVDCSSStreamCB".

Definition _DVDCSSStreamCB_fields : list field :=
  [ fld "pf_seek" (CFUNCTYPE (POINTER c_int) [c_void_p; c_uint64]);
    fld "pf_read" (CFUNCTYPE (POINTER c_int) [c_void_p; c_void_p; c_int]);
    fld "pf_readv" (CFUNCTYPE (POINTER c_int) [c_void_p; c_void_p; c_int]) ].

Definition _DVDCSSS_fields : list field :=
  [ fld "psz_device" (POINTER c_char);
    fld "i_fd" c_int;
    fld "i_pos" c_int;
    fld "pf_seek" (CFUNCTYPE (POINTER c_int) [_DVDCSST; c_int]);
    fld "pf_read" (CFUNCTYPE (POINTER c_int) [_DVDCSST; c_void_p; c_int]);
    fld "pf_readv" (CFUNCTYPE (POINTER c_int) [_DVDCSST; POINTER _IOVec; c_int]);
    fld "i_method" _DVDCSSMethod;
    fld "css" _CSS;
    fld "b_ioctls" c_int;
    fld "b_scrambled" c_int;
    fld "p_titles" (POINTER _DVDTitle);
    fld "psz_cachefile" (Arr c_char _PATH_MAX);
    fld "psz_block" (POINTER c_char);
    fld "psz_error" (POINTER c_char);
    fld "b_errors" c_int;
    fld "b_debug" c_int ].

Definition body : list stmt :=
  [ SImport "ctypes";
    SImport "os";
    SAssign "_POSIX_DVDCSS_LIB" (RStr _POSIX_DVDCSS_LIB);
    SIf (OsNameIs "posix")
      [SCDLL "_libdvdcss" _POSIX_DVDCSS_LIB]
      [SIf (OsNameIs "nt")
          [SRaiseRuntimeError [FLit "Windows support not yet implemented. Sorry!"]]
          [SRaiseRuntimeError [FLit "Unsupported operating system "; FOsName; FLit ". "; FLit "This is almost certainly a bug."]]];
    SAssign "_PATH_MAX" (RInt _PATH_MAX);
    SClass KStructure "_IOVec" (Some _IOVec_fields);
    SAssign "_DVD_KEY_SIZE" (RInt _DVD_KEY_SIZE);
    SAssign "_DVD_KEY" (RType _DVD_KEY);
    SClass KStructure "_DVDTitle" None;
    SSetFields "_DVDTitle" _DVDTitle_fields;
    SClass KStructure "_CSS" (Some _CSS_fields);
    SAssign "_DVDCSSMethod" (RType _DVDCSSMethod);
    SClass KStructure "_DVDCSSS" None;
    SAssign "_DVDCSST" (RType _DVDCSST);
    SClass KStructure "_DVDCSSStreamCB" (Some _DVDCSSStreamCB_fields);
    SLookup "dvdcss_open" "_libdvdcss" "dvdcss_open";
    SSetAttr "dvdcss_open" "restype" (VType (Some _DVDCSST));
    SSetAttr "dvdcss_open" "argtypes" (VTuple [POINTER c_char]);
    SLookup "dvdcss_open_stream" "_libdvdcss" "dvdcss_open_stream";
    SSetAttr "dvdcss_open_stream" "restype" (VType (Some _DVDCSST));
    SSetAttr "dvdcss_open_stream" "argtypes" (VTuple [c_void_p; POINTER _DVDCSSStreamCB]);
    SLookup "dvdcss_close" "_libdvdcss" "dvdcss_close";
    SSetAttr "dvdcss_close" "restype" (VType (Some c_int));
    SSetAttr "dvdcss_close" "argtypes" (VTuple [_DVDCSST]);
    SLookup "dvdcss_seek" "_libdvdcss" "dvdcss_seek";
    SSetAttr "dvdcss_seek" "restype" (VType (Some c_int));
    SSetAttr "dvdcss_seek" "argtypes" (VTuple [_DVDCSST; c_int; c_int]);
    SLookup "dvdcss_read" "_libdvdcss" "dvdcss_read";
    SSetAttr "dvdcss_read" "restype" (VType (Some c_int));
    SSetAttr "dvdcss_read" "argtypes" (VTuple [_DVDCSST; c_void_p; c_int; c_int]);
    SLookup "dvdcss_readv" "_libdvdcss" "dvdcss_readv";
    SSetAttr "dvdcss_readv" "restype" (VType (Some c_int));
    SSetAttr "dvdcss_readv" "argtypes" (VTuple [_DVDCSST; c_void_p; c_int; c_int]);
    SLookup "dvdcss_error" "_libdvdcss" "dvdcss_error";
    SSetAttr "dvdcss_error" "restype" (VType (Some (POINTER c_char)));
    SSetAttr "dvdcss_error" "argtypes" (VTuple [_DVDCSST]);
    SLookup "dvdcss_is_scrambled" "_libdvdcss" "dvdcss_is_scrambled";
    SSetAttr "dvdcss_is_scrambled" "restype" (VType (Some c_int));
    SSetAttr "dvdcss_is_scrambled" "argtypes" (VTuple [_DVDCSST]);
    SSetFields "_DVDCSSS" _DVDCSSS_fields;
    SIf (OsNameIs "nt")
      [SAppendField "_DVDCSSS" (fld "b_file" c_int);
       SAppendField "_DVDCSSS" (fld "p_readv_buffer" (POINTER c_char));
       SAppendField "_DVDCSSS" (fld "i_readv_buf_size" c_int)]
      [];
    SAppendField "_DVDCSSS" (fld "p_stream" c_void_p);
    SAppendField "_DVDCSSS" (fld "p_stream_cb" (POINTER _DVDCSSStreamCB)) ].

End dvdcss.

(** * dvdread.py

    The bindings the script creates, in script order, and the script
    itself as the list [body] of its top-level statements. Nested
    classes carry their qualified name. *)

Module dvdread.

Definition _DVDCSST := dvdcss._DVDCSST.

Definition _POSIX_DVDREAD_LIB : pathexpr := PLit "libdvdread.so.8".

Definition _WIN_VLCCORE_LIB : pathexpr :=
  PExpandvars "%PROGRAMFILES%/VideoLAN/VLC/libvlccore.dll".

Definition _WIN_DVDREAD_LIB : pathexpr :=
  PExpandvars "%PROGRAMFILES%/VideoLAN/VLC/plugins/access/libdvdread_plugin.dll".

Definition _OffT : ctype := c_long.

Definition _DVDInputS : ctype := Cls "_DVDInputS".

Definition _DVDInputT : ctype := POINTER _DVDInputS.

Definition _DVDReaderDeviceS : ctype := Cls "_DVDReaderDeviceS".

Definition _DVDReaderDeviceS_fields : list field :=
  [ fld "isImageFile" c_int;
    fld "css_state" c_int;
    fld "css_title" c_int;
    fld "dev" _DVDInputT;
    fld "path_root" (POINTER c_char);
    fld "udfcache_level" c_int;
    fld "udfcache" c_void_p ].

Definition _TITLES_MAX : Z := 9.

Definition _DVDFileS : ctype := Cls "_DVDFileS".

Definition _DVDReaderS : ctype := Cls "_DVDReaderS".

Definition _GetBitsStateT : ctype := Cls "_GetBitsStateT".

Definition _GetBitsStateT_fields : list field :=
  [ fld "start" (POINTER c_uint8);
    fld "byte_position" c_uint32;
    fld "bit_position" c_uint32 ].

Definition _DVD_VIDEO_LB_LEN : Z := 2048.

Definition _MAX_UDF_FILE_NAME_LEN : Z := 2048.

Definition _DVDReaderT : ctype := _DVDReaderS.

Definition _DVDReaderDeviceT : ctype := _DVDReaderDeviceS.

Definition _DVDFileT : ctype := _DVDFileS.

Definition _DVDReaderStreamCB : ctype := Cls "_DVDReaderStreamCB".

Definition _DVDReaderStreamCB_fields : list field :=
  [ fld "pf_seek" (CFUNCTYPE (POINTER c_int) [c_void_p; c_int64]);
    fld "pf_read" (CFUNCTYPE (POINTER c_int) [c_void_p; c_void_p; c_int]);
    fld "pf_readv" (CFUNCTYPE (POINTER c_int) [c_void_p; c_void_p; c_int]) ].

Definition _DVDLoggerLevelT : ctype := c_int.

Definition _DVDLoggerCB : ctype := Cls "_DVDLoggerCB".

Definition _DVDLoggerCB_fields : list field :=
  [ fld "pf_log" (CFUNCTYPE c_void_p [c_void_p; _DVDLoggerLevelT; POINTER c_char]) ].

Definition _DVDStatT : ctype := Cls "_DVDStatT".

Definition _DVDStatT_fields : list field :=
  [ fld "size" _OffT;
    fld "nr_parts" c_int;
    fld "parts_size" (Arr _OffT 9) ].

Definition _DVDReadDomainT : ctype := c_int.

Definition _DVDTimeT : ctype := Cls "_DVDTimeT".

Definition _DVDTimeT_fields : list field :=
  [ fld "hour" c_uint8;
    fld "minute" c_uint8;
    fld "second" c_uint8;
    fld "frame_u" c_uint8 ].

Definition _VMCmdT : ctype := Cls "_VMCmdT".

Definition _VMCmdT_fields : list field :=
  [ fld "bytes" (Arr c_uint8 8) ].

Definition _COMMAND_DATA_SIZE : Z := 8.

Definition _VideoAttrT : ctype := Cls "_VideoAttrT".

Definition _VideoAttrT_fields : list field :=
  [ bit "mpeg_version" c_ubyte 2;
    bit "video_format" c_ubyte 2;
    bit "display_aspect_ratio" c_ubyte 2;
    bit "permitted_df" c_ubyte 2;
    bit "line21_cc_1" c_ubyte 1;
    bit "line21_cc_2" c_ubyte 1;
    bit "unknown1" c_ubyte 1;
    bit "bit_rate" c_ubyte 1;
    bit "picture_size" c_ubyte 2;
    bit "letterboxed" c_ubyte 1;
    bit "film_mode" c_ubyte 1 ].

Definition _Karaoke : ctype := Cls "_AudioAttrT._AppInfo._Karaoke".

Definition _Karaoke_fields : list field :=
  [ bit "unknown4" c_ubyte 1;
    bit "channel_assignment" c_ubyte 3;
    bit "version" c_ubyte 2;
    bit "mc_intro" c_ubyte 1;
    bit "mode" c_ubyte 1 ].

Definition _Surround : ctype := Cls "_AudioAttrT._AppInfo._Surround".

Definition _Surround_fields : list field :=
  [ bit "unknown5" c_ubyte 4;
    bit "dolby_encoded" c_ubyte 1;
    bit "unknown6" c_ubyte 3 ].

Definition _AppInfo : ctype := Cls "_AudioAttrT._AppInfo".

Definition _AppInfo_fields : list field :=
  [ fld "karaoke" _Karaoke;
    fld "surround" _Surround ].

Definition _AudioAttrT : ctype := Cls "_AudioAttrT".

Definition _AudioAttrT_fields : list field :=
  [ bit "audio_format" c_ubyte 3;
    bit "multichannel_extension" c_ubyte 1;
    bit "lang_type" c_ubyte 2;
    bit "application_mode" c_ubyte 2;
    bit "quantization" c_ubyte 2;
    bit "sample_frequency" c_ubyte 2;
    bit "unknown1" c_ubyte 1;
    bit "channels" c_ubyte 3;
    fld "lang_code" c_uint16;
    fld "lang_extension" c_uint8;
    fld "code_extension" c_uint8;
    fld "unknown3" c_uint8;
    fld "app_info" _AppInfo ].

Definition _MultichannelExtT : ctype := Cls "_MultichannelExtT".

Definition _MultichannelExtT_fields : list field :=
  [ bit "zero1" c_ubyte 7;
    bit "ach0_gme" c_ubyte 1;
    bit "zero2" c_ubyte 7;
    bit "ach1_gme" c_ubyte 1;
    bit "zero3" c_ubyte 4;
    bit "ach2_gv1e" c_ubyte 1;
    bit "ach2_gv2e" c_ubyte 1;
    bit "ach2_gm1e" c_ubyte 1;
    bit "ach2_gm2e" c_ubyte 1;
    bit "zero4" c_ubyte 4;
    bit "ach3_gv1e" c_ubyte 1;
    bit "ach3_gv2e" c_ubyte 1;
    bit "ach3_gmAe" c_ubyte 1;
    bit "ach3_se2e" c_ubyte 1;
    bit "zero5" c_ubyte 4;
    bit "ach4_gv1e" c_ubyte 1;
    bit "ach4_gv2e" c_ubyte 1;
    bit "ach4_gmBe" c_ubyte 1;
    bit "ach4_seBe" c_ubyte 1;
    fld "zero6" (Arr c_uint8 19) ].

Definition _SubPAttrT : ctype := Cls "_SubPAttrT".

Definition _SubPAttrT_fields : list field :=
  [ bit "code_mode" c_ubyte 3;
    bit "zero1" c_ubyte 3;
    bit "type" c_ubyte 2;
    fld "zero2" c_uint8;
    fld "lang_code" c_uint16;
    fld "lang_extension" c_uint8;
    fld "code_extension" c_uint8 ].

Definition _PGCCommandTblT : ctype := Cls "_PGCCommandTblT".

Definition _PGCCommandTblT_fields : list field :=
  [ fld "nr_of_pre" c_uint16;
    fld "nr_of_post" c_uint16;
    fld "nr_of_cell" c_uint16;
    fld "last_byte" c_uint16;
    fld "pre_cmds" (POINTER _VMCmdT);
    fld "post_cmds" (POINTER _VMCmdT);
    fld "cell_cmds" (POINTER _VMCmdT) ].

Definition _PGC_COMMAND_TBL_SIZE : Z := 8.

Definition _PGCProgramMapT : ctype := c_uint8.

Definition _CellPlaybackT : ctype := Cls "_CellPlaybackT".

Definition _CellPlaybackT_fields : list field :=
  [ bit "block_mode" c_ubyte 2;
    bit "block_type" c_ubyte 2;
    bit "seamless_play" c_ubyte 1;
    bit "interleaved" c_ubyte 1;
    bit "stc_discontinuity" c_ubyte 1;
    bit "seamless_angle" c_ubyte 1;
    bit "zero_1" c_ubyte 1;
    bit "playback_mode" c_ubyte 1;
    bit "restricted" c_ubyte 1;
    bit "cell_type" c_ubyte 5;
    fld "still_time" c_uint8;
    fld "cell_cmd_nr" c_uint8;
    fld "playback_time" _DVDTimeT;
    fld "first_sector" c_uint32;
    fld "first_ilvu_end_sector" c_uint32;
    fld "last_vobu_start_sector" c_uint32;
    fld "last_sector" c_uint32 ].

Definition _BLOCK_TYPE_NONE : Z := 0.

Definition _BLOCK_TYPE_ANGLE_BLOCK : Z := 1.

Definition _BLOCK_MODE_NOT_IN_BLOCK : Z := 0.

Definition _BLOCK_MODE_FIRST_CELL : Z := 1.

Definition _BLOCK_MODE_IN_BLOCK : Z := 2.

Definition _BLOCK_MODE_LAST_CELL : Z := 3.

Definition _CellPositionT : ctype := Cls "_CellPositionT".

Definition _CellPositionT_fields : list field :=
  [ fld "vob_id_nr" c_uint16;
    fld "zero_1" c_uint8;
    fld "cell_nr" c_uint8 ].

Definition _UserOpsT : ctype := Cls "_UserOpsT".

Definition _UserOpsT_fields : list field :=
  [ bit "zero" c_ubyte 7;
    bit "video_pres_mode_change" c_ubyte 1;
    bit "karaoke_audio_pres_mode_change" c_ubyte 1;
    bit "angle_change" c_ubyte 1;
    bit "subpic_stream_change" c_ubyte 1;
    bit "audio_stream_change" c_ubyte 1;
    bit "pause_on" c_ubyte 1;
    bit "still_off" c_ubyte 1;
    bit "button_select_or_activate" c_ubyte 1;
    bit "resume" c_ubyte 1;
    bit "chapter_menu_call" c_ubyte 1;
    bit "angle_menu_call" c_ubyte 1;
    bit "audio_menu_call" c_ubyte 1;
    bit "subpic_menu_call" c_ubyte 1;
    bit "root_menu_call" c_ubyte 1;
    bit "title_menu_call" c_ubyte 1;
    bit "backward_scan" c_ubyte 1;
    bit "forward_scan" c_ubyte 1;
    bit "next_pg_search" c_ubyte 1;
    bit "prev_or_top_pg_search" c_ubyte 1;
    bit "time_or_chapter_search" c_ubyte 1;
    bit "go_up" c_ubyte 1;
    bit "stop" c_ubyte 1;
    bit "title_play" c_ubyte 1;
    bit "chapter_search_or_play" c_ubyte 1;
    bit "title_or_time_play" c_ubyte 1 ].

Definition _PGCT : ctype := Cls "_PGCT".

Definition _PGCT_fields : list field :=
  [ fld "zero_1" c_uint16;
    fld "nr_of_programs" c_uint8;
    fld "nr_of_cells" c_uint8;
    fld "playback_time" _DVDTimeT;
    fld "prohibited_ops" _UserOpsT;
    fld "audio_control" (Arr c_uint16 8);
    fld "subp_control" (Arr c_uint32 32);
    fld "next_pgc_nr" c_uint16;
    fld "prev_pgc_nr" c_uint16;
    fld "goup_pgc_nr" c_uint16;
    fld "pg_playback_mode" c_uint8;
    fld "still_time" c_uint8;
    fld "palette" (Arr c_uint32 16);
    fld "command_tbl_offset" c_uint16;
    fld "program_map_offset" c_uint16;
    fld "cell_playback_offset" c_uint16;
    fld "cell_position_offset" c_uint16;
    fld "command_tbl" (POINTER _PGCCommandTblT);
    fld "program_map" (POINTER _PGCProgramMapT);
    fld "cell_playback" (POINTER _CellPlaybackT);
    fld "cell_position" (POINTER _CellPositionT);
    fld "ref_count" c_int ].

Definition _PGC_SIZE : Z := 236.

Definition _PGCISrPT : ctype := Cls "_PGCISrPT".

Definition _PGCISrPT_fields : list field :=
  [ fld "entry_id" c_uint8;
    bit "block_mode" c_ubyte 2;
    bit "block_type" c_ubyte 2;
    bit "zero_1" c_ubyte 4;
    fld "ptl_id_mask" c_uint16;
    fld "pgc_start_byte" c_uint32;
    fld "pgc" (POINTER _PGCT) ].

Definition _PGCI_SRP_SIZE : Z := 8.

Definition _PGCITT : ctype := Cls "_PGCITT".

Definition _PGCITT_fields : list field :=
  [ fld "nr_of_pgci_srp" c_uint16;
    fld "zero_1" c_uint16;
    fld "last_byte" c_uint32;
    fld "pgci_srp" (POINTER _PGCISrPT);
    fld "ref_count" c_int ].

Definition _PGCIT_SIZE : Z := 8.

Definition _PGCILUT : ctype := Cls "_PGCILUT".

Definition _PGCILUT_fields : list field :=
  [ fld "lang_code" c_uint16;
    fld "lang_extension" c_uint8;
    fld "exists" c_uint8;
    fld "lang_start_byte" c_uint32;
    fld "pgcit" (POINTER _PGCITT) ].

Definition _PGCI_LU_SIZE : Z := 8.

Definition _PGCIUTT : ctype := Cls "_PGCIUTT".

Definition _PGCIUTT_fields : list field :=
  [ fld "nr_of_lus" c_uint16;
    fld "zero_1" c_uint16;
    fld "last_byte" c_uint32;
    fld "lu" (POINTER _PGCILUT) ].

Definition _PGCI_UT_SIZE : Z := 8.

Definition _CellAdrT : ctype := Cls "_CellAdrT".

Definition _CellAdrT_fields : list field :=
  [ fld "vob_id" c_uint16;
    fld "cell_id" c_uint8;
    fld "zero_1" c_uint8;
    fld "start_sector" c_uint32;
    fld "last_sector" c_uint32 ].

Definition _CAdTT : ctype := Cls "_CAdTT".

Definition _CAdTT_fields : list field :=
  [ fld "nr_of_vobs" c_uint16;
    fld "zero_1" c_uint16;
    fld "last_byte" c_uint32;
    fld "cell_adr_table" (POINTER _CellAdrT) ].

Definition _C_ADT_SIZE : Z := 8.

Definition _VOBUAdMapT : ctype := Cls "_VOBUAdMapT".

Definition _VOBUAdMapT_fields : list field :=
  [ fld "last_byte" c_uint32;
    fld "vobu_start_sectors" (POINTER c_uint32) ].

Definition _VOBU_ADMAP_SIZE : Z := 4.

Definition _VMGIMatT : ctype := Cls "_VMGIMatT".

Definition _VMGIMatT_fields : list field :=
  [ fld "vmg_identifier" (Arr c_char 12);
    fld "vmg_last_sector" c_uint32;
    fld "zero_1" (Arr c_uint8 12);
    fld "vmgi_last_sector" c_uint32;
    fld "zero_2" c_uint8;
    fld "specification_version" c_uint8;
    fld "vmg_category" c_uint32;
    fld "vmg_nr_of_volumes" c_uint16;
    fld "vmg_this_volume_nr" c_uint16;
    fld "disc_side" c_uint8;
    fld "zero_3" (Arr c_uint8 19);
    fld "vmg_nr_of_title_sets" c_uint16;
    fld "provider_identifier" (Arr c_char 32);
    fld "vmg_pos_code" c_uint64;
    fld "zero_4" (Arr c_uint8 24);
    fld "vmgi_last_byte" c_uint32;
    fld "first_play_pgc" c_uint32;
    fld "zero_5" (Arr c_uint8 56);
    fld "vmgm_vobs" c_uint32;
    fld "tt_srpt" c_uint32;
    fld "vmgm_pgci_ut" c_uint32;
    fld "ptl_mait" c_uint32;
    fld "vts_atrt" c_uint32;
    fld "txtdt_mgi" c_uint32;
    fld "vmgm_c_adt" c_uint32;
    fld "vmgm_vobu_admap" c_uint32;
    fld "zero_6" (Arr c_uint8 32);
    fld "vmgm_video_attr" _VideoAttrT;
    fld "zero_7" c_uint8;
    fld "nr_of_vmgm_audio_streams" c_uint8;
    fld "vmgm_audio_attr" _AudioAttrT;
    fld "zero_8" (Arr _AudioAttrT 7);
    fld "zero_9" (Arr c_uint8 17);
    fld "nr_of_vmgm_subp_streams" c_uint8;
    fld "vmgm_subp_attr" _SubPAttrT;
    fld "zero_10" (Arr _SubPAttrT 27) ].

Definition _PlaybackTypeT : ctype := Cls "_PlaybackTypeT".

Definition _PlaybackTypeT_fields : list field :=
  [ bit "zero_1" c_ubyte 1;
    bit "multi_or_random_pgc_title" c_ubyte 1;
    bit "jlc_exists_in_cell_cmd" c_ubyte 1;
    bit "jlc_exists_in_prepost_cmd" c_ubyte 1;
    bit "jlc_exists_in_button_cmd" c_ubyte 1;
    bit "jlc_exists_in_tt_dom" c_ubyte 1;
    bit "chapter_search_or_play" c_ubyte 1;
    bit "title_or_time_play" c_ubyte 1 ].

Definition _TitleInfoT : ctype := Cls "_TitleInfoT".

Definition _TitleInfoT_fields : list field :=
  [ fld "pb_ty" _PlaybackTypeT;
    fld "nr_of_angles" c_uint8;
    fld "nr_of_ptts" c_uint16;
    fld "parental_id" c_uint16;
    fld "title_set_nr" c_uint8;
    fld "vts_ttn" c_uint8;
    fld "title_set_sector" c_uint32 ].

Definition _TtSrPTT : ctype := Cls "_TtSrPTT".

Definition _TtSrPTT_fields : list field :=
  [ fld "nr_of_srpts" c_uint16;
    fld "zero_1" c_uint16;
    fld "last_byte" c_uint32;
    fld "title" (POINTER _TitleInfoT) ].

Definition _TT_SRPT_SIZE : Z := 8.

Definition _PTL_MAIT_NUM_LEVEL : Z := 8.

Definition _PFLevelT : ctype := Arr c_uint16 _PTL_MAIT_NUM_LEVEL.

Definition _PtlMaITCountryT : ctype := Cls "_PtlMaITCountryT".

Definition _PtlMaITCountryT_fields : list field :=
  [ fld "country_code" c_uint16;
    fld "zero_1" c_uint16;
    fld "pf_ptl_mai_start_byte" c_uint16;
    fld "zero_2" c_uint16;
    fld "pf_ptl_mai" (POINTER _PFLevelT) ].

Definition _PTL_MAIT_COUNTRY_SIZE : Z := 8.

Definition _PtlMaITT : ctype := Cls "_PtlMaITT".

Definition _PtlMaITT_fields : list field :=
  [ fld "nr_of_countries" c_uint16;
    fld "nr_of_vtss" c_uint16;
    fld "last_byte" c_uint32;
    fld "countries" (POINTER _PtlMaITCountryT) ].

Definition _PTL_MAIT_SIZE : Z := 8.

Definition _VTSAttributesT : ctype := Cls "_VTSAttributesT".

Definition _VTSAttributesT_fields : list field :=
  [ fld "last_byte" c_uint32;
    fld "vts_cat" c_uint32;
    fld "vtsm_vobs_attr" _VideoAttrT;
    fld "zero_1" c_uint8;
    fld "nr_of_vtsm_audio_streams" c_uint8;
    fld "vtsm_audio_attr" _AudioAttrT;
    fld "zero_2" (Arr _AudioAttrT 7);
    fld "zero_3" (Arr c_uint8 16);
    fld "zero_4" c_uint8;
    fld "nr_of_vtsm_subp_streams" c_uint8;
    fld "vtsm_subp_attr" _SubPAttrT;
    fld "zero_5" (Arr _SubPAttrT 27);
    fld "zero_6" (Arr c_uint8 2);
    fld "vtstt_vobs_video_attr" _VideoAttrT;
    fld "zero_7" c_uint8;
    fld "nr_of_vtstt_audio_streams" c_uint8;
    fld "vtstt_audio_attr" (Arr _AudioAttrT 8);
    fld "zero_8" (Arr c_uint8 16);
    fld "zero_9" c_uint8;
    fld "nr_of_vtstt_subp_streams" c_uint8;
    fld "vtstt_subp_attr" (Arr _SubPAttrT 32) ].

Definition _VTS_ATTRIBUTES_SIZE : Z := 542.

Definition _VTS_ATTRIBUTES_MIN_SIZE : Z := 356.

Definition _VTSAtrTT : ctype := Cls "_VTSAtrTT".

Definition _VTSAtrTT_fields : list field :=
  [ fld "nr_of_vtss" c_uint16;
    fld "zero_1" c_uint16;
    fld "last_byte" c_uint32;
    fld "vts" (POINTER _VTSAttributesT);
    fld "vts_atrt_offsets" (POINTER c_uint32) ].

Definition _VTS_ATRT_SIZE : Z := 8.

Definition _TxtDtT : ctype := Cls "_TxtDtT".

Definition _TxtDtT_fields : list field :=
  [ fld "last_byte" c_uint32;
    fld "offsets" (Arr c_uint16 100);
    fld "unknown" c_uint16;
    fld "zero_1" c_uint16;
    fld "type_of_info" c_uint8;
    fld "unknown1" c_uint8;
    fld "unknown2" c_uint8;
    fld "unknown3" c_uint8;
    fld "unknown4" c_uint8;
    fld "unknown5" c_uint8;
    fld "offset" c_uint16;
    fld "text" (Arr c_char 12) ].

Definition _TxtDtLUT : ctype := Cls "_TxtDtLUT".

Definition _TxtDtLUT_fields : list field :=
  [ fld "lang_code" c_uint16;
    fld "zero_1" c_uint8;
    fld "char_set" c_uint8;
    fld "txtdt_start_byte" c_uint32;
    fld "txtdt" (POINTER _TxtDtT) ].

Definition _TXTDT_LU_SIZE : Z := 8.

Definition _TxtDtMgIT : ctype := Cls "_TxtDtMgIT".

Definition _TxtDtMgIT_fields : list field :=
  [ fld "disc_name" (Arr c_char 12);
    fld "unknown1" c_uint16;
    fld "nr_of_language_units" c_uint16;
    fld "last_byte" c_uint32;
    fld "lu" (POINTER _TxtDtLUT) ].

Definition _TXTDT_MGI_SIZE : Z := 20.

Definition _VTSIMaTT : ctype := Cls "_VTSIMaTT".

Definition _VTSIMaTT_fields : list field :=
  [ fld "vts_identifier" (Arr c_char 12);
    fld "vts_last_sector" c_uint32;
    fld "zero_1" (Arr c_uint8 12);
    fld "vtsi_last_sector" c_uint32;
    fld "zero_2" c_uint8;
    fld "specification_version" c_uint8;
    fld "vts_category" c_uint32;
    fld "zero_3" c_uint16;
    fld "zero_4" c_uint16;
    fld "zero_5" c_uint8;
    fld "zero_6" (Arr c_uint8 19);
    fld "zero_7" c_uint16;
    fld "zero_8" (Arr c_uint8 32);
    fld "zero_9" c_uint64;
    fld "zero_10" (Arr c_uint8 24);
    fld "vtsi_last_byte" c_uint32;
    fld "zero_11" c_uint32;
    fld "zero_12" (Arr c_uint8 56);
    fld "vtsm_vobs" c_uint32;
    fld "vtstt_vobs" c_uint32;
    fld "vts_ptt_srpt" c_uint32;
    fld "vts_pgcit" c_uint32;
    fld "vtsm_pgci_ut" c_uint32;
    fld "vts_tmapt" c_uint32;
    fld "vtsm_c_adt" c_uint32;
    fld "vtsm_vobu_admap" c_uint32;
    fld "vts_c_adt" c_uint32;
    fld "vts_vobu_admap" c_uint32;
    fld "zero_13" (Arr c_uint8 24);
    fld "vtsm_video_attr" _VideoAttrT;
    fld "zero_14" c_uint8;
    fld "nr_of_vtsm_audio_streams" c_uint8;
    fld "vtsm_audio_attr" _AudioAttrT;
    fld "zero_15" (Arr _AudioAttrT 7);
    fld "zero_16" (Arr c_uint8 17);
    fld "nr_of_vtsm_subp_streams" c_uint8;
    fld "vtsm_subp_attr" _SubPAttrT;
    fld "zero_17" (Arr _SubPAttrT 27);
    fld "zero_18" (Arr c_uint8 2);
    fld "vts_video_attr" _VideoAttrT;
    fld "zero_19" c_uint8;
    fld "nr_of_vts_audio_streams" c_uint8;
    fld "vts_audio_attr" (Arr _AudioAttrT 8);
    fld "zero_20" (Arr c_uint8 17);
    fld "nr_of_vts_subp_streams" c_uint8;
    fld "vts_subp_attr" (Arr _SubPAttrT 32);
    fld "zero_21" c_uint16;
    fld "vts_mu_audio_attr" (Arr _MultichannelExtT 8) ].

Definition _PtTInfoT : ctype := Cls "_PtTInfoT".

Definition _PtTInfoT_fields : list field :=
  [ fld "pgcn" c_uint16;
    fld "pgn" c_uint16 ].

Definition _TTUT : ctype := Cls "_TTUT".

Definition _TTUT_fields : list field :=
  [ fld "nr_of_ptts" c_uint16;
    fld "ptt" (POINTER _PtTInfoT) ].

Definition _VTSPtTSrPTT : ctype := Cls "_VTSPtTSrPTT".

Definition _VTSPtTSrPTT_fields : list field :=
  [ fld "nr_of_srpts" c_uint16;
    fld "zero_1" c_uint16;
    fld "last_byte" c_uint32;
    fld "title" (POINTER _TTUT);
    fld "ttu_offset" (POINTER c_uint32) ].

Definition _VTS_PTT_SRPT_SIZE : Z := 8.

Definition _MapEntT : ctype := c_uint32.

Definition _VTSTMapT : ctype := Cls "_VTSTMapT".

Definition _VTSTMapT_fields : list field :=
  [ fld "tmu" c_uint8;
    fld "zero_1" c_uint8;
    fld "nr_of_entries" c_uint16;
    fld "map_ent" (POINTER _MapEntT) ].

Definition _VTS_TMAP_SIZE : Z := 4.

Definition _VTSTMapTT : ctype := Cls "_VTSTMapTT".

Definition _VTSTMapTT_fields : list field :=
  [ fld "nr_of_tmaps" c_uint16;
    fld "zero_1" c_uint16;
    fld "last_byte" c_uint32;
    fld "tmap" (POINTER _VTSTMapT);
    fld "tmap_offset" (POINTER c_uint32) ].

Definition _VTS_TMAPT_SIZE : Z := 8.

Definition _IFOHandleT : ctype := Cls "_IFOHandleT".

Definition _IFOHandleT_fields : list field :=
  [ fld "vmgi_mat" (POINTER _VMGIMatT);
    fld "tt_srpt" (POINTER _TtSrPTT);
    fld "first_play_pgc" (POINTER _PGCT);
    fld "ptl_mait" (POINTER _PtlMaITT);
    fld "vts_atrt" (POINTER _VTSAtrTT);
    fld "txtdt_mgi" (POINTER _TxtDtMgIT);
    fld "pgci_ut" (POINTER _PGCIUTT);
    fld "menu_c_adt" (POINTER _CAdTT);
    fld "menu_vobu_admap" (POINTER _VOBUAdMapT);
    fld "vtsi_mat" (POINTER _VTSIMaTT);
    fld "vts_ptt_srpt" (POINTER _VTSPtTSrPTT);
    fld "vts_pgcit" (POINTER _PGCITT);
    fld "vts_tmapt" (POINTER _VTSTMapTT);
    fld "vts_c_adt" (POINTER _CAdTT);
    fld "vts_vobu_admap" (POINTER _VOBUAdMapT) ].

Definition _PCI_BYTES : Z := int_literal "3d4" 16.

Definition _DSI_BYTES : Z := int_literal "3fa" 16.

Definition _PS2_PCI_SUBSTREAM_ID : Z := 0.

Definition _PS2_DSI_SUBSTREAM_ID : Z := 1.

Definition _DSI_START_BYTE : Z := 1031.

Definition _PCIGIT : ctype := Cls "_PCIGIT".

Definition _PCIGIT_fields : list field :=
  [ fld "nv_pck_lbn" c_uint32;
    fld "vobu_cat" c_uint16;
    fld "zero1" c_uint16;
    fld "vobu_uop_ctl" _UserOpsT;
    fld "vobu_s_ptm" c_uint32;
    fld "vobu_e_ptm" c_uint32;
    fld "vobu_se_e_ptm" c_uint32;
    fld "e_eltm" _DVDTimeT;
    fld "vobu_isrc" (Arr c_char 32) ].

Definition _NSmlAglIT : ctype := Cls "_NSmlAglIT".

Definition _NSmlAglIT_fields : list field :=
  [ fld "nsml_agl_dsta" (Arr c_uint32 9) ].

Definition _HLGIT : ctype := Cls "_HLGIT".

Definition _HLGIT_fields : list field :=
  [ fld "hli_ss" c_uint16;
    fld "hli_s_ptm" c_uint32;
    fld "hli_e_ptm" c_uint32;
    fld "btn_se_e_ptm" c_uint32;
    bit "zero1" c_ubyte 2;
    bit "btngr_ns" c_ubyte 2;
    bit "zero2" c_ubyte 1;
    bit "btngr1_dsp_ty" c_ubyte 3;
    bit "zero3" c_ubyte 1;
    bit "btngr2_dsp_ty" c_ubyte 3;
    bit "zero4" c_ubyte 1;
    bit "btngr3_dsp_ty" c_ubyte 3;
    fld "btn_ofn" c_uint8;
    fld "btn_ns" c_uint8;
    fld "nsl_btn_ns" c_uint8;
    fld "zero5" c_uint8;
    fld "fosl_btnn" c_uint8;
    fld "foac_btnn" c_uint8 ].

Definition _BtnColITT : ctype := Cls "_BtnColITT".

Definition _BtnColITT_fields : list field :=
  [ fld "btn_coli" (Arr (Arr c_uint32 3) 2) ].

Definition _BtnIT : ctype := Cls "_BtnIT".

Definition _BtnIT_fields : list field :=
  [ bit "btn_coln" c_uint 2;
    bit "x_start" c_uint 10;
    bit "zero1" c_uint 2;
    bit "x_end" c_uint 10;
    bit "auto_action_mode" c_uint 2;
    bit "y_start" c_uint 10;
    bit "zero2" c_uint 2;
    bit "y_end" c_uint 10;
    bit "zero3" c_uint 2;
    bit "up" c_uint 6;
    bit "zero4" c_uint 2;
    bit "down" c_uint 6;
    bit "zero5" c_uint 2;
    bit "left" c_uint 6;
    bit "zero6" c_uint 2;
    bit "right" c_uint 6;
    fld "cmd" _VMCmdT ].

Definition _HLIT : ctype := Cls "_HLIT".

Definition _HLIT_fields : list field :=
  [ fld "hl_gi" _HLGIT;
    fld "btn_colit" _BtnColITT;
    fld "btnit" (Arr _BtnIT 36) ].

Definition _PCIT : ctype := Cls "_PCIT".

Definition _PCIT_fields : list field :=
  [ fld "pci_gi" _PCIGIT;
    fld "nsml_agli" _NSmlAglIT;
    fld "hli" _HLIT;
    fld "zero1" (Arr c_uint8 189) ].

Definition _DSIGIT : ctype := Cls "_DSIGIT".

Definition _DSIGIT_fields : list field :=
  [ fld "nv_pck_scr" c_uint32;
    fld "nv_pck_lbn" c_uint32;
    fld "vobu_ea" c_uint32;
    fld "vobu_1stref_ea" c_uint32;
    fld "vobu_2ndref_ea" c_uint32;
    fld "vobu_3rdref_ea" c_uint32;
    fld "vobu_vob_idn" c_uint16;
    fld "zero1" c_uint8;
    fld "vobu_c_idn" c_uint8;
    fld "c_eltm" _DVDTimeT ].

Definition _VOBA : ctype := Cls "_SmlPBIT._VOBA".

Definition _VOBA_fields : list field :=
  [ fld "stp_ptm1" c_uint32;
    fld "stp_ptm2" c_uint32;
    fld "gap_len1" c_uint32;
    fld "gap_len2" c_uint32 ].

Definition _SmlPBIT : ctype := Cls "_SmlPBIT".

Definition _SmlPBIT_fields : list field :=
  [ fld "category" c_uint16;
    fld "ilvu_ea" c_uint32;
    fld "ilvu_sa" c_uint32;
    fld "size" c_uint16;
    fld "vob_v_s_s_ptm" c_uint32;
    fld "vob_v_e_e_ptm" c_uint32;
    fld "vob_a" (Arr _VOBA 8) ].

Definition _SmlAglDataT : ctype := Cls "_SmlAglDataT".

Definition _SmlAglDataT_fields : list field :=
  [ fld "address" c_uint32;
    fld "size" c_uint16 ].

Definition _SmlAglIT : ctype := Cls "_SmlAglIT".

Definition _SmlAglIT_fields : list field :=
  [ fld "data" (Arr _SmlAglDataT 9) ].

Definition _VOBUSrIT : ctype := Cls "_VOBUSrIT".

Definition _VOBUSrIT_fields : list field :=
  [ fld "next_video" c_uint32;
    fld "fwda" (Arr c_uint32 19);
    fld "next_vobu" c_uint32;
    fld "prev_vobu" c_uint32;
    fld "bwda" (Arr c_uint32 19);
    fld "prev_video" c_uint32 ].

Definition _SRI_END_OF_CELL : Z := int_literal "3fffffff" 16.

Definition _SyncIT : ctype := Cls "_SyncIT".

Definition _SyncIT_fields : list field :=
  [ fld "a_synca" (Arr c_uint16 8);
    fld "sp_synca" (Arr c_uint32 32) ].

Definition _DSIT : ctype := Cls "_DSIT".

Definition _DSIT_fields : list field :=
  [ fld "dsi_gi" _DSIGIT;
    fld "sml_pbi" _SmlPBIT;
    fld "sml_agli" _SmlAglIT;
    fld "vobu_sri" _VOBUSrIT;
    fld "synci" _SyncIT;
    fld "zero1" (Arr c_uint8 471) ].

Definition _DVDInputS_fields : list field :=
  [ fld "dvdcss" _DVDCSST;
    fld "priv" c_void_p;
    fld "logcb" (POINTER _DVDLoggerCB);
    fld "ipos" _OffT;
    fld "fd" c_int;
    fld "stream_cb" (POINTER _DVDReaderStreamCB) ].

Definition _DVDFileS_fields : list field :=
  [ fld "ctx" (POINTER _DVDReaderT);
    fld "css_title" c_int;
    fld "lb_start" c_uint32;
    fld "seek_pos" c_uint32;
    fld "title_sizes" (Arr c_size_t _TITLES_MAX);
    fld "title_devs" (Arr _DVDInputT _TITLES_MAX);
    fld "filesize" c_ssize_t;
    fld "cache" (POINTER c_ubyte) ].

Definition _DVDReaderS_fields : list field :=
  [ fld "rd" (POINTER _DVDReaderDeviceT);
    fld "priv" c_void_p;
    fld "logcb" _DVDLoggerCB;
    fld "ifoBUPflags" (Arr c_uint64 2) ].

Definition body : list stmt :=
  [ SImport "ctypes";
    SImport "os";
    SImport "dvdcss";
    SAssign "_POSIX_DVDREAD_LIB" (RStr _POSIX_DVDREAD_LIB);
    SAssign "_WIN_VLCCORE_LIB" (RStr _WIN_VLCCORE_LIB);
    SAssign "_WIN_DVDREAD_LIB" (RStr _WIN_DVDREAD_LIB);
    SIf (OsNameIs "posix")
      [SCDLL "_libdvdread" _POSIX_DVDREAD_LIB]
      [SIf (OsNameIs "nt")
          [SCDLL "_libvlccore" _WIN_VLCCORE_LIB;
           SCDLL "_libdvdread" _WIN_DVDREAD_LIB]
          [SRaiseRuntimeError [FLit "Unsupported operating system "; FOsName; FLit ". "; FLit "This is almost certainly a bug."]]];
    SAssign "_OffT" (RType _OffT);
    SClass KStructure "_DVDInputS" None;
    SAssign "_DVDInputT" (RType _DVDInputT);
    SClass KStructure "_DVDReaderDeviceS" (Some _DVDReaderDeviceS_fields);
    SAssign "_TITLES_MAX" (RInt _TITLES_MAX);
    SClass KStructure "_DVDFileS" None;
    SClass KStructure "_DVDReaderS" None;
    SClass KStructure "_GetBitsStateT" (Some _GetBitsStateT_fields);
    SLookup "dvdread_getbits_init" "_libdvdread" "dvdread_getbits_init";
    SSetAttr "dvdread_getbits_init" "restype" (VType (Some c_int));
    SSetAttr "dvdread_getbits_init" "argtypes" (VTuple [POINTER _GetBitsStateT; POINTER c_uint8]);
    SLookup "dvdread_getbits" "_libdvdread" "dvdread_getbits";
    SSetAttr "dvdread_getbits" "restype" (VType (Some c_uint32));
    SSetAttr "dvdread_getbits" "argtypes" (VTuple [POINTER _GetBitsStateT; c_uint32]);
    SAssign "_DVD_VIDEO_LB_LEN" (RInt _DVD_VIDEO_LB_LEN);
    SAssign "_MAX_UDF_FILE_NAME_LEN" (RInt _MAX_UDF_FILE_NAME_LEN);
    SAssign "_DVDReaderT" (RType _DVDReaderT);
    SAssign "_DVDReaderDeviceT" (RType _DVDReaderDeviceT);
    SAssign "_DVDFileT" (RType _DVDFileT);
    SClass KStructure "_DVDReaderStreamCB" (Some _DVDReaderStreamCB_fields);
    SAssign "_DVDLoggerLevelT" (RType _DVDLoggerLevelT);
    SClass KStructure "_DVDLoggerCB" (Some _DVDLoggerCB_fields);
    SClass KStructure "_DVDStatT" (Some _DVDStatT_fields);
    SLookup "dvd_open" "_libdvdread" "DVDOpen";
    SSetAttr "dvd_open" "restype" (VType (Some (POINTER _DVDReaderT)));
    SSetAttr "dvd_open" "argtypes" (VTuple [POINTER c_char]);
    SLookup "dvd_open_stream" "_libdvdread" "DVDOpenStream";
    SSetAttr "dvd_open_stream" "restype" (VType (Some (POINTER _DVDReaderT)));
    SSetAttr "dvd_open_stream" "argtypes" (VTuple [POINTER c_char; POINTER _DVDReaderStreamCB]);
    SLookup "dvd_open2" "_libdvdread" "DVDOpen2";
    SSetAttr "dvd_open2" "restype" (VType (Some (POINTER _DVDReaderT)));
    SSetAttr "dvd_open2" "argtypes" (VTuple [c_void_p; POINTER _DVDLoggerCB; POINTER c_char]);
    SLookup "dvd_open_stream2" "_libdvdread" "DVDOpenStream2";
    SSetAttr "dvd_open_stream2" "restype" (VType (Some (POINTER _DVDReaderT)));
    SSetAttr "dvd_open_stream2" "argtypes" (VTuple [c_void_p; POINTER _DVDLoggerCB; POINTER _DVDReaderStreamCB]);
    SLookup "dvd_close" "_libdvdread" "DVDClose";
    SSetAttr "dvd_close" "restype" (VType None);
    SSetAttr "dvd_close" "argtypes" (VTuple [POINTER _DVDReaderT]);
    SAssign "_DVDReadDomainT" (RType _DVDReadDomainT);
    SLookup "dvd_file_stat" "_libdvdread" "DVDFileStat";
    SSetAttr "dvd_file_stat" "restype" (VType (Some c_int));
    SSetAttr "dvd_file_stat" "argtypes" (VTuple [POINTER _DVDReaderT; c_int; _DVDReadDomainT; POINTER _DVDStatT]);
    SLookup "dvd_open_file" "_libdvdread" "DVDOpenFile";
    SSetAttr "dvd_open_file" "restype" (VType (Some (POINTER _DVDFileT)));
    SSetAttr "dvd_open_file" "argtypes" (VTuple [POINTER _DVDReaderT; c_int; _DVDReadDomainT]);
    SLookup "dvd_close_file" "_libdvdread" "DVDCloseFile";
    SSetAttr "dvd_close_file" "restype" (VType None);
    SSetAttr "dvd_close_file" "argtypes" (VTuple [POINTER _DVDFileT]);
    SLookup "dvd_read_blocks" "_libdvdread" "DVDReadBlocks";
    SSetAttr "dvd_read_blocks" "restype" (VType (Some c_ssize_t));
    SSetAttr "dvd_read_blocks" "argtypes" (VTuple [POINTER _DVDFileT; c_int; c_size_t; POINTER c_char]);
    SLookup "dvd_file_seek" "_libdvdread" "DVDFileSeek";
    SSetAttr "dvd_file_seek" "restype" (VType (Some c_int32));
    SSetAttr "dvd_file_seek" "argtypes" (VTuple [POINTER _DVDFileT; c_int32]);
    SLookup "dvd_read_bytes" "_libdvdread" "DVDReadBytes";
    SSetAttr "dvd_read_bytes" "restype" (VType (Some c_ssize_t));
    SSetAttr "dvd_read_bytes" "argtypes" (VTuple [POINTER _DVDFileT; c_void_p; c_size_t]);
    SLookup "dvd_file_size" "_libdvdread" "DVDFileSize";
    SSetAttr "dvd_file_size" "restype" (VType (Some c_ssize_t));
    SSetAttr "dvd_file_size" "argtypes" (VTuple [POINTER _DVDFileT]);
    SLookup "dvd_disc_id" "_libdvdread" "DVDDiscID";
    SSetAttr "dvd_disc_id" "restype" (VType (Some c_int));
    SSetAttr "dvd_disc_id" "argtypes" (VTuple [POINTER _DVDReaderT; POINTER c_ubyte]);
    SLookup "dvd_volume_info" "_libdvdread" "DVDUDFVolumeInfo";
    SSetAttr "dvd_volume_info" "restype" (VType (Some c_int));
    SSetAttr "dvd_volume_info" "argtypes" (VTuple [POINTER _DVDReaderT; POINTER c_char; c_uint; POINTER c_ubyte; c_uint]);
    SLookup "dvd_file_seek_force" "_libdvdread" "DVDFileSeekForce";
    SSetAttr "dvd_file_seek_force" "restype" (VType (Some c_int));
    SSetAttr "dvd_file_seek_force" "argtypes" (VTuple [POINTER _DVDFileT; c_int; c_int]);
    SLookup "dvd_iso_volume_info" "_libdvdread" "DVDISOVolumeInfo";
    SSetAttr "dvd_iso_volume_info" "restype" (VType (Some c_int));
    SSetAttr "dvd_iso_volume_info" "argtypes" (VTuple [POINTER _DVDReaderT; POINTER c_char; c_uint; POINTER c_ubyte; c_uint]);
    SLookup "dvd_udf_cache_level" "_libdvdread" "DVDUDFCacheLevel";
    SSetAttr "dvd_udf_cache_level" "restype" (VType (Some c_int));
    SSetAttr "dvd_udf_cache_level" "argtypes" (VTuple [POINTER _DVDReaderT; c_int]);
    SLookup "udf_find_file" "_libdvdread" "UDFFindFile";
    SSetAttr "udf_find_file" "restype" (VType (Some c_uint32));
    SSetAttr "udf_find_file" "argtypes" (VTuple [POINTER _DVDReaderT; POINTER c_char; POINTER c_uint32]);
    SLookup "udf_get_volume_identifier" "_libdvdread" "UDFGetVolumeIdentifier";
    SSetAttr "udf_get_volume_identifier" "restype" (VType (Some c_int));
    SSetAttr "udf_get_volume_identifier" "argtypes" (VTuple [POINTER _DVDReaderT; POINTER c_char; c_uint]);
    SLookup "udf_get_volume_set_identifier" "_libdvdread" "UDFGetVolumeSetIdentifier";
    SSetAttr "udf_get_volume_set_identifier" "restype" (VType (Some c_int));
    SSetAttr "udf_get_volume_set_identifier" "argtypes" (VTuple [POINTER _DVDReaderT; POINTER c_uint8; c_uint]);
    SClass KStructure "_DVDTimeT" (Some _DVDTimeT_fields);
    SClass KStructure "_VMCmdT" (Some _VMCmdT_fields);
    SAssign "_COMMAND_DATA_SIZE" (RInt _COMMAND_DATA_SIZE);
    SClass KStructure "_VideoAttrT" (Some _VideoAttrT_fields);
    SClass KStructure "_AudioAttrT._AppInfo._Karaoke" (Some _Karaoke_fields);
    SClass KStructure "_AudioAttrT._AppInfo._Surround" (Some _Surround_fields);
    SClass KUnion "_AudioAttrT._AppInfo" (Some _AppInfo_fields);
    SClass KStructure "_AudioAttrT" (Some _AudioAttrT_fields);
    SClass KStructure "_MultichannelExtT" (Some _MultichannelExtT_fields);
    SClass KStructure "_SubPAttrT" (Some _SubPAttrT_fields);
    SClass KStructure "_PGCCommandTblT" (Some _PGCCommandTblT_fields);
    SAssign "_PGC_COMMAND_TBL_SIZE" (RInt _PGC_COMMAND_TBL_SIZE);
    SAssign "_PGCProgramMapT" (RType _PGCProgramMapT);
    SClass KStructure "_CellPlaybackT" (Some _CellPlaybackT_fields);
    SAssign "_BLOCK_TYPE_NONE" (RInt _BLOCK_TYPE_NONE);
    SAssign "_BLOCK_TYPE_ANGLE_BLOCK" (RInt _BLOCK_TYPE_ANGLE_BLOCK);
    SAssign "_BLOCK_MODE_NOT_IN_BLOCK" (RInt _BLOCK_MODE_NOT_IN_BLOCK);
    SAssign "_BLOCK_MODE_FIRST_CELL" (RInt _BLOCK_MODE_FIRST_CELL);
    SAssign "_BLOCK_MODE_IN_BLOCK" (RInt _BLOCK_MODE_IN_BLOCK);
    SAssign "_BLOCK_MODE_LAST_CELL" (RInt _BLOCK_MODE_LAST_CELL);
    SClass KStructure "_CellPositionT" (Some _CellPositionT_fields);
    SClass KStructure "_UserOpsT" (Some _UserOpsT_fields);
    SClass KStructure "_PGCT" (Some _PGCT_fields);
    SAssign "_PGC_SIZE" (RInt _PGC_SIZE);
    SClass KStructure "_PGCISrPT" (Some _PGCISrPT_fields);
    SAssign "_PGCI_SRP_SIZE" (RInt _PGCI_SRP_SIZE);
    SClass KStructure "_PGCITT" (Some _PGCITT_fields);
    SAssign "_PGCIT_SIZE" (RInt _PGCIT_SIZE);
    SClass KStructure "_PGCILUT" (Some _PGCILUT_fields);
    SAssign "_PGCI_LU_SIZE" (RInt _PGCI_LU_SIZE);
    SClass KStructure "_PGCIUTT" (Some _PGCIUTT_fields);
    SAssign "_PGCI_UT_SIZE" (RInt _PGCI_UT_SIZE);
    SClass KStructure "_CellAdrT" (Some _CellAdrT_fields);
    SClass KStructure "_CAdTT" (Some _CAdTT_fields);
    SAssign "_C_ADT_SIZE" (RInt _C_ADT_SIZE);
    SClass KStructure "_VOBUAdMapT" (Some _VOBUAdMapT_fields);
    SAssign "_VOBU_ADMAP_SIZE" (RInt _VOBU_ADMAP_SIZE);
    SClass KStructure "_VMGIMatT" (Some _VMGIMatT_fields);
    SClass KStructure "_PlaybackTypeT" (Some _PlaybackTypeT_fields);
    SClass KStructure "_TitleInfoT" (Some _TitleInfoT_fields);
    SClass KStructure "_TtSrPTT" (Some _TtSrPTT_fields);
    SAssign "_TT_SRPT_SIZE" (RInt _TT_SRPT_SIZE);
    SAssign "_PTL_MAIT_NUM_LEVEL" (RInt _PTL_MAIT_NUM_LEVEL);
    SAssign "_PFLevelT" (RType _PFLevelT);
    SClass KStructure "_PtlMaITCountryT" (Some _PtlMaITCountryT_fields);
    SAssign "_PTL_MAIT_COUNTRY_SIZE" (RInt _PTL_MAIT_COUNTRY_SIZE);
    SClass KStructure "_PtlMaITT" (Some _PtlMaITT_fields);
    SAssign "_PTL_MAIT_SIZE" (RInt _PTL_MAIT_SIZE);
    SClass KStructure "_VTSAttributesT" (Some _VTSAttributesT_fields);
    SAssign "_VTS_ATTRIBUTES_SIZE" (RInt _VTS_ATTRIBUTES_SIZE);
    SAssign "_VTS_ATTRIBUTES_MIN_SIZE" (RInt _VTS_ATTRIBUTES_MIN_SIZE);
    SClass KStructure "_VTSAtrTT" (Some _VTSAtrTT_fields);
    SAssign "_VTS_ATRT_SIZE" (RInt _VTS_ATRT_SIZE);
    SClass KStructure "_TxtDtT" (Some _TxtDtT_fields);
    SClass KStructure "_TxtDtLUT" (Some _TxtDtLUT_fields);
    SAssign "_TXTDT_LU_SIZE" (RInt _TXTDT_LU_SIZE);
    SClass KStructure "_TxtDtMgIT" (Some _TxtDtMgIT_fields);
    SAssign "_TXTDT_MGI_SIZE" (RInt _TXTDT_MGI_SIZE);
    SClass KStructure "_VTSIMaTT" (Some _VTSIMaTT_fields);
    SClass KStructure "_PtTInfoT" (Some _PtTInfoT_fields);
    SClass KStructure "_TTUT" (Some _TTUT_fields);
    SClass KStructure "_VTSPtTSrPTT" (Some _VTSPtTSrPTT_fields);
    SAssign "_VTS_PTT_SRPT_SIZE" (RInt _VTS_PTT_SRPT_SIZE);
    SAssign "_MapEntT" (RType _MapEntT);
    SClass KStructure "_VTSTMapT" (Some _VTSTMapT_fields);
    SAssign "_VTS_TMAP_SIZE" (RInt _VTS_TMAP_SIZE);
    SClass KStructure "_VTSTMapTT" (Some _VTSTMapTT_fields);
    SAssign "_VTS_TMAPT_SIZE" (RInt _VTS_TMAPT_SIZE);
    SClass KStructure "_IFOHandleT" (Some _IFOHandleT_fields);
    SLookup "ifo_print" "_libdvdread" "ifo_print";
    SSetAttr "ifo_print" "restype" (VType None);
    SSetAttr "ifo_print" "argtypes" (VTuple [POINTER _DVDReaderT; c_int]);
    SLookup "dvdread_print_time" "_libdvdread" "dvdread_print_time";
    SSetAttr "dvdread_print_time" "restype" (VType None);
    SSetAttr "dvdread_print_time" "argtypes" (VTuple [POINTER _DVDTimeT]);
    SLookup "ifo_open" "_libdvdread" "ifoOpen";
    SSetAttr "ifo_open" "restype" (VType (Some (POINTER _IFOHandleT)));
    SSetAttr "ifo_open" "argtypes" (VTuple [POINTER _DVDReaderT; c_int]);
    SLookup "ifo_open_vmgi" "_libdvdread" "ifoOpenVMGI";
    SSetAttr "ifo_open_vmgi" "restype" (VType (Some (POINTER _IFOHandleT)));
    SSetAttr "ifo_open_vmgi" "argtypes" (VTuple [POINTER _DVDReaderT]);
    SLookup "ifo_open_vtsi" "_libdvdread" "ifoOpenVTSI";
    SSetAttr "ifo_open_vtsi" "restype" (VType (Some (POINTER _IFOHandleT)));
    SSetAttr "ifo_open_vtsi" "argtypes" (VTuple [POINTER _DVDReaderT; c_int]);
    SLookup "ifo_close" "_libdvdread" "ifoClose";
    SSetAttr "ifo_close" "restype" (VType None);
    SSetAttr "ifo_close" "argtypes" (VTuple [POINTER _IFOHandleT]);
    SLookup "ifo_read_ptl_mait" "_libdvdread" "ifoRead_PTL_MAIT";
    SSetAttr "ifo_read_ptl_mait" "restype" (VType (Some c_int));
    SSetAttr "ifo_read_ptl_mait" "argtypes" (VTuple [POINTER _IFOHandleT]);
    SLookup "ifo_read_vts_atrt" "_libdvdread" "ifoRead_VTS_ATRT";
    SSetAttr "ifo_read_vts_atrt" "restype" (VType (Some c_int));
    SSetAttr "ifo_read_vts_atrt" "argtypes" (VTuple [POINTER _IFOHandleT]);
    SLookup "ifo_read_tt_srpt" "_libdvdread" "ifoRead_TT_SRPT";
    SSetAttr "ifo_read_tt_srpt" "restype" (VType (Some c_int));
    SSetAttr "ifo_read_tt_srpt" "argtypes" (VTuple [POINTER _IFOHandleT]);
    SLookup "ifo_read_vts_ptt_srpt" "_libdvdread" "ifoRead_VTS_PTT_SRPT";
    SSetAttr "ifo_read_vts_ptt_srpt" "restype" (VType (Some c_int));
    SSetAttr "ifo_read_vts_ptt_srpt" "argtypes" (VTuple [POINTER _IFOHandleT]);
    SLookup "ifo_read_fp_pgc" "_libdvdread" "ifoRead_FP_PGC";
    SSetAttr "ifo_read_fp_pgc" "restype" (VType (Some c_int));
    SSetAttr "ifo_read_fp_pgc" "argtypes" (VTuple [POINTER _IFOHandleT]);
    SLookup "ifo_read_pgcit" "_libdvdread" "ifoRead_PGCIT";
    SSetAttr "ifo_read_pgcit" "restype" (VType (Some c_int));
    SSetAttr "ifo_read_pgcit" "argtypes" (VTuple [POINTER _IFOHandleT]);
    SLookup "ifo_read_pgci_ut" "_libdvdread" "ifoRead_PGCI_UT";
    SSetAttr "ifo_read_pgci_ut" "restype" (VType (Some c_int));
    SSetAttr "ifo_read_pgci_ut" "argtypes" (VTuple [POINTER _IFOHandleT]);
    SLookup "ifo_read_vts_tmapt" "_libdvdread" "ifoRead_VTS_TMAPT";
    SSetAttr "ifo_read_vts_tmapt" "restype" (VType (Some c_int));
    SSetAttr "ifo_read_vts_tmapt" "argtypes" (VTuple [POINTER _IFOHandleT]);
    SLookup "ifo_read_c_adt" "_libdvdread" "ifoRead_C_ADT";
    SSetAttr "ifo_read_c_adt" "restype" (VType (Some c_int));
    SSetAttr "ifo_read_c_adt" "argtypes" (VTuple [POINTER _IFOHandleT]);
    SLookup "ifo_read_title_c_adt" "_libdvdread" "ifoRead_TITLE_C_ADT";
    SSetAttr "ifo_read_title_c_adt" "restype" (VType (Some c_int));
    SSetAttr "ifo_read_title_c_adt" "argtypes" (VTuple [POINTER _IFOHandleT]);
    SLookup "ifo_read_vobu_admap" "_libdvdread" "ifoRead_VOBU_ADMAP";
    SSetAttr "ifo_read_vobu_admap" "restype" (VType (Some c_int));
    SSetAttr "ifo_read_vobu_admap" "argtypes" (VTuple [POINTER _IFOHandleT]);
    SLookup "ifo_read_title_vobu_admap" "_libdvdread" "ifoRead_TITLE_VOBU_ADMAP";
    SSetAttr "ifo_read_title_vobu_admap" "restype" (VType (Some c_int));
    SSetAttr "ifo_read_title_vobu_admap" "argtypes" (VTuple [POINTER _IFOHandleT]);
    SLookup "ifo_read_txtdt_mgi" "_libdvdread" "ifoRead_TXTDT_MGI";
    SSetAttr "ifo_read_txtdt_mgi" "restype" (VType (Some c_int));
    SSetAttr "ifo_read_txtdt_mgi" "argtypes" (VTuple [POINTER _IFOHandleT]);
    SLookup "ifo_free_ptl_mait" "_libdvdread" "ifoFree_PTL_MAIT";
    SSetAttr "ifo_free_ptl_mait" "restype" (VType None);
    SSetAttr "ifo_free_ptl_mait" "argtypes" (VTuple [POINTER _IFOHandleT]);
    SLookup "ifo_free_vts_atrt" "_libdvdread" "ifoFree_VTS_ATRT";
    SSetAttr "ifo_free_vts_atrt" "restype" (VType None);
    SSetAttr "ifo_free_vts_atrt" "argtypes" (VTuple [POINTER _IFOHandleT]);
    SLookup "ifo_free_tt_srpt" "_libdvdread" "ifoFree_TT_SRPT";
    SSetAttr "ifo_free_tt_srpt" "restype" (VType None);
    SSetAttr "ifo_free_tt_srpt" "argtypes" (VTuple [POINTER _IFOHandleT]);
    SLookup "ifo_free_vts_ptt_srpt" "_libdvdread" "ifoFree_VTS_PTT_SRPT";
    SSetAttr "ifo_free_vts_ptt_srpt" "restype" (VType None);
    SSetAttr "ifo_free_vts_ptt_srpt" "argtypes" (VTuple [POINTER _IFOHandleT]);
    SLookup "ifo_free_fp_pgc" "_libdvdread" "ifoFree_FP_PGC";
    SSetAttr "ifo_free_fp_pgc" "restype" (VType None);
    SSetAttr "ifo_free_fp_pgc" "argtypes" (VTuple [POINTER _IFOHandleT]);
    SLookup "ifo_free_pgcit" "_libdvdread" "ifoFree_PGCIT";
    SSetAttr "ifo_free_pgcit" "restype" (VType None);
    SSetAttr "ifo_free_pgcit" "argtypes" (VTuple [POINTER _IFOHandleT]);
    SLookup "ifo_free_pgci_ut" "_libdvdread" "ifoFree_PGCI_UT";
    SSetAttr "ifo_free_pgci_ut" "restype" (VType None);
    SSetAttr "ifo_free_pgci_ut" "argtypes" (VTuple [POINTER _IFOHandleT]);
    SLookup "ifo_free_vts_tmapt" "_libdvdread" "ifoFree_VTS_TMAPT";
    SSetAttr "ifo_free_vts_tmapt" "restype" (VType None);
    SSetAttr "ifo_free_vts_tmapt" "argtypes" (VTuple [POINTER _IFOHandleT]);
    SLookup "ifo_free_c_adt" "_libdvdread" "ifoFree_C_ADT";
    SSetAttr "ifo_free_c_adt" "restype" (VType None);
    SSetAttr "ifo_free_c_adt" "argtypes" (VTuple [POINTER _IFOHandleT]);
    SLookup "ifo_free_title_c_adt" "_libdvdread" "ifoFree_TITLE_C_ADT";
    SSetAttr "ifo_free_title_c_adt" "restype" (VType None);
    SSetAttr "ifo_free_title_c_adt" "argtypes" (VTuple [POINTER _IFOHandleT]);
    SLookup "ifo_free_vobu_admap" "_libdvdread" "ifoFree_VOBU_ADMAP";
    SSetAttr "ifo_free_vobu_admap" "restype" (VType None);
    SSetAttr "ifo_free_vobu_admap" "argtypes" (VTuple [POINTER _IFOHandleT]);
    SLookup "ifo_free_title_vobu_admap" "_libdvdread" "ifoFree_TITLE_VOBU_ADMAP";
    SSetAttr "ifo_free_title_vobu_admap" "restype" (VType None);
    SSetAttr "ifo_free_title_vobu_admap" "argtypes" (VTuple [POINTER _IFOHandleT]);
    SLookup "ifo_free_txtdt_mgi" "_libdvdread" "ifoFree_TXTDT_MGI";
    SSetAttr "ifo_free_txtdt_mgi" "restype" (VType None);
    SSetAttr "ifo_free_txtdt_mgi" "argtypes" (VTuple [POINTER _IFOHandleT]);
    SAssign "_PCI_BYTES" (RParseInt "3d4" 16);
    SAssign "_DSI_BYTES" (RParseInt "3fa" 16);
    SAssign "_PS2_PCI_SUBSTREAM_ID" (RInt _PS2_PCI_SUBSTREAM_ID);
    SAssign "_PS2_DSI_SUBSTREAM_ID" (RInt _PS2_DSI_SUBSTREAM_ID);
    SAssign "_DSI_START_BYTE" (RInt _DSI_START_BYTE);
    SClass KStructure "_PCIGIT" (Some _PCIGIT_fields);
    SClass KStructure "_NSmlAglIT" (Some _NSmlAglIT_fields);
    SClass KStructure "_HLGIT" (Some _HLGIT_fields);
    SClass KStructure "_BtnColITT" (Some _BtnColITT_fields);
    SClass KStructure "_BtnIT" (Some _BtnIT_fields);
    SClass KStructure "_HLIT" (Some _HLIT_fields);
    SClass KStructure "_PCIT" (Some _PCIT_fields);
    SClass KStructure "_DSIGIT" (Some _DSIGIT_fields);
    SClass KStructure "_SmlPBIT._VOBA" (Some _VOBA_fields);
    SClass KStructure "_SmlPBIT" (Some _SmlPBIT_fields);
    SClass KStructure "_SmlAglDataT" (Some _SmlAglDataT_fields);
    SClass KStructure "_SmlAglIT" (Some _SmlAglIT_fields);
    SClass KStructure "_VOBUSrIT" (Some _VOBUSrIT_fields);
    SAssign "_SRI_END_OF_CELL" (RParseInt "3fffffff" 16);
    SClass KStructure "_SyncIT" (Some _SyncIT_fields);
    SClass KStructure "_DSIT" (Some _DSIT_fields);
    SLookup "nav_print_pci" "_libdvdread" "navPrint_PCI";
    SSetAttr "nav_print_pci" "restype" (VType None);
    SSetAttr "nav_print_pci" "argtypes" (VTuple [POINTER _PCIT]);
    SLookup "nav_print_dsi" "_libdvdread" "navPrint_DSI";
    SSetAttr "nav_print_dsi" "restype" (VType None);
    SSetAttr "nav_print_dsi" "argtypes" (VTuple [POINTER _DSIT]);
    SLookup "nav_read_pci" "_libdvdread" "navRead_PCI";
    SSetAttr "nav_read_pci" "restype" (VType None);
    SSetAttr "nav_read_pci" "argtypes" (VTuple [POINTER _PCIT; POINTER c_ubyte]);
    SLookup "nav_read_dsi" "_libdvdread" "navRead_DSI";
    SSetAttr "nav_read_dsi" "restype" (VType None);
    SSetAttr "nav_read_dsi" "argtypes" (VTuple [POINTER _DSIT; POINTER c_ubyte]);
    SSetFields "_DVDInputS" _DVDInputS_fields;
    SSetFields "_DVDFileS" _DVDFileS_fields;
    SSetFields "_DVDReaderS" _DVDReaderS_fields ].

End dvdread.

(** * dvdnav.py

    The bindings the script creates, in script order, and the script
    itself as the list [body] of its top-level statements. Nested
    classes carry their qualified name. *)

Module dvdnav.

Definition _AudioAttrT := dvdread._AudioAttrT.

Definition _DVDFileT := dvdread._DVDFileT.

Definition _DVDReaderStreamCB := dvdread._DVDReaderStreamCB.

Definition _DVDReaderT := dvdread._DVDReaderT.

Definition _DSIT := dvdread._DSIT.

Definition _IFOHandleT := dvdread._IFOHandleT.

Definition _PCIT := dvdread._PCIT.

Definition _PGCT := dvdread._PGCT.

Definition _SubPAttrT := dvdread._SubPAttrT.

Definition _UserOpsT := dvdread._UserOpsT.

Definition _VMCmdT := dvdread._VMCmdT.

Definition _POSIX_DVDNAV_LIB : pathexpr := PLit "libdvdnav.so.4".

Definition _WIN_DVDNAV_LIB : pathexpr :=
  PExpandvars "%PROGRAMFILES%/VideoLAN/VLC/plugins/access/libdvdnav_plugin.dll".

Definition _PThreadMutexT : ctype := c_void_p.

Definition _READ_CACHE_CHUNKS : Z := 10.

Definition _ReadCacheChunkS : ctype := Cls "_ReadCacheChunkS".

Definition _ReadCacheChunkS_fields : list field :=
  [ fld "cache_buffer" (POINTER c_uint8);
    fld "cache_buffer_base" (POINTER c_uint8);
    fld "cache_start_sector" c_int32;
    fld "cache_read_count" c_int32;
    fld "cache_block_count" c_size_t;
    fld "cache_malloc_size" c_size_t;
    fld "cache_valid" c_int;
    fld "usage_count" c_int ].

Definition _ReadCacheChunkT : ctype := _ReadCacheChunkS.

Definition _ReadCacheS : ctype := Cls "_ReadCacheS".

Definition _ReadCacheS_fields : list field :=
  [ fld "chunk" (Arr _ReadCacheChunkT _READ_CACHE_CHUNKS);
    fld "current" c_int;
    fld "freeing" c_int;
    fld "read_ahead_size" c_uint32;
    fld "read_ahead_incr" c_int;
    fld "last_sector" c_int;
    fld "lock" _PThreadMutexT ].

Definition _RegistersT : ctype := Cls "_RegistersT".

Definition _RegistersT_fields : list field :=
  [ fld "SPRM" (Arr c_uint16 24);
    fld "GPRM" (Arr c_uint16 16);
    fld "GPRM_mode" (Arr c_uint8 16);
    fld "GPRM_time" (Arr c_time_t 16) ].

Definition _DVDMenuIDT : ctype := c_int.

Definition _DVDNavStreamTypeT : ctype := c_int.

Definition _DVDDomainT : ctype := c_int.

Definition _DVDNavHighlightAreaT : ctype := Cls "_DVDNavHighlightAreaT".

Definition _DVDNavHighlightAreaT_fields : list field :=
  [ fld "palette" c_uint32;
    fld "sx" c_uint16;
    fld "sy" c_uint16;
    fld "ex" c_uint16;
    fld "ey" c_uint16;
    fld "pts" c_uint32;
    fld "buttonN" c_uint32 ].

Definition _DVDAudioFormatT : ctype := c_int.

Definition _DVDUOPT : ctype := c_int.

Definition _DVDParentalLevelT : ctype := c_int.

Definition _DVDLangIDT : ctype := c_uint16.

Definition _DVDCountryIDT : ctype := c_uint16.

Definition _DVDRegisterT : ctype := c_uint16.

Definition _DVDBoolT : ctype := c_int.

Definition _DVDGPRMArrayT : ctype := Arr _DVDRegisterT 16.

Definition _DVDSPRMArrayT : ctype := Arr _DVDRegisterT 24.

Definition _DVDStreamT : ctype := c_int.

Definition _DVDPTTT : ctype := c_int.

Definition _DVDTitleT : ctype := c_int.

Definition _DVDAngleT : ctype := c_int.

Definition _DVDTimecodeT : ctype := Cls "_DVDTimecodeT".

Definition _DVDTimecodeT_fields : list field :=
  [ fld "Hours" c_uint8;
    fld "Minutes" c_uint8;
    fld "Seconds" c_uint8;
    fld "Frames" c_uint8 ].

Definition _DVDSubpictureStreamT : ctype := c_int.

Definition _DVDAudioStreamT : ctype := c_int.

Definition _DVDAudioAppModeT : ctype := c_int.

Definition _DVDAudioLangExtT : ctype := c_int.

Definition _DVDSubpictureLangExtT : ctype := c_int.

Definition _DVDKaraokeDownmixT : ctype := c_int.

Definition _DVDKaraokeDownmixMaskT : ctype := c_int.

Definition _DVDDisplayModeT : ctype := c_int.

Definition _DVDAudioAttributesT : ctype := Cls "_DVDAudioAttributesT".

Definition _DVDAudioSampleFreqT : ctype := c_int.

Definition _DVDAudioSampleQuantT : ctype := c_int.

Definition _DVDChannelNumberT : ctype := c_int.

Definition _DVDAudioAttributesT_fields : list field :=
  [ fld "AppMode" _DVDAudioAppModeT;
    fld "AudioFormat" _DVDAudioFormatT;
    fld "Language" _DVDLangIDT;
    fld "LanguageExtension" _DVDAudioLangExtT;
    fld "HasMultichannelInfo" _DVDBoolT;
    fld "SampleFrequency" _DVDAudioSampleFreqT;
    fld "SampleQuantization" _DVDAudioSampleQuantT;
    fld "NumberOfChannels" _DVDChannelNumberT ].

Definition _DVDSubpictureTypeT : ctype := c_int.

Definition _DVDSubpictureCodingT : ctype := c_int.

Definition _DVDSubpictureAttributesT : ctype := c_int.

Definition _DVDVideoAttributesT : ctype := Cls "_DVDVideoAttributesT".

Definition _DVDVideoCompressionT : ctype := c_int.

Definition _DVDVideoAttributesT_fields : list field :=
  [ fld "PanscanPermitted" _DVDBoolT;
    fld "LetterboxPermitted" _DVDBoolT;
    fld "AspectX" c_int;
    fld "AspectY" c_int;
    fld "FrameRate" c_int;
    fld "FrameHeight" c_int;
    fld "Compression" _DVDVideoCompressionT;
    fld "Line21Field1InGop" _DVDBoolT;
    fld "Line21Field2InGop" _DVDBoolT;
    fld "more_to_come" c_int ].

Definition _DVDStateT : ctype := Cls "_DVDStateT".

Definition _DVDStateT_fields : list field :=
  [ fld "registers" _RegistersT;
    fld "domain" _DVDDomainT;
    fld "vtsN" c_int;
    fld "pgc" (POINTER _PGCT);
    fld "pgcN" c_int;
    fld "pgN" c_int;
    fld "cellN" c_int;
    fld "cell_restart" c_int32;
    fld "blockN" c_int;
    fld "rsm_vtsN" c_int;
    fld "rsm_blockN" c_int;
    fld "rsm_regs" (Arr c_uint16 5);
    fld "rsm_pgcN" c_int;
    fld "rsm_cellN" c_int ].

Definition _VMPositionS : ctype := Cls "_VMPositionS".

Definition _VMPositionS_fields : list field :=
  [ fld "button" c_int16;
    fld "vts" c_int32;
    fld "domain" _DVDDomainT;
    fld "spu_channel" c_int32;
    fld "angle_channel" c_int32;
    fld "audio_channel" c_int32;
    fld "hop_channel" c_int32;
    fld "title" c_int32;
    fld "chapter" c_int32;
    fld "cell" c_int32;
    fld "cell_restart" c_int32;
    fld "cell_start" c_int32;
    fld "still" c_int32;
    fld "block" c_int32 ].

Definition _VMPositionT : ctype := _VMPositionS.

Definition _VMT : ctype := Cls "_VMT".

Definition _MAX_ERR_LEN : Z := 255.

Definition _ReadCacheT : ctype := _ReadCacheS.

Definition _DVDNavVOBUS : ctype := Cls "_DVDNavVOBUS".

Definition _DVDNavVOBUS_fields : list field :=
  [ fld "vobu_start" c_int32;
    fld "vobu_length" c_int32;
    fld "blockN" c_int32;
    fld "vobu_next" c_int32 ].

Definition _DVDNavS : ctype := Cls "_DVDNavS".

Definition _DVDNavT : ctype := _DVDNavS.

Definition _DVDNavStatusT : ctype := c_int32.

Definition _DVDNavStreamCB : ctype := _DVDReaderStreamCB.

Definition _DVDNavLoggerLevelT : ctype := c_int.

Definition _DVDNavLoggerCB : ctype := Cls "_DVDNavLoggerCB".

Definition _DVDNavLoggerCB_fields : list field :=
  [ fld "pf_log" (CFUNCTYPE c_void_p [c_void_p; _DVDNavLoggerLevelT; POINTER c_char]) ].

Definition DVDNavVOBUT : ctype := _DVDNavVOBUS.

Definition _VMT_fields : list field :=
  [ fld "priv" c_void_p;
    fld "logcb" _DVDNavLoggerCB;
    fld "streamcb" _DVDNavStreamCB;
    fld "videolanlibdvd" (POINTER _DVDReaderT);
    fld "dvdstreamcb" _DVDReaderStreamCB;
    fld "vmgi" (POINTER _IFOHandleT);
    fld "vtsi" (POINTER _IFOHandleT);
    fld "state" _DVDStateT;
    fld "hop_channel" c_int32;
    fld "dvd_name" (Arr c_char 50);
    fld "dvd_serial" (Arr c_char 15);
    fld "stopped" c_int ].

Definition _DVDNavS_fields : list field :=
  [ fld "path" (POINTER c_char);
    fld "file" (POINTER _DVDFileT);
    fld "position_next" _VMPositionT;
    fld "position_current" _VMPositionT;
    fld "vobu" DVDNavVOBUT;
    fld "pci" _PCIT;
    fld "dsi" _DSIT;
    fld "last_cmd_nav_lbn" c_uint32;
    fld "skip_still" c_int;
    fld "sync_wait" c_int;
    fld "sync_wait_skip" c_int;
    fld "spu_clut_changed" c_int;
    fld "spu_clut_changed" c_int;
    fld "started" c_int;
    fld "use_read_ahead" c_int;
    fld "pgc_based" c_int;
    fld "cur_cell_time" c_int;
    fld "vm" (POINTER _VMT);
    fld "vm_lock" _PThreadMutexT;
    fld "priv" c_void_p;
    fld "logcb" _DVDNavLoggerCB;
    fld "cache" (POINTER _ReadCacheT);
    fld "err_str" (Arr c_char _MAX_ERR_LEN) ].

Definition _DVDNavStillEventT : ctype := Cls "_DVDNavStillEventT".

Definition _DVDNavStillEventT_fields : list field :=
  [ fld "length" c_int ].

Definition _DVDNavSPUStreamChangeEventT : ctype := Cls "_DVDNavSPUStreamChangeEventT".

Definition _DVDNavSPUStreamChangeEventT_fields : list field :=
  [ fld "physical_wide" c_int;
    fld "physical_letterbox" c_int;
    fld "physical_pan_scan" c_int;
    fld "logical" c_int ].

Definition _DVDNavAudioStreamChangeEventT : ctype := Cls "_DVDNavAudioStreamChangeEventT".

Definition _DVDNavAudioStreamChangeEventT_fields : list field :=
  [ fld "physical" c_int;
    fld "logical" c_int ].

Definition _DVDNavVTSChangeEventT : ctype := Cls "_DVDNavVTSChangeEventT".

Definition _DVDNavVTSChangeEventT_fields : list field :=
  [ fld "old_vtsN" c_int;
    fld "old_domain" _DVDDomainT;
    fld "new_vtsN" c_int;
    fld "new_domain" _DVDDomainT ].

Definition _DVDNavCellChangeEventT : ctype := Cls "_DVDNavCellChangeEventT".

Definition _DVDNavCellChangeEventT_fields : list field :=
  [ fld "cellN" c_int;
    fld "pgN" c_int;
    fld "cell_length" c_int64;
    fld "pg_length" c_int64;
    fld "pgc_length" c_int64;
    fld "cell_start" c_int64;
    fld "pg_start" c_int64 ].

Definition _DVDNavHighlightEventT : ctype := Cls "_DVDNavHighlightEventT".

Definition _DVDNavHighlightEventT_fields : list field :=
  [ fld "display" c_int;
    fld "palette" c_uint32;
    fld "sx" c_uint16;
    fld "sy" c_uint16;
    fld "ex" c_uint16;
    fld "ey" c_uint16;
    fld "pts" c_uint32;
    fld "buttonN" c_uint32 ].

Definition body : list stmt :=
  [ SImport "ctypes";
    SImport "os";
    SImport "dvdread";
    SAssign "_POSIX_DVDNAV_LIB" (RStr _POSIX_DVDNAV_LIB);
    SAssign "_WIN_DVDNAV_LIB" (RStr _WIN_DVDNAV_LIB);
    SIf (OsNameIs "posix")
      [SCDLL "_libdvdnav" _POSIX_DVDNAV_LIB]
      [SIf (OsNameIs "nt")
          [SCDLL "_libdvdnav" _WIN_DVDNAV_LIB]
          [SRaiseRuntimeError [FLit "Unsupported operating system "; FOsName; FLit ". "; FLit "This is almost certainly a bug."]]];
    SAssign "_PThreadMutexT" (RType _PThreadMutexT);
    SAssign "_READ_CACHE_CHUNKS" (RInt _READ_CACHE_CHUNKS);
    SClass KStructure "_ReadCacheChunkS" (Some _ReadCacheChunkS_fields);
    SAssign "_ReadCacheChunkT" (RType _ReadCacheChunkT);
    SClass KStructure "_ReadCacheS" None;
    SSetFields "_ReadCacheS" _ReadCacheS_fields;
    SClass KStructure "_RegistersT" (Some _RegistersT_fields);
    SAssign "_DVDMenuIDT" (RType _DVDMenuIDT);
    SAssign "_DVDNavStreamTypeT" (RType _DVDNavStreamTypeT);
    SAssign "_DVDDomainT" (RType _DVDDomainT);
    SClass KStructure "_DVDNavHighlightAreaT" (Some _DVDNavHighlightAreaT_fields);
    SAssign "_DVDAudioFormatT" (RType _DVDAudioFormatT);
    SAssign "_DVDUOPT" (RType _DVDUOPT);
    SAssign "_DVDParentalLevelT" (RType _DVDParentalLevelT);
    SAssign "_DVDLangIDT" (RType _DVDLangIDT);
    SAssign "_DVDCountryIDT" (RType _DVDCountryIDT);
    SAssign "_DVDRegisterT" (RType _DVDRegisterT);
    SAssign "_DVDBoolT" (RType _DVDBoolT);
    SAssign "_DVDGPRMArrayT" (RType _DVDGPRMArrayT);
    SAssign "_DVDSPRMArrayT" (RType _DVDSPRMArrayT);
    SAssign "_DVDStreamT" (RType _DVDStreamT);
    SAssign "_DVDPTTT" (RType _DVDPTTT);
    SAssign "_DVDTitleT" (RType _DVDTitleT);
    SAssign "_DVDAngleT" (RType _DVDAngleT);
    SClass KStructure "_DVDTimecodeT" (Some _DVDTimecodeT_fields);
    SAssign "_DVDSubpictureStreamT" (RType _DVDSubpictureStreamT);
    SAssign "_DVDAudioStreamT" (RType _DVDAudioStreamT);
    SAssign "_DVDAudioAppModeT" (RType _DVDAudioAppModeT);
    SAssign "_DVDAudioLangExtT" (RType _DVDAudioLangExtT);
    SAssign "_DVDSubpictureLangExtT" (RType _DVDSubpictureLangExtT);
    SAssign "_DVDKaraokeDownmixT" (RType _DVDKaraokeDownmixT);
    SAssign "_DVDKaraokeDownmixMaskT" (RType _DVDKaraokeDownmixMaskT);
    SAssign "_DVDDisplayModeT" (RType _DVDDisplayModeT);
    SClass KStructure "_DVDAudioAttributesT" None;
    SAssign "_DVDAudioSampleFreqT" (RType _DVDAudioSampleFreqT);
    SAssign "_DVDAudioSampleQuantT" (RType _DVDAudioSampleQuantT);
    SAssign "_DVDChannelNumberT" (RType _DVDChannelNumberT);
    SSetFields "_DVDAudioAttributesT" _DVDAudioAttributesT_fields;
    SAssign "_DVDSubpictureTypeT" (RType _DVDSubpictureTypeT);
    SAssign "_DVDSubpictureCodingT" (RType _DVDSubpictureCodingT);
    SAssign "_DVDSubpictureAttributesT" (RType _DVDSubpictureAttributesT);
    SClass KStructure "_DVDVideoAttributesT" None;
    SAssign "_DVDVideoCompressionT" (RType _DVDVideoCompressionT);
    SSetFields "_DVDVideoAttributesT" _DVDVideoAttributesT_fields;
    SClass KStructure "_DVDStateT" (Some _DVDStateT_fields);
    SClass KStructure "_VMPositionS" (Some _VMPositionS_fields);
    SAssign "_VMPositionT" (RType _VMPositionT);
    SClass KStructure "_VMT" None;
    SAssign "_MAX_ERR_LEN" (RInt _MAX_ERR_LEN);
    SAssign "_ReadCacheT" (RType _ReadCacheT);
    SClass KStructure "_DVDNavVOBUS" (Some _DVDNavVOBUS_fields);
    SClass KStructure "_DVDNavS" None;
    SAssign "_DVDNavT" (RType _DVDNavT);
    SAssign "_DVDNavStatusT" (RType _DVDNavStatusT);
    SAssign "_DVDNavStreamCB" (RType _DVDNavStreamCB);
    SAssign "_DVDNavLoggerLevelT" (RType _DVDNavLoggerLevelT);
    SClass KStructure "_DVDNavLoggerCB" None;
    SSetFields "_DVDNavLoggerCB" _DVDNavLoggerCB_fields;
    SLookup "dvdnav_open" "_libdvdnav" "dvdnav_open";
    SSetAttr "dvdnav_open" "restype" (VType (Some _DVDNavStatusT));
    SSetAttr "dvdnav_open" "argtypes" (VTuple [POINTER (POINTER _DVDNavT); POINTER c_char]);
    SLookup "dvdnav_open_stream" "_libdvdnav" "dvdnav_open_stream";
    SSetAttr "dvdnav_open_stream" "restype" (VType (Some _DVDNavStatusT));
    SSetAttr "dvdnav_open_stream" "argtypes" (VTuple [POINTER (POINTER _DVDNavT); c_void_p; POINTER _DVDNavStreamCB]);
    SLookup "dvdnav_open2" "_libdvdnav" "dvdnav_open2";
    SSetAttr "dvdnav_open2" "restype" (VType (Some _DVDNavStatusT));
    SSetAttr "dvdnav_open2" "argtypes" (VTuple [POINTER (POINTER _DVDNavT); c_void_p; POINTER _DVDNavLoggerCB; POINTER c_char]);
    SLookup "dvdnav_open_stream2" "_libdvdnav" "dvdnav_open_stream2";
    SSetAttr "dvdnav_open_stream2" "restype" (VType (Some _DVDNavStatusT));
    SSetAttr "dvdnav_open_stream2" "argtypes" (VTuple [POINTER (POINTER _DVDNavT); c_void_p; POINTER _DVDNavLoggerCB; POINTER _DVDNavStreamCB]);
    SLookup "dvdnav_dup" "_libdvdnav" "dvdnav_dup";
    SSetAttr "dvdnav_dup" "restype" (VType (Some _DVDNavStatusT));
    SSetAttr "dvdnav_dup" "argtypes" (VTuple [POINTER (POINTER _DVDNavT); POINTER _DVDNavT]);
    SLookup "dvdnav_free_dup" "_libdvdnav" "dvdnav_free_dup";
    SSetAttr "dvdnav_free_dup" "restype" (VType (Some _DVDNavStatusT));
    SSetAttr "dvdnav_free_dup" "argtypes" (VTuple [POINTER _DVDNavT]);
    SLookup "dvdnav_close" "_libdvdnav" "dvdnav_close";
    SSetAttr "dvdnav_close" "restype" (VType (Some _DVDNavStatusT));
    SSetAttr "dvdnav_close" "argtypes" (VTuple [POINTER _DVDNavT]);
    SLookup "dvdnav_reset" "_libdvdnav" "dvdnav_reset";
    SSetAttr "dvdnav_reset" "restype" (VType (Some _DVDNavStatusT));
    SSetAttr "dvdnav_reset" "argtypes" (VTuple [POINTER _DVDNavT]);
    SLookup "dvdnav_path" "_libdvdnav" "dvdnav_path";
    SSetAttr "dvdnav_path" "restype" (VType (Some _DVDNavStatusT));
    SSetAttr "dvdnav_path" "argtypes" (VTuple [POINTER _DVDNavT; POINTER (POINTER c_char)]);
    SLookup "dvdnav_err_to_string" "_libdvdnav" "dvdnav_err_to_string";
    SSetAttr "dvdnav_err_to_string" "restype" (VType (Some (POINTER c_char)));
    SSetAttr "dvdnav_err_to_string" "argtypes" (VTuple [POINTER _DVDNavT]);
    SLookup "dvdnav_version" "_libdvdnav" "dvdnav_version";
    SSetAttr "dvdnav_version" "restype" (VType (Some (POINTER c_char)));
    SLookup "dvdnav_set_region_mask" "_libdvdnav" "dvdnav_set_region_mask";
    SSetAttr "dvdnav_set_region_mask" "restype" (VType (Some _DVDNavStatusT));
    SSetAttr "dvdnav_set_region_mask" "argtypes" (VTuple [POINTER _DVDNavT; c_int32]);
    SLookup "dvdnav_get_region_mask" "_libdvdnav" "dvdnav_get_region_mask";
    SSetAttr "dvdnav_get_region_mask" "restype" (VType (Some _DVDNavStatusT));
    SSetAttr "dvdnav_get_region_mask" "argtypes" (VTuple [POINTER _DVDNavT; POINTER c_int32]);
    SAssign "DVDNavVOBUT" (RType DVDNavVOBUT);
    SLookup "dvdnav_set_readahead_flag" "_libdvdnav" "dvdnav_set_readahead_flag";
    SSetAttr "dvdnav_set_readahead_flag" "restype" (VType (Some _DVDNavStatusT));
    SSetAttr "dvdnav_set_readahead_flag" "argtypes" (VTuple [POINTER _DVDNavT; c_int32]);
    SLookup "dvdnav_get_readahead_flag" "_libdvdnav" "dvdnav_get_readahead_flag";
    SSetAttr "dvdnav_get_readahead_flag" "restype" (VType (Some _DVDNavStatusT));
    SSetAttr "dvdnav_get_readahead_flag" "argtypes" (VTuple [POINTER _DVDNavT; POINTER c_int32]);
    SLookup "dvdnav_set_pgc_positioning_flag" "_libdvdnav" "dvdnav_set_PGC_positioning_flag";
    SSetAttr "dvdnav_set_pgc_positioning_flag" "restype" (VType (Some _DVDNavStatusT));
    SSetAttr "dvdnav_set_pgc_positioning_flag" "argtypes" (VTuple [POINTER _DVDNavT; c_int32]);
    SLookup "dvdnav_get_pgc_positioning_flag" "_libdvdnav" "dvdnav_get_PGC_positioning_flag";
    SSetAttr "dvdnav_get_pgc_positioning_flag" "restype" (VType (Some _DVDNavStatusT));
    SSetAttr "dvdnav_get_pgc_positioning_flag" "argtypes" (VTuple [POINTER _DVDNavT; POINTER c_int32]);
    SLookup "dvdnav_get_next_block" "_libdvdnav" "dvdnav_get_next_block";
    SSetAttr "dvdnav_get_next_block" "restype" (VType (Some _DVDNavStatusT));
    SSetAttr "dvdnav_get_next_block" "argtypes" (VTuple [POINTER _DVDNavT; POINTER c_uint8; POINTER c_int32; POINTER c_int32]);
    SLookup "dvdnav_get_next_cache_block" "_libdvdnav" "dvdnav_get_next_cache_block";
    SSetAttr "dvdnav_get_next_cache_block" "restype" (VType (Some _DVDNavStatusT));
    SSetAttr "dvdnav_get_next_cache_block" "argtypes" (VTuple [POINTER _DVDNavT; POINTER (POINTER c_uint8); POINTER c_int32; POINTER c_int32]);
    SLookup "dvdnav_free_cache_block" "_libdvdnav" "dvdnav_free_cache_block";
    SSetAttr "dvdnav_free_cache_block" "restype" (VType (Some _DVDNavStatusT));
    SSetAttr "dvdnav_free_cache_block" "argtypes" (VTuple [POINTER _DVDNavT; POINTER c_ubyte]);
    SLookup "dvdnav_still_skip" "_libdvdnav" "dvdnav_still_skip";
    SSetAttr "dvdnav_still_skip" "restype" (VType (Some _DVDNavStatusT));
    SSetAttr "dvdnav_still_skip" "argtypes" (VTuple [POINTER _DVDNavT]);
    SLookup "dvdnav_wait_skip" "_libdvdnav" "dvdnav_wait_skip";
    SSetAttr "dvdnav_wait_skip" "restype" (VType (Some _DVDNavStatusT));
    SSetAttr "dvdnav_wait_skip" "argtypes" (VTuple [POINTER _DVDNavT]);
    SLookup "dvdnav_get_next_still_flag" "_libdvdnav" "dvdnav_get_next_still_flag";
    SSetAttr "dvdnav_get_next_still_flag" "restype" (VType (Some c_uint32));
    SSetAttr "dvdnav_get_next_still_flag" "argtypes" (VTuple [POINTER _DVDNavT]);
    SLookup "dvdnav_stop" "_libdvdnav" "dvdnav_stop";
    SSetAttr "dvdnav_stop" "restype" (VType (Some _DVDNavStatusT));
    SSetAttr "dvdnav_stop" "argtypes" (VTuple [POINTER _DVDNavT]);
    SLookup "dvdnav_get_number_of_titles" "_libdvdnav" "dvdnav_get_number_of_titles";
    SSetAttr "dvdnav_get_number_of_titles" "restype" (VType (Some _DVDNavStatusT));
    SSetAttr "dvdnav_get_number_of_titles" "argtypes" (VTuple [POINTER _DVDNavT; POINTER c_int32]);
    SLookup "dvdnav_get_number_of_parts" "_libdvdnav" "dvdnav_get_number_of_parts";
    SSetAttr "dvdnav_get_number_of_parts" "restype" (VType (Some _DVDNavStatusT));
    SSetAttr "dvdnav_get_number_of_parts" "argtypes" (VTuple [POINTER _DVDNavT; c_int32; POINTER c_int32]);
    SLookup "dvdnav_get_number_of_angles" "_libdvdnav" "dvdnav_get_number_of_angles";
    SSetAttr "dvdnav_get_number_of_angles" "restype" (VType (Some _DVDNavStatusT));
    SSetAttr "dvdnav_get_number_of_angles" "argtypes" (VTuple [POINTER _DVDNavT; c_int32; POINTER c_int32]);
    SLookup "dvdnav_title_play" "_libdvdnav" "dvdnav_title_play";
    SSetAttr "dvdnav_title_play" "restype" (VType (Some _DVDNavStatusT));
    SSetAttr "dvdnav_title_play" "argtypes" (VTuple [POINTER _DVDNavT; c_int32]);
    SLookup "dvdnav_part_play" "_libdvdnav" "dvdnav_part_play";
    SSetAttr "dvdnav_part_play" "restype" (VType (Some _DVDNavStatusT));
    SSetAttr "dvdnav_part_play" "argtypes" (VTuple [POINTER _DVDNavT; c_int32; c_int32]);
    SLookup "dvdnav_program_play" "_libdvdnav" "dvdnav_program_play";
    SSetAttr "dvdnav_program_play" "restype" (VType (Some _DVDNavStatusT));
    SSetAttr "dvdnav_program_play" "argtypes" (VTuple [POINTER _DVDNavT; c_int32; c_int32; c_int32]);
    SLookup "dvdnav_describe_title_chapters" "_libdvdnav" "dvdnav_describe_title_chapters";
    SSetAttr "dvdnav_describe_title_chapters" "restype" (VType (Some c_uint32));
    SSetAttr "dvdnav_describe_title_chapters" "argtypes" (VTuple [POINTER _DVDNavT; c_int32; POINTER (POINTER c_uint64); POINTER c_uint64]);
    SLookup "dvdnav_part_play_auto_stop" "_libdvdnav" "dvdnav_part_play_auto_stop";
    SSetAttr "dvdnav_part_play_auto_stop" "restype" (VType (Some _DVDNavStatusT));
    SSetAttr "dvdnav_part_play_auto_stop" "argtypes" (VTuple [POINTER _DVDNavT; c_int32; c_int32; c_int32]);
    SLookup "dvdnav_time_play" "_libdvdnav" "dvdnav_time_play";
    SSetAttr "dvdnav_time_play" "restype" (VType (Some _DVDNavStatusT));
    SSetAttr "dvdnav_time_play" "argtypes" (VTuple [POINTER _DVDNavT; c_int32; c_int64]);
    SLookup "dvdnav_menu_call" "_libdvdnav" "dvdnav_menu_call";
    SSetAttr "dvdnav_menu_call" "restype" (VType (Some _DVDNavStatusT));
    SSetAttr "dvdnav_menu_call" "argtypes" (VTuple [POINTER _DVDNavT; _DVDMenuIDT]);
    SLookup "dvdnav_current_title_info" "_libdvdnav" "dvdnav_current_title_info";
    SSetAttr "dvdnav_current_title_info" "restype" (VType (Some _DVDNavStatusT));
    SSetAttr "dvdnav_current_title_info" "argtypes" (VTuple [POINTER _DVDNavT; POINTER c_int32; POINTER c_int32]);
    SLookup "dvdnav_current_title_program" "_libdvdnav" "dvdnav_current_title_program";
    SSetAttr "dvdnav_current_title_program" "restype" (VType (Some _DVDNavStatusT));
    SSetAttr "dvdnav_current_title_program" "argtypes" (VTuple [POINTER _DVDNavT; POINTER c_int32; POINTER c_int32; POINTER c_int32]);
    SLookup "dvdnav_get_position_in_title" "_libdvdnav" "dvdnav_get_position_in_title";
    SSetAttr "dvdnav_get_position_in_title" "restype" (VType (Some _DVDNavStatusT));
    SSetAttr "dvdnav_get_position_in_title" "argtypes" (VTuple [POINTER _DVDNavT; POINTER c_uint32; POINTER c_uint32]);
    SLookup "dvdnav_part_search" "_libdvdnav" "dvdnav_part_search";
    SSetAttr "dvdnav_part_search" "restype" (VType (Some _DVDNavStatusT));
    SSetAttr "dvdnav_part_search" "argtypes" (VTuple [POINTER _DVDNavT; c_int32]);
    SLookup "dvdnav_sector_search" "_libdvdnav" "dvdnav_sector_search";
    SSetAttr "dvdnav_sector_search" "restype" (VType (Some _DVDNavStatusT));
    SSetAttr "dvdnav_sector_search" "argtypes" (VTuple [POINTER _DVDNavT; c_int64; c_int32]);
    SLookup "dvdnav_get_current_time" "_libdvdnav" "dvdnav_get_current_time";
    SSetAttr "dvdnav_get_current_time" "restype" (VType (Some c_int64));
    SSetAttr "dvdnav_get_current_time" "argtypes" (VTuple [POINTER _DVDNavT]);
    SLookup "dvdnav_time_search" "_libdvdnav" "dvdnav_time_search";
    SSetAttr "dvdnav_time_search" "restype" (VType (Some _DVDNavStatusT));
    SSetAttr "dvdnav_time_search" "argtypes" (VTuple [POINTER _DVDNavT; c_uint64]);
    SLookup "dvdnav_jump_to_sector_by_time" "_libdvdnav" "dvdnav_jump_to_sector_by_time";
    SSetAttr "dvdnav_jump_to_sector_by_time" "restype" (VType (Some _DVDNavStatusT));
    SSetAttr "dvdnav_jump_to_sector_by_time" "argtypes" (VTuple [POINTER _DVDNavT; c_uint64; c_int32]);
    SLookup "dvdnav_go_up" "_libdvdnav" "dvdnav_go_up";
    SSetAttr "dvdnav_go_up" "restype" (VType (Some _DVDNavStatusT));
    SSetAttr "dvdnav_go_up" "argtypes" (VTuple [POINTER _DVDNavT]);
    SLookup "dvdnav_prev_pg_search" "_libdvdnav" "dvdnav_prev_pg_search";
    SSetAttr "dvdnav_prev_pg_search" "restype" (VType (Some _DVDNavStatusT));
    SSetAttr "dvdnav_prev_pg_search" "argtypes" (VTuple [POINTER _DVDNavT]);
    SLookup "dvdnav_top_pg_search" "_libdvdnav" "dvdnav_top_pg_search";
    SSetAttr "dvdnav_top_pg_search" "restype" (VType (Some _DVDNavStatusT));
    SSetAttr "dvdnav_top_pg_search" "argtypes" (VTuple [POINTER _DVDNavT]);
    SLookup "dvdnav_next_pg_search" "_libdvdnav" "dvdnav_next_pg_search";
    SSetAttr "dvdnav_next_pg_search" "restype" (VType (Some _DVDNavStatusT));
    SSetAttr "dvdnav_next_pg_search" "argtypes" (VTuple [POINTER _DVDNavT]);
    SLookup "dvdnav_get_position" "_libdvdnav" "dvdnav_get_position";
    SSetAttr "dvdnav_get_position" "restype" (VType (Some _DVDNavStatusT));
    SSetAttr "dvdnav_get_position" "argtypes" (VTuple [POINTER _DVDNavT; POINTER c_uint32; POINTER c_uint32]);
    SLookup "dvdnav_get_current_highlight" "_libdvdnav" "dvdnav_get_current_highlight";
    SSetAttr "dvdnav_get_current_highlight" "restype" (VType (Some _DVDNavStatusT));
    SSetAttr "dvdnav_get_current_highlight" "argtypes" (VTuple [POINTER _DVDNavT; POINTER c_int32]);
    SLookup "dvdnav_get_current_nav_pci" "_libdvdnav" "dvdnav_get_current_nav_pci";
    SSetAttr "dvdnav_get_current_nav_pci" "restype" (VType (Some (POINTER _PCIT)));
    SSetAttr "dvdnav_get_current_nav_pci" "argtypes" (VTuple [POINTER _DVDNavT]);
    SLookup "dvdnav_get_current_nav_dsi" "_libdvdnav" "dvdnav_get_current_nav_dsi";
    SSetAttr "dvdnav_get_current_nav_dsi" "restype" (VType (Some (POINTER _DSIT)));
    SSetAttr "dvdnav_get_current_nav_dsi" "argtypes" (VTuple [POINTER _DVDNavT]);
    SLookup "dvdnav_get_highlight_area" "_libdvdnav" "dvdnav_get_highlight_area";
    SSetAttr "dvdnav_get_highlight_area" "restype" (VType (Some _DVDNavStatusT));
    SSetAttr "dvdnav_get_highlight_area" "argtypes" (VTuple [POINTER _PCIT; c_int32; c_int32; POINTER _DVDNavHighlightAreaT]);
    SLookup "dvdnav_upper_button_select" "_libdvdnav" "dvdnav_upper_button_select";
    SSetAttr "dvdnav_upper_button_select" "restype" (VType (Some _DVDNavStatusT));
    SSetAttr "dvdnav_upper_button_select" "argtypes" (VTuple [POINTER _DVDNavT; POINTER _PCIT]);
    SLookup "dvdnav_lower_button_select" "_libdvdnav" "dvdnav_lower_button_select";
    SSetAttr "dvdnav_lower_button_select" "restype" (VType (Some _DVDNavStatusT));
    SSetAttr "dvdnav_lower_button_select" "argtypes" (VTuple [POINTER _DVDNavT; POINTER _PCIT]);
    SLookup "dvdnav_right_button_select" "_libdvdnav" "dvdnav_right_button_select";
    SSetAttr "dvdnav_right_button_select" "restype" (VType (Some _DVDNavStatusT));
    SSetAttr "dvdnav_right_button_select" "argtypes" (VTuple [POINTER _DVDNavT; POINTER _PCIT]);
    SLookup "dvdnav_left_button_select" "_libdvdnav" "dvdnav_left_button_select";
    SSetAttr "dvdnav_left_button_select" "restype" (VType (Some _DVDNavStatusT));
    SSetAttr "dvdnav_left_button_select" "argtypes" (VTuple [POINTER _DVDNavT; POINTER _PCIT]);
    SLookup "dvdnav_button_activate" "_libdvdnav" "dvdnav_button_activate";
    SSetAttr "dvdnav_button_activate" "restype" (VType (Some _DVDNavStatusT));
    SSetAttr "dvdnav_button_activate" "argtypes" (VTuple [POINTER _DVDNavT; POINTER _PCIT]);
    SLookup "dvdnav_button_select" "_libdvdnav" "dvdnav_button_select";
    SSetAttr "dvdnav_button_select" "restype" (VType (Some _DVDNavStatusT));
    SSetAttr "dvdnav_button_select" "argtypes" (VTuple [POINTER _DVDNavT; POINTER _PCIT; c_int32]);
    SLookup "dvdnav_button_select_and_activate" "_libdvdnav" "dvdnav_button_select_and_activate";
    SSetAttr "dvdnav_button_select_and_activate" "restype" (VType (Some _DVDNavStatusT));
    SSetAttr "dvdnav_button_select_and_activate" "argtypes" (VTuple [POINTER _DVDNavT; POINTER _PCIT; c_int32]);
    SLookup "dvdnav_button_activate_cmd" "_libdvdnav" "dvdnav_button_activate_cmd";
    SSetAttr "dvdnav_button_activate_cmd" "restype" (VType (Some _DVDNavStatusT));
    SSetAttr "dvdnav_button_activate_cmd" "argtypes" (VTuple [POINTER _DVDNavT; c_int32; POINTER _VMCmdT]);
    SLookup "dvdnav_mouse_select" "_libdvdnav" "dvdnav_mouse_select";
    SSetAttr "dvdnav_mouse_select" "restype" (VType (Some _DVDNavStatusT));
    SSetAttr "dvdnav_mouse_select" "argtypes" (VTuple [POINTER _DVDNavT; POINTER _PCIT; c_int32; c_int32]);
    SLookup "dvdnav_mouse_activate" "_libdvdnav" "dvdnav_mouse_activate";
    SSetAttr "dvdnav_mouse_activate" "restype" (VType (Some _DVDNavStatusT));
    SSetAttr "dvdnav_mouse_activate" "argtypes" (VTuple [POINTER _DVDNavT; POINTER _PCIT; c_int32; c_int32]);
    SLookup "dvdnav_menu_language_select" "_libdvdnav" "dvdnav_menu_language_select";
    SSetAttr "dvdnav_menu_language_select" "restype" (VType (Some _DVDNavStatusT));
    SSetAttr "dvdnav_menu_language_select" "argtypes" (VTuple [POINTER _DVDNavT; POINTER c_char]);
    SLookup "dvdnav_audio_language_select" "_libdvdnav" "dvdnav_audio_language_select";
    SSetAttr "dvdnav_audio_language_select" "restype" (VType (Some _DVDNavStatusT));
    SSetAttr "dvdnav_audio_language_select" "argtypes" (VTuple [POINTER _DVDNavT; POINTER c_char]);
    SLookup "dvdnav_spu_language_select" "_libdvdnav" "dvdnav_spu_language_select";
    SSetAttr "dvdnav_spu_language_select" "restype" (VType (Some _DVDNavStatusT));
    SSetAttr "dvdnav_spu_language_select" "argtypes" (VTuple [POINTER _DVDNavT; POINTER c_char]);
    SLookup "dvdnav_get_title_string" "_libdvdnav" "dvdnav_get_title_string";
    SSetAttr "dvdnav_get_title_string" "restype" (VType (Some _DVDNavStatusT));
    SSetAttr "dvdnav_get_title_string" "argtypes" (VTuple [POINTER _DVDNavT; POINTER (POINTER c_char)]);
    SLookup "dvdnav_get_serial_string" "_libdvdnav" "dvdnav_get_serial_string";
    SSetAttr "dvdnav_get_serial_string" "restype" (VType (Some _DVDNavStatusT));
    SSetAttr "dvdnav_get_serial_string" "argtypes" (VTuple [POINTER _DVDNavT; POINTER (POINTER c_char)]);
    SLookup "dvdnav_get_video_aspect" "_libdvdnav" "dvdnav_get_video_aspect";
    SSetAttr "dvdnav_get_video_aspect" "restype" (VType (Some c_uint8));
    SSetAttr "dvdnav_get_video_aspect" "argtypes" (VTuple [POINTER _DVDNavT]);
    SLookup "dvdnav_get_video_resolution" "_libdvdnav" "dvdnav_get_video_resolution";
    SSetAttr "dvdnav_get_video_resolution" "restype" (VType (Some _DVDNavStatusT));
    SSetAttr "dvdnav_get_video_resolution" "argtypes" (VTuple [POINTER _DVDNavT; POINTER c_uint32; POINTER c_uint32]);
    SLookup "dvdnav_get_video_scale_permission" "_libdvdnav" "dvdnav_get_video_scale_permission";
    SSetAttr "dvdnav_get_video_scale_permission" "restype" (VType (Some c_uint8));
    SSetAttr "dvdnav_get_video_scale_permission" "argtypes" (VTuple [POINTER _DVDNavT]);
    SLookup "dvdnav_audio_stream_to_lang" "_libdvdnav" "dvdnav_audio_stream_to_lang";
    SSetAttr "dvdnav_audio_stream_to_lang" "restype" (VType (Some c_uint16));
    SSetAttr "dvdnav_audio_stream_to_lang" "argtypes" (VTuple [POINTER _DVDNavT; c_uint8]);
    SLookup "dvdnav_audio_stream_format" "_libdvdnav" "dvdnav_audio_stream_format";
    SSetAttr "dvdnav_audio_stream_format" "restype" (VType (Some c_uint16));
    SSetAttr "dvdnav_audio_stream_format" "argtypes" (VTuple [POINTER _DVDNavT; c_uint8]);
    SLookup "dvdnav_audio_stream_channels" "_libdvdnav" "dvdnav_audio_stream_channels";
    SSetAttr "dvdnav_audio_stream_channels" "restype" (VType (Some c_uint16));
    SSetAttr "dvdnav_audio_stream_channels" "argtypes" (VTuple [POINTER _DVDNavT; c_uint8]);
    SLookup "dvdnav_spu_stream_to_lang" "_libdvdnav" "dvdnav_spu_stream_to_lang";
    SSetAttr "dvdnav_spu_stream_to_lang" "restype" (VType (Some c_uint16));
    SSetAttr "dvdnav_spu_stream_to_lang" "argtypes" (VTuple [POINTER _DVDNavT; c_uint8]);
    SLookup "dvdnav_get_audio_logical_stream" "_libdvdnav" "dvdnav_get_audio_logical_stream";
    SSetAttr "dvdnav_get_audio_logical_stream" "restype" (VType (Some c_int8));
    SSetAttr "dvdnav_get_audio_logical_stream" "argtypes" (VTuple [POINTER _DVDNavT; c_uint8]);
    SLookup "dvdnav_get_audio_attr" "_libdvdnav" "dvdnav_get_audio_attr";
    SSetAttr "dvdnav_get_audio_attr" "restype" (VType (Some _DVDNavStatusT));
    SSetAttr "dvdnav_get_audio_attr" "argtypes" (VTuple [POINTER _DVDNavT; c_uint8; POINTER _AudioAttrT]);
    SLookup "dvdnav_get_spu_logical_stream" "_libdvdnav" "dvdnav_get_spu_logical_stream";
    SSetAttr "dvdnav_get_spu_logical_stream" "restype" (VType (Some c_int8));
    SSetAttr "dvdnav_get_spu_logical_stream" "argtypes" (VTuple [POINTER _DVDNavT; c_uint8]);
    SLookup "dvdnav_get_spu_attr" "_libdvdnav" "dvdnav_get_spu_attr";
    SSetAttr "dvdnav_get_spu_attr" "restype" (VType (Some _DVDNavStatusT));
    SSetAttr "dvdnav_get_spu_attr" "argtypes" (VTuple [POINTER _DVDNavT; c_uint8; POINTER _SubPAttrT]);
    SLookup "dvdnav_get_active_audio_stream" "_libdvdnav" "dvdnav_get_active_audio_stream";
    SSetAttr "dvdnav_get_active_audio_stream" "restype" (VType (Some c_int8));
    SSetAttr "dvdnav_get_active_audio_stream" "argtypes" (VTuple [POINTER _DVDNavT]);
    SLookup "dvdnav_get_active_spu_stream" "_libdvdnav" "dvdnav_get_active_spu_stream";
    SSetAttr "dvdnav_get_active_spu_stream" "restype" (VType (Some c_int8));
    SSetAttr "dvdnav_get_active_spu_stream" "argtypes" (VTuple [POINTER _DVDNavT]);
    SLookup "dvdnav_get_restrictions" "_libdvdnav" "dvdnav_get_restrictions";
    SSetAttr "dvdnav_get_restrictions" "restype" (VType (Some _UserOpsT));
    SSetAttr "dvdnav_get_restrictions" "argtypes" (VTuple [POINTER _DVDNavT]);
    SLookup "dvdnav_angle_change" "_libdvdnav" "dvdnav_angle_change";
    SSetAttr "dvdnav_angle_change" "restype" (VType (Some _DVDNavStatusT));
    SSetAttr "dvdnav_angle_change" "argtypes" (VTuple [POINTER _DVDNavT; c_uint32]);
    SLookup "dvdnav_get_angle_info" "_libdvdnav" "dvdnav_get_angle_info";
    SSetAttr "dvdnav_get_angle_info" "restype" (VType (Some _DVDNavStatusT));
    SSetAttr "dvdnav_get_angle_info" "argstype" (VTuple [POINTER _DVDNavT; POINTER c_uint32; POINTER c_uint32]);
    SLookup "dvdnav_is_domain_fp" "_libdvdnav" "dvdnav_is_domain_fp";
    SSetAttr "dvdnav_is_domain_fp" "restype" (VType (Some c_int8));
    SSetAttr "dvdnav_is_domain_fp" "argtypes" (VTuple [POINTER _DVDNavT]);
    SLookup "dvdnav_is_domain_vmgm" "_libdvdnav" "dvdnav_is_domain_vmgm";
    SSetAttr "dvdnav_is_domain_vmgm" "restype" (VType (Some c_int8));
    SSetAttr "dvdnav_is_domain_vmgm" "argtypes" (VTuple [POINTER _DVDNavT]);
    SLookup "dvdnav_is_domain_vtsm" "_libdvdnav" "dvdnav_is_domain_vtsm";
    SSetAttr "dvdnav_is_domain_vtsm" "restype" (VType (Some c_int8));
    SSetAttr "dvdnav_is_domain_vtsm" "argtypes" (VTuple [POINTER _DVDNavT]);
    SLookup "dvdnav_is_domain_vts" "_libdvdnav" "dvdnav_is_domain_vts";
    SSetAttr "dvdnav_is_domain_vts" "restype" (VType (Some c_int8));
    SSetAttr "dvdnav_is_domain_vts" "argtypes" (VTuple [POINTER _DVDNavT]);
    SSetFields "_VMT" _VMT_fields;
    SSetFields "_DVDNavS" _DVDNavS_fields;
    SClass KStructure "_DVDNavStillEventT" (Some _DVDNavStillEventT_fields);
    SClass KStructure "_DVDNavSPUStreamChangeEventT" (Some _DVDNavSPUStreamChangeEventT_fields);
    SClass KStructure "_DVDNavAudioStreamChangeEventT" (Some _DVDNavAudioStreamChangeEventT_fields);
    SClass KStructure "_DVDNavVTSChangeEventT" (Some _DVDNavVTSChangeEventT_fields);
    SClass KStructure "_DVDNavCellChangeEventT" (Some _DVDNavCellChangeEventT_fields);
    SClass KStructure "_DVDNavHighlightEventT" (Some _DVDNavHighlightEventT_fields) ].

End dvdnav.

(** ** Importing the modules

    [dvdread] imports [dvdcss] and [dvdnav] imports [dvdread]; every module
    also imports [ctypes] and [os]. The function pointer objects of the
    three modules have pairwise distinct names, so one table holds them. *)

Definition no_package (_ : string) : option (state -> run) := None.

Definition import_dvdcss (h : host) (st : state) : run :=
  exec_block h no_package dvdcss.body st.

Definition dvdread_imports (h : host) (m : string) : option (state -> run) :=
  if String.eqb m "dvdcss" then Some (import_dvdcss h) else None.

Definition import_dvdread (h : host) (st : state) : run :=
  exec_block h (dvdread_imports h) dvdread.body st.

Definition dvdnav_imports (h : host) (m : string) : option (state -> run) :=
  if String.eqb m "dvdread" then Some (import_dvdread h) else None.

Definition import_dvdnav (h : host) (st : state) : run :=
  exec_block h (dvdnav_imports h) dvdnav.body st.

(** A POSIX host on which every library loads and every symbol resolves. *)
Definition good_posix (h : host) : Prop :=
  os_name h = "posix" /\
  (forall p, can_load h p = true) /\
  (forall l s, has_symbol h l s = true).

Definition posix_with (ev : string -> string) : host :=
  mkhost "posix" ev (fun _ => true) (fun _ _ => true).

Definition posix_host : host := posix_with (fun s => s).

Definition final_state (r : run) : state :=
  match r with
  | Finished st => st
  | Raised _ st => st
  end.

(** The interpreter states after a fresh interpreter imported a module. *)
Definition booted_css : state := final_state (import_dvdcss posix_host empty_state).
Definition booted_read : state := final_state (import_dvdread posix_host empty_state).
Definition booted_nav : state := final_state (import_dvdnav posix_host empty_state).

(** Two hosts the scripts cannot tell apart. *)
Definition host_agree (h h' : host) : Prop :=
  os_name h = os_name h' /\
  (forall s, expandvars h s = expandvars h' s) /\
  (forall p, can_load h p = can_load h' p) /\
  (forall l s, has_symbol h l s = has_symbol h' l s).

Definition imp_agree (imp imp' : string -> option (state -> run)) : Prop :=
  forall m,
    match imp m, imp' m with
    | Some f, Some g => forall st, f st = g st
    | None, None => True
    | _, _ => False
    end.

(** * The properties under study *)

(** ** Platform gate *)

(** The condition the three scripts raise on a host that is neither POSIX
    nor Windows: [RuntimeError(f"Unsupported operating system {os.name}. "
    + "This is almost certainly a bug.")]. *)
Definition UnsupportedPlatform (os : string) : exn :=
  RuntimeError
    (String.append "Unsupported operating system "
       (String.append os ". This is almost certainly a bug.")).

(** A host that is neither POSIX nor Windows. *)
Definition java_host : host :=
  mkhost "java" (fun s => s) (fun _ => true) (fun _ _ => true).

(** Two states that differ at most in the set of imported modules. *)
Definition same_effects (st st' : state) : Prop :=
  libs st' = libs st /\ types st' = types st /\
  funcs st' = funcs st /\ trace st' = trace st.

(** Statements at the head of a script that bind names only. *)
Definition inert (imp : string -> option (state -> run)) (s : stmt) : Prop :=
  (exists m, s = SImport m /\ imp m = None) \/
  (exists x p, s = SAssign x (RStr p)).

(** ** Navigation pack regions *)

Definition nav_regions_fill_sector : Prop :=
  dvdread._PCI_BYTES + dvdread._DSI_BYTES = dvdread._DVD_VIDEO_LB_LEN.

(** ** Published structure sizes *)

(** [s] ends with [suffix]. *)
Fixpoint ends_with (suffix s : string) : bool :=
  String.eqb suffix s ||
  match s with
  | EmptyString => false
  | String _ r => ends_with suffix r
  end.

(** The size constants a script binds: every integer constant whose name
    ends in [_SIZE], with the descriptor it follows in the script (the
    header's [X_SIZE] is bound right after the class of the header's
    [x_t]). An entry holds the descriptor, the name of the constant and
    its value; [last] is the class declared last. *)
Fixpoint size_constants (last : option string) (body : list stmt)
  : list (string * string * Z) :=
  match body with
  | [] => []
  | SClass _ n _ :: r => size_constants (Some n) r
  | SAssign x (RInt k) :: r =>
      match last with
      | Some d =>
          if ends_with "_SIZE" x then (d, x, k) :: size_constants last r
          else size_constants last r
      | None => size_constants last r
      end
  | _ :: r => size_constants last r
  end.

(** The size constants of [dvdread.py], each with its descriptor. *)
Definition published_sizes : list (string * Z) :=
  map (fun '(d, _, k) => (d, k)) (size_constants None dvdread.body).

(** A size mismatch is caught at import: whenever the import finishes, the
    computed size of each descriptor equals its published constant. *)
Definition size_mismatch_caught (h : host) : Prop :=
  forall name k st,
    In (name, k) published_sizes ->
    import_dvdread h empty_state = Finished st ->
    sizeof (types st) (Cls name) = k.

(** The constants against the sizes ctypes computed: the name of the
    constant, its value, the descriptor and the descriptor's size. *)
Definition size_table (st : state) : list (string * Z * string * Z) :=
  map (fun '(d, c, k) => (c, k, d, sizeof (types st) (Cls d)))
      (size_constants None dvdread.body).

(** ** Callback records *)

(** The type a class declares for a field of its [_fields_] list. *)
Definition field_type (ct : classes) (cls fname : string) : option ctype :=
  match lookup cls ct with
  | Some c =>
      match cls_fields c with
      | Some fs =>
          option_map f_type (find (fun f => String.eqb (f_name f) fname) fs)
      | None => None
      end
  | None => None
  end.

(** The shapes of the seek, read and vectored-read trampolines of a stream
    callback record and of the logging sink, as ctypes classes. *)
Definition trampoline_shapes (ct : classes) (stream_cb : string)
  : list (option ctype) :=
  map (option_map canon)
    [ field_type ct stream_cb "pf_seek";
      field_type ct stream_cb "pf_read";
      field_type ct stream_cb "pf_readv";
      field_type ct "_DVDLoggerCB" "pf_log" ].

Definition shapes_pairwise_distinct (ct : classes) (stream_cb : string) : Prop :=
  NoDup (trampoline_shapes ct stream_cb).

(** ** Function wrappers of a script *)

(** Names bound by [name = lib.symbol], in script order. *)
Definition wrappers (body : list stmt) : list string :=
  flat_map (fun s => match s with
                     | SLookup x _ _ => [x]
                     | _ => []
                     end) body.

(** Attribute names the script assigns on [x], in script order. *)
Definition attrs_set (body : list stmt) (x : string) : list string :=
  flat_map (fun s => match s with
                     | SSetAttr y a _ => if String.eqb x y then [a] else []
                     | _ => []
                     end) body.

Definition argtypes_of (st : state) (x : string) : option (list ctype) :=
  match lookup x (funcs st) with
  | Some f => fn_argtypes f
  | None => None
  end.

(** The tuple a script left in the instance dictionary of [x] under the
    attribute name [attr]. *)
Definition misspelled_argtypes (st : state) (x attr : string)
  : option (list ctype) :=
  match lookup x (funcs st) with
  | Some f =>
      match lookup attr (fn_dict f) with
      | Some (VTuple ts) => Some ts
      | _ => None
      end
  | None => None
  end.

(** ** The navigation context layout *)

(** A field list in which a name repeated at consecutive positions is
    declared once. *)
Fixpoint declare_once (prev : option string) (fs : list field) : list field :=
  match fs with
  | [] => []
  | f :: r =>
      let rest := declare_once (Some (f_name f)) r in
      match prev with
      | Some p => if String.eqb p (f_name f) then rest else f :: rest
      | None => f :: rest
      end
  end.

(** Names declared after the last field called [name]. *)
Fixpoint names_after (name : string) (fs : list field) : list string :=
  match fs with
  | [] => []
  | f :: r =>
      if existsb (fun g => String.eqb (f_name g) name) r then names_after name r
      else if String.eqb (f_name f) name then map f_name r
      else []
  end.

Definition offset_in (ps : list placed) (name : string) : option Z :=
  option_map pf_offset (find (fun p => String.eqb (pf_name p) name) ps).

Definition positions_of (name : string) (fs : list field) : list nat :=
  map fst (filter (fun '(_, f) => String.eqb (f_name f) name)
                  (combine (seq 0 (length fs)) fs)).

Definition layout_as_patched (st : state) : list placed :=
  match lookup "_DVDNavS" (types st) with
  | Some c => cls_layout c
  | None => []
  end.

Definition layout_declared_once (st : state) : list placed :=
  fst (fst (layout (types st) KStructure
                   (declare_once None dvdnav._DVDNavS_fields))).

(** Every field after the repeated name sits one [c_int] further. *)
Definition repeated_name_shifts_all (st : state) : Prop :=
  forall f,
    In f (names_after "spu_clut_changed" dvdnav._DVDNavS_fields) ->
    offset_in (layout_as_patched st) f =
    option_map (Z.add (sizeof (types st) c_int))
               (offset_in (layout_declared_once st) f).

(** ** Handles *)

(** States of the interpreter once [dvdnav] (and with it [dvdread] and
    [dvdcss]) is imported and the host program calls wrappers. *)
Inductive in_use (native : string -> list Z -> Z) : state -> Prop :=
| in_use_boot : in_use native booted_nav
| in_use_call st f args :
    in_use native st -> in_use native (fst (ffi_call native st f args)).

(** The life cycle the specification gives a handle, read off the calls
    made so far: a handle is open once an open entry point returned it and
    closed once it was then passed to a close entry point. *)
Inductive handle_state := Unopened | Open | Closed.

Definition open_entry (symbol : string) : bool :=
  existsb (String.eqb symbol)
    ["dvdcss_open"; "dvdcss_open_stream"; "DVDOpen"; "DVDOpenStream";
     "DVDOpen2"; "DVDOpenStream2"; "DVDOpenFile"].

Definition close_entry (symbol : string) : bool :=
  existsb (String.eqb symbol) ["dvdcss_close"; "DVDClose"; "DVDCloseFile"].

Fixpoint lifecycle (a : Z) (s : handle_state) (evs : list event) : handle_state :=
  match evs with
  | [] => s
  | ENative symbol args ret :: r =>
      if open_entry symbol && (ret =? a) && negb (a =? 0) then lifecycle a Open r
      else if close_entry symbol
              && match args with [x] => x =? a | _ => false end
      then lifecycle a (match s with Open => Closed | s' => s' end) r
      else lifecycle a s r
  | _ :: r => lifecycle a s r
  end.

Definition handle_state_of (st : state) (a : Z) : handle_state :=
  lifecycle a Unopened (history st).

(** A call is rejected locally: it raises and the native side is not
    reached. *)
Definition rejected_locally (native : string -> list Z -> Z) (st : state)
  (f : string) (args : list pyval) : Prop :=
  (exists e, snd (ffi_call native st f args) = Err e) /\
  native_calls (fst (ffi_call native st f args)) = native_calls st.

(** The registry of the specification: closing a closed handle and reading
    through a handle that is not open are rejected locally. *)
Definition lifecycle_enforced (native : string -> list Z -> Z) : Prop :=
  forall st a,
    in_use native st ->
    (handle_state_of st a = Closed ->
     rejected_locally native st "dvdcss_close" [PPtr dvdcss._DVDCSSS a]) /\
    (handle_state_of st a <> Open ->
     forall buf n flags,
       rejected_locally native st "dvdcss_read"
         [PPtr dvdcss._DVDCSSS a; PInt buf; PInt n; PInt flags]).

(** A native side on which [dvdcss_open] returns the handle 4096 and every
    other entry point returns 0. *)
Definition sample_native (symbol : string) (args : list Z) : Z :=
  if String.eqb symbol "dvdcss_open" then 4096 else 0.

(** A native side on which every entry point fails with -1. *)
Definition failing_native (symbol : string) (args : list Z) : Z := -1.

(** A [Z] that fits a signed C integer of [bits] bits. *)
Definition fits_signed (bits z : Z) : Prop :=
  - 2 ^ (bits - 1) <= z < 2 ^ (bits - 1).

(** ** Shell-then-patch declarations *)

Definition event_eq_dec (a b : event) : {a = b} + {a <> b}.
Proof.
  decide equality;
    try apply string_dec; try apply Bool.bool_dec; try apply Z.eq_dec.
  apply (list_eq_dec Z.eq_dec).
Defined.

(** Class names the fields of [a], as laid out, mention. *)
Definition refs (ct : classes) (a : string) : list string :=
  match lookup a ct with
  | Some c => flat_map (fun p => cls_names (pf_type p)) (cls_layout c)
  | None => []
  end.

Definition refers (ct : classes) (a b : string) : Prop := In b (refs ct a).

(** [a] is self-referential or mutually referential. *)
Definition in_cycle (ct : classes) (a : string) : Prop :=
  clos_trans string (refers ct) a a.

(** The shell-then-patch protocol for the class [name], on the history of
    an import: an empty class statement, later exactly one [_fields_]
    assignment taking effect, every class the fields mention declared
    before that assignment, and the layout fixed in the end. *)
Definition patched_once (tr : list event) (ct : classes) (name : string) : Prop :=
  exists i j,
    nth_error tr i = Some (EClass name false) /\
    nth_error tr j = Some (EFields name) /\
    (i < j)%nat /\
    count_occ event_eq_dec tr (EFields name) = 1%nat /\
    (forall b, refers ct name b ->
       exists k w, (k < j)%nat /\ nth_error tr k = Some (EClass b w)) /\
    (exists c, lookup name ct = Some c /\ cls_final c = true).

Fixpoint find_index (e : event) (l : list event) (i : nat) : option nat :=
  match l with
  | [] => None
  | x :: r => if event_eq_dec x e then Some i else find_index e r (S i)
  end.

Definition declared_in (tr : list event) (b : string) : bool :=
  existsb (fun e => match e with
                    | EClass n _ => String.eqb n b
                    | _ => false
                    end) tr.

Definition patched_onceb (tr : list event) (ct : classes) (name : string) : bool :=
  match find_index (EClass name false) tr 0, find_index (EFields name) tr 0 with
  | Some i, Some j =>
      (i <? j)%nat
      && (count_occ event_eq_dec tr (EFields name) =? 1)%nat
      && forallb (declared_in (firstn j tr)) (refs ct name)
      && match lookup name ct with
         | Some c => cls_final c
         | None => false
         end
  | _, _ => false
  end.

Definition mem (x : string) (l : list string) : bool := existsb (String.eqb x) l.

(** Names reachable from [front] in at most [fuel] rounds. *)
Fixpoint reach (ct : classes) (fuel : nat) (seen front : list string)
  : list string :=
  match fuel with
  | O => seen
  | S k =>
      let next := filter (fun x => negb (mem x seen))
                         (nodup string_dec (flat_map (refs ct) front)) in
      match next with
      | [] => seen
      | _ => reach ct k (seen ++ next) next
      end
  end.

Definition reach_from (ct : classes) (a : string) : list string :=
  reach ct (length ct) [] [a].

Definition closed_under_refs (ct : classes) (a : string) (R : list string) : bool :=
  forallb (fun x => forallb (fun y => mem y R) (refs ct x)) (a :: R).

(** What is checked, by computation, of every class of the table: the
    names reached from [a] are closed under [refs], and if [a] is among
    them the class follows the protocol. *)
Definition cycle_check (tr : list event) (ct : classes) (a : string) : bool :=
  closed_under_refs ct a (reach_from ct a)
  && (negb (mem a (reach_from ct a)) || patched_onceb tr ct a).

(** Classes declared by an empty class statement, in script order. *)
Definition shells (tr : list event) : list string :=
  flat_map (fun e => match e with
                     | EClass n false => [n]
                     | _ => []
                     end) tr.

(** ** Bit-field packing *)

Definition layout_of (st : state) (name : string) : list placed :=
  match lookup name (types st) with
  | Some c => cls_layout c
  | None => []
  end.

Definition type_bits (t : ctype) : Z :=
  match int_kind t with
  | Some (_, b) => b
  | None => 0
  end.

(** Where the declarations put the bit fields of a field list. Consecutive
    bit-field declarations of one unit width form a run; the fields of a
    run are laid end to end in declaration order, the first at bit 0, the
    least significant bit of the run's first storage unit, each consuming
    its declared width. An entry holds the name of the field, the width of
    its declared unit type, its first bit counted from the start of the
    run, and its width. [run] is the unit width of the open run and the
    bits declared in it so far. *)
Fixpoint declared_bits (run : option (Z * Z)) (fs : list field)
  : list (string * Z * Z * Z) :=
  match fs with
  | [] => []
  | f :: r =>
      match f_bits f with
      | None => declared_bits None r
      | Some w =>
          let U := type_bits (f_type f) in
          let start := match run with
                       | Some (U', used) => if U' =? U then used else 0
                       | None => 0
                       end in
          (f_name f, U, start, w) :: declared_bits (Some (U, start + w)) r
      end
  end.

(** A declared bit field spans past its storage unit: its first and its
    last bit lie in different units of the run. *)
Definition spans_unit (d : string * Z * Z * Z) : bool :=
  let '(_, U, start, w) := d in negb (start / U =? (start + w - 1) / U).

Definition spanning_fields (fs : list field) : list string :=
  map (fun d => fst (fst (fst d))) (filter spans_unit (declared_bits None fs)).

(** The bits a run of declarations takes when laid end to end. *)
Definition declared_end (fs : list field) : Z :=
  fold_right (fun '(_, _, start, w) m => Z.max (start + w) m) 0
             (declared_bits None fs).

(** Where ctypes put the bit fields of a layout, in the same terms: the
    name, the width of the storage unit the field was placed in, the first
    bit of the field counted from bit 0 of the storage unit that holds the
    first field of the run (on a little-endian host bit [b] of the unit at
    byte [o] is bit [8 * o + b] of the record), and the width. [run] is the
    unit width of the open run and the bit address of its first unit. *)
Fixpoint placed_bits (run : option (Z * Z)) (ps : list placed)
  : list (string * Z * Z * Z) :=
  match ps with
  | [] => []
  | p :: r =>
      match pf_bits p with
      | None => placed_bits None r
      | Some (w, bo, ub) =>
          let U := type_bits (pf_type p) in
          let base := match run with
                      | Some (U', b) => if U' =? U then b else 8 * pf_offset p
                      | None => 8 * pf_offset p
                      end in
          (pf_name p, ub, 8 * pf_offset p + bo - base, w)
            :: placed_bits (Some (U, base)) r
      end
  end.

(** The bit fields of a class are packed as declared: no declared field
    spans past its storage unit, and ctypes placed every field in a unit
    of its declared type at its declared bits. *)
Definition packed_as_declared (c : cls) : Prop :=
  forall fs, cls_fields c = Some fs ->
    spanning_fields fs = [] /\
    placed_bits None (cls_layout c) = declared_bits None fs.

Fixpoint bits_eqb (a b : list (string * Z * Z * Z)) : bool :=
  match a, b with
  | [], [] => true
  | (n, U, s, w) :: a', (n', U', s', w') :: b' =>
      String.eqb n n' && (U =? U') && (s =? s') && (w =? w') && bits_eqb a' b'
  | _, _ => false
  end.

Definition packed_as_declaredb (c : cls) : bool :=
  match cls_fields c with
  | Some fs =>
      match spanning_fields fs with
      | [] => bits_eqb (placed_bits None (cls_layout c)) (declared_bits None fs)
      | _ => false
      end
  | None => true
  end.

Definition has_bit_fields (c : cls) : bool :=
  existsb (fun p => match pf_bits p with Some _ => true | None => false end)
          (cls_layout c).

(** The classes of a table that bear bit fields. *)
Definition bit_field_classes (ct : classes) : list string :=
  map fst (filter (fun nc => has_bit_fields (snd nc)) ct).

(** ** Checks on the wrappers of dvdnav.py *)

Definition only_restype_and_argtypes (x : string) : bool :=
  forallb (fun a => String.eqb a "restype" || String.eqb a "argtypes")
          (attrs_set dvdnav.body x).

Definition argtypes_took_effect (st : state) (x : string) : bool :=
  negb (mem "argtypes" (attrs_set dvdnav.body x))
  || match argtypes_of st x with Some _ => true | None => false end.
(** * Further properties of the three scripts *)

(** ** Hosts on which an import fails *)

(** A Windows host. *)
Definition windows_host : host :=
  mkhost "nt" (fun s => s) (fun _ => true) (fun _ _ => true).

(** The condition [dvdcss.py] raises on Windows. *)
Definition WindowsUnsupported : exn :=
  RuntimeError "Windows support not yet implemented. Sorry!".

(** A POSIX host on which the shared object [lib] cannot be loaded; every
    other library loads and every symbol resolves. *)
Definition posix_without (lib : string) : host :=
  mkhost "posix" (fun s => s) (fun p => negb (String.eqb p lib))
         (fun _ _ => true).

(** Nothing of the package is bound: no library, class or function
    pointer, and no step was observed. *)
Definition nothing_bound (st : state) : Prop :=
  history st = [] /\ libs st = [] /\ types st = [] /\ funcs st = [].

(** ** Calls through the wrappers *)

(** The wrappers whose first declared argument is not a typed pointer:
    three take a [c_void_p] stream, [dvdnav_version] declares no arguments
    and [dvdnav_get_angle_info] misspells the attribute. *)
Definition untyped_first_argument : list string :=
  ["dvdcss_open_stream"; "dvd_open2"; "dvd_open_stream2"; "dvdnav_version";
   "dvdnav_get_angle_info"].

(** A value that is not a handle of type [POINTER(t)]: a Python integer,
    or a pointer to another type. *)
Definition wrong_handle (t : ctype) (v : pyval) : Prop :=
  match v with
  | PInt _ => True
  | PPtr t' _ => ctype_eqb (canon t) (canon t') = false
  | _ => False
  end.

Definition first_is_pointer (fp : cfunc) : bool :=
  match fn_argtypes fp with
  | Some (POINTER _ :: _) => true
  | _ => false
  end.

Definition no_errcheck (fp : cfunc) : bool :=
  match lookup "errcheck" (fn_dict fp) with
  | Some _ => false
  | None => true
  end.

(** ** A missing symbol *)

(** Symbols a statement looks up, through the branches of an [if]. *)
Fixpoint symbols_in (s : stmt) : list string :=
  match s with
  | SLookup _ _ sym => [sym]
  | SIf _ thn els =>
      (fix all (l : list stmt) : list string :=
         match l with
         | [] => []
         | x :: r => symbols_in x ++ all r
         end) thn ++
      (fix all (l : list stmt) : list string :=
         match l with
         | [] => []
         | x :: r => symbols_in x ++ all r
         end) els
  | _ => []
  end.

Definition symbols_of (body : list stmt) : list string :=
  flat_map symbols_in body.

(** The lookups [name = lib.symbol] of a script, in script order. *)
Definition lookups (body : list stmt) : list (string * string * string) :=
  flat_map (fun s => match s with
                     | SLookup x l sym => [(x, l, sym)]
                     | _ => []
                     end) body.

(** The wrappers of the three modules, in import order. *)
Definition all_wrappers : list string :=
  wrappers dvdcss.body ++ wrappers dvdread.body ++ wrappers dvdnav.body.

(** The names of [l] before [x]. *)
Fixpoint bound_before (x : string) (l : list string) : list string :=
  match l with
  | [] => []
  | y :: r => if String.eqb y x then [] else y :: bound_before x r
  end.

(** A POSIX host on which every library loads and every symbol but [sym]
    resolves. *)
Definition lacks (h : host) (sym : string) : Prop :=
  os_name h = "posix" /\
  (forall p, can_load h p = true) /\
  (forall l s, has_symbol h l s = negb (String.eqb s sym)).

Definition posix_lacking (sym : string) : host :=
  mkhost "posix" (fun s => s) (fun _ => true)
         (fun _ s => negb (String.eqb s sym)).

(** Two hosts that differ at most in whether they have the symbol [sym]. *)
Definition agree_except (sym : string) (h h' : host) : Prop :=
  os_name h = os_name h' /\
  (forall s, expandvars h s = expandvars h' s) /\
  (forall p, can_load h p = can_load h' p) /\
  (forall l s, s <> sym -> has_symbol h l s = has_symbol h' l s).

Fixpoint names_eqb (a b : list string) : bool :=
  match a, b with
  | [], [] => true
  | x :: a', y :: b' => String.eqb x y && names_eqb a' b'
  | _, _ => false
  end.

(** What holds of the state in which a script reaches a lookup: the
    library is bound, the wrappers bound so far are those the three
    scripts look up before this one, and no native call was made. *)
Definition ready (st : state) (s : stmt) : bool :=
  match s with
  | SLookup x l _ =>
      match lookup l (libs st) with Some _ => true | None => false end
      && names_eqb (map fst (funcs st)) (bound_before x all_wrappers)
      && match native_calls st with [] => true | _ => false end
  | _ => true
  end.

(** A run of a script that finishes, with [P] checked of every statement
    in the state it is reached in. *)
Fixpoint scan (h : host) (imp : string -> option (state -> run))
  (P : state -> stmt -> bool) (l : list stmt) (st : state) : bool :=
  match l with
  | [] => true
  | x :: r =>
      P st x &&
      match exec h imp x st with
      | Finished st' => scan h imp P r st'
      | Raised _ _ => false
      end
  end.

(** A symbol is looked up once in a script and in no script imported
    before it. *)
Definition looked_up_once (before : list string) (body : list stmt)
  (sym : string) : bool :=
  negb (mem sym before) && (count_occ string_dec (symbols_of body) sym =? 1)%nat.

(** The interpreter in which a module starts that another module imports:
    only [ctypes] and [os] are imported. *)
Definition standard_modules_only : state :=
  mkstate ["os"; "ctypes"] [] [] [] [].

(** The state in which the lookup of the wrapper [x] failed: the wrappers
    bound are those the three scripts look up before [x], [x] itself is
    unbound, and no native call was made. *)
Definition failed_at (x : string) (st : state) : Prop :=
  map fst (funcs st) = bound_before x all_wrappers /\
  lookup x (funcs st) = None /\
  native_calls st = [].

(** ** Fields appended after the assignment *)

(** The fields a script appends to the [_fields_] list of [name] at its
    top level, in script order. *)
Definition appended_fields (name : string) (body : list stmt) : list field :=
  flat_map (fun s => match s with
                     | SAppendField n f => if String.eqb n name then [f] else []
                     | _ => []
                     end) body.

Definition fields_bound (st : state) (name : string) : option (list field) :=
  match lookup name (types st) with
  | Some c => cls_fields c
  | None => None
  end.

(** ** What the modules export *)

(** The classes a script declares, in script order. *)
Definition class_names (body : list stmt) : list string :=
  flat_map (fun s => match s with
                     | SClass _ n _ => [n]
                     | _ => []
                     end) body.

Definition all_lookups : list (string * string * string) :=
  lookups dvdcss.body ++ lookups dvdread.body ++ lookups dvdnav.body.

Definition all_statements : list stmt :=
  dvdcss.body ++ dvdread.body ++ dvdnav.body.

Fixpoint distinct (l : list string) : bool :=
  match l with
  | [] => true
  | x :: r => negb (mem x r) && distinct r
  end.

(** A wrapper as the import left it: its name, the library it is bound in
    and its symbol. *)
Definition bound_to (xf : string * cfunc) : string * option string * string :=
  (fst xf, Some (fn_lib (snd xf)), fn_symbol (snd xf)).

(** A wrapper as the script looks it up. *)
Definition looked_up_in (st : state) (xls : string * string * string)
  : string * option string * string :=
  let '(x, l, sym) := xls in (x, lookup l (libs st), sym).

(** The wrappers that leave [argtypes] undeclared. *)
Definition undeclared_argtypes (st : state) : list string :=
  map fst (filter (fun xf => match fn_argtypes (snd xf) with
                             | Some _ => false
                             | None => true
                             end) (funcs st)).

(** ** Navigation packets *)

(** The bits the fields of a type declare, laid end to end without
    padding: the members of a structure one after the other, those of a
    union on top of each other, a bit field with its width. [fuel] bounds
    the nesting of classes. *)
Fixpoint packed_bits (ct : classes) (fuel : nat) : ctype -> Z :=
  fix bits (t : ctype) : Z :=
    match t with
    | Arr e n => n * bits e
    | Cls name =>
        match fuel with
        | O => 0
        | S k =>
            match lookup name ct with
            | Some c =>
                let member p := match pf_bits p with
                                | Some (w, _, _) => w
                                | None => packed_bits ct k (pf_type p)
                                end in
                match cls_kind c with
                | KStructure =>
                    fold_right Z.add 0 (map member (cls_layout c))
                | KUnion =>
                    fold_right Z.max 0 (map member (cls_layout c))
                end
            | None => 0
            end
        end
    | _ => 8 * sizeof ct t
    end.

Definition packed_bytes (st : state) (t : ctype) : Z :=
  packed_bits (types st) (length (types st)) t / 8.


(** * Properties of the interpreter *)

Lemma exec_if_block h imp c thn els st :
  exec h imp (SIf c thn els) st =
  exec_block h imp (if eval_cond h c then thn else els) st.
Proof.
  simpl. generalize (if eval_cond h c then thn else els) as l.
  intro l. revert st. induction l as [|x r IH]; intro st; simpl.
  - reflexivity.
  - destruct (exec h imp x st); [apply IH | reflexivity].
Qed.

Lemma exec_block_app h imp l1 l2 st :
  exec_block h imp (l1 ++ l2) st =
  match exec_block h imp l1 st with
  | Finished st' => exec_block h imp l2 st'
  | Raised e st' => Raised e st'
  end.
Proof.
  revert st. induction l1 as [|x r IH]; intro st; simpl.
  - reflexivity.
  - destruct (exec h imp x st); [apply IH | reflexivity].
Qed.

(** The run of a script depends on the host only through what it asks. *)
Lemma exec_block_ext_from h h' imp imp' l :
  Forall (fun s => forall st, exec h imp s st = exec h' imp' s st) l ->
  forall st, exec_block h imp l st = exec_block h' imp' l st.
Proof.
  induction 1 as [|x r Hx _ IH]; intro st; simpl.
  - reflexivity.
  - rewrite Hx. destruct (exec h' imp' x st); [apply IH | reflexivity].
Qed.

Lemma exec_ext h h' imp imp' :
  host_agree h h' -> imp_agree imp imp' ->
  forall s st, exec h imp s st = exec h' imp' s st.
Proof.
  intros (Hos & Hev & Hload & Hsym) Himp.
  induction s using stmt_nested_ind; intro st.
  - simpl. unfold import. specialize (Himp m).
    destruct (existsb (String.eqb m) (imported st)); [reflexivity|].
    destruct (imp m) as [f|], (imp' m) as [g|]; try contradiction.
    + rewrite Himp. reflexivity.
    + reflexivity.
  - reflexivity.
  - rewrite !exec_if_block.
    assert (Hc : eval_cond h c = eval_cond h' c)
      by (destruct c; simpl; rewrite Hos; reflexivity).
    rewrite Hc. destruct (eval_cond h' c); apply exec_block_ext_from; assumption.
  - simpl. do 2 f_equal.
    induction m as [|[s|] r IH]; simpl; rewrite ?IH, ?Hos; reflexivity.
  - simpl. unfold load.
    assert (Hp : eval_path h p = eval_path h' p) by (destruct p; simpl; auto).
    rewrite Hp, Hload. reflexivity.
  - reflexivity.
  - reflexivity.
  - reflexivity.
  - simpl. unfold symbol_lookup. destruct (lookup l (libs st)); [|reflexivity].
    rewrite Hsym. reflexivity.
  - reflexivity.
Qed.

Lemma exec_block_ext h h' imp imp' :
  host_agree h h' -> imp_agree imp imp' ->
  forall l st, exec_block h imp l st = exec_block h' imp' l st.
Proof.
  intros Hh Hi l. apply exec_block_ext_from. apply Forall_forall.
  intros s _. apply exec_ext; assumption.
Qed.

Lemma import_dvdcss_ext h h' st :
  host_agree h h' -> import_dvdcss h st = import_dvdcss h' st.
Proof.
  intro Hh. apply exec_block_ext; [assumption|]. intro m. exact I.
Qed.

Lemma import_dvdread_ext h h' st :
  host_agree h h' -> import_dvdread h st = import_dvdread h' st.
Proof.
  intro Hh. apply exec_block_ext; [assumption|]. intro m.
  unfold dvdread_imports. destruct (String.eqb m "dvdcss"); [|exact I].
  intro st'. apply import_dvdcss_ext, Hh.
Qed.

Lemma import_dvdnav_ext h h' st :
  host_agree h h' -> import_dvdnav h st = import_dvdnav h' st.
Proof.
  intro Hh. apply exec_block_ext; [assumption|]. intro m.
  unfold dvdnav_imports. destruct (String.eqb m "dvdread"); [|exact I].
  intro st'. apply import_dvdread_ext, Hh.
Qed.

Lemma good_posix_agree h : good_posix h -> host_agree h (posix_with (expandvars h)).
Proof.
  intros (Hos & Hload & Hsym). repeat split; simpl; auto.
Qed.

Lemma posix_host_good : good_posix posix_host.
Proof. repeat split. Qed.

(** On a good POSIX host the three imports finish, in the same state
    whatever the host's environment variables are. *)
Lemma import_dvdcss_posix h :
  good_posix h -> import_dvdcss h empty_state = Finished booted_css.
Proof.
  intro Hh. rewrite (import_dvdcss_ext h _ _ (good_posix_agree h Hh)).
  generalize (expandvars h). intro ev. vm_compute. reflexivity.
Qed.

Lemma import_dvdread_posix h :
  good_posix h -> import_dvdread h empty_state = Finished booted_read.
Proof.
  intro Hh. rewrite (import_dvdread_ext h _ _ (good_posix_agree h Hh)).
  generalize (expandvars h). intro ev. vm_compute. reflexivity.
Qed.

Lemma import_dvdnav_posix h :
  good_posix h -> import_dvdnav h empty_state = Finished booted_nav.
Proof.
  intro Hh. rewrite (import_dvdnav_ext h _ _ (good_posix_agree h Hh)).
  generalize (expandvars h). intro ev. vm_compute. reflexivity.
Qed.

(** * Navigation pack constants *)

Lemma PCI_BYTES_parses : int "3d4" 16 = Some 980.
Proof. reflexivity. Qed.

Lemma DSI_BYTES_parses : int "3fa" 16 = Some 1018.
Proof. reflexivity. Qed.

(** C2, as stated, fails: the two declared region sizes add up to 1998. *)
Lemma nav_regions_do_not_fill_sector : ~ nav_regions_fill_sector.
Proof. unfold nav_regions_fill_sector. vm_compute. discriminate. Qed.

(** C2 (amended): [_PCI_BYTES] is 0x3d4 = 980 and [_DSI_BYTES] is
    0x3fa = 1018; they sum to 1998, which is 50 bytes short of the sector
    size [_DVD_VIDEO_LB_LEN] = 2048. What ends exactly at the sector
    boundary is the data-search-info payload, which starts at
    [_DSI_START_BYTE] and is one byte (the substream id) shorter than
    [_DSI_BYTES]. *)
Theorem nav_regions_within_sector :
  dvdread._PCI_BYTES = 980 /\
  dvdread._DSI_BYTES = 1018 /\
  dvdread._PCI_BYTES + dvdread._DSI_BYTES + 50 = dvdread._DVD_VIDEO_LB_LEN /\
  dvdread._DSI_START_BYTE + (dvdread._DSI_BYTES - 1) = dvdread._DVD_VIDEO_LB_LEN.
Proof. repeat split. Qed.

(** * Platform gate *)

Lemma exec_block_cons h imp x r st :
  exec_block h imp (x :: r) st =
  match exec h imp x st with
  | Finished st' => exec_block h imp r st'
  | Raised e st' => Raised e st'
  end.
Proof. reflexivity. Qed.

Lemma same_effects_refl st : same_effects st st.
Proof. repeat split. Qed.

Lemma same_effects_trans a b c :
  same_effects a b -> same_effects b c -> same_effects a c.
Proof.
  unfold same_effects. intros (A1 & A2 & A3 & A4) (B1 & B2 & B3 & B4).
  repeat split; congruence.
Qed.

Lemma inert_exec h imp s st :
  inert imp s ->
  exists st', exec h imp s st = Finished st' /\ same_effects st st'.
Proof.
  intros [(m & -> & Hm) | (x & p & ->)].
  - simpl. unfold import. rewrite Hm.
    destruct (existsb (String.eqb m) (imported st)); eexists; split;
      try reflexivity; repeat split.
  - exists st. split; [reflexivity | apply same_effects_refl].
Qed.

Lemma inert_prefix h imp pre st :
  Forall (inert imp) pre ->
  exists st', exec_block h imp pre st = Finished st' /\ same_effects st st'.
Proof.
  intro H. revert st. induction H as [|s r Hs _ IH]; intro st.
  - exists st. split; [reflexivity | apply same_effects_refl].
  - destruct (inert_exec h imp s st Hs) as (s1 & E1 & S1).
    destruct (IH s1) as (s2 & E2 & S2).
    exists s2. split.
    + rewrite exec_block_cons, E1. exact E2.
    + eapply same_effects_trans; eassumption.
Qed.

(** The if/elif/else at the head of each script, on a host that is neither
    POSIX nor Windows, whatever the two other branches hold. *)
Lemma platform_gate h imp A B st :
  os_name h <> "posix" -> os_name h <> "nt" ->
  exec h imp
    (SIf (OsNameIs "posix") A
       [SIf (OsNameIs "nt") B
          [SRaiseRuntimeError
             [FLit "Unsupported operating system "; FOsName; FLit ". ";
              FLit "This is almost certainly a bug."]]]) st
  = Raised (UnsupportedPlatform (os_name h)) st.
Proof.
  intros Hp Hn. apply String.eqb_neq in Hp, Hn.
  rewrite exec_if_block. cbn [eval_cond]. rewrite Hp.
  rewrite exec_block_cons, exec_if_block. cbn [eval_cond]. rewrite Hn.
  reflexivity.
Qed.

Lemma gate_after_prefix h imp pre A B rest st :
  Forall (inert imp) pre ->
  os_name h <> "posix" -> os_name h <> "nt" ->
  exists st',
    exec_block h imp
      (pre ++
       SIf (OsNameIs "posix") A
         [SIf (OsNameIs "nt") B
            [SRaiseRuntimeError
               [FLit "Unsupported operating system "; FOsName; FLit ". ";
                FLit "This is almost certainly a bug."]]] :: rest) st
    = Raised (UnsupportedPlatform (os_name h)) st'
    /\ same_effects st st'.
Proof.
  intros Hpre Hp Hn.
  destruct (inert_prefix h imp pre st Hpre) as (s1 & E1 & S1).
  exists s1. split; [|exact S1].
  rewrite exec_block_app, E1, exec_block_cons, platform_gate by assumption.
  reflexivity.
Qed.

Ltac inert_list :=
  repeat (apply Forall_cons;
          [first [left; eexists; split; reflexivity
                 | right; do 2 eexists; reflexivity] |]);
  apply Forall_nil.

Lemma import_dvdcss_unsupported h st :
  os_name h <> "posix" -> os_name h <> "nt" ->
  exists st', import_dvdcss h st = Raised (UnsupportedPlatform (os_name h)) st'
              /\ same_effects st st'.
Proof.
  intros Hp Hn. unfold import_dvdcss.
  change dvdcss.body with
    ([SImport "ctypes"; SImport "os";
      SAssign "_POSIX_DVDCSS_LIB" (RStr dvdcss._POSIX_DVDCSS_LIB)] ++
     SIf (OsNameIs "posix")
       [SCDLL "_libdvdcss" dvdcss._POSIX_DVDCSS_LIB]
       [SIf (OsNameIs "nt")
          [SRaiseRuntimeError [FLit "Windows support not yet implemented. Sorry!"]]
          [SRaiseRuntimeError
             [FLit "Unsupported operating system "; FOsName; FLit ". ";
              FLit "This is almost certainly a bug."]]]
     :: skipn 4 dvdcss.body).
  apply gate_after_prefix; try assumption. inert_list.
Qed.

Lemma import_dvdread_unsupported h st :
  os_name h <> "posix" -> os_name h <> "nt" ->
  exists st', import_dvdread h st = Raised (UnsupportedPlatform (os_name h)) st'
              /\ same_effects st st'.
Proof.
  intros Hp Hn. unfold import_dvdread.
  change dvdread.body with
    ([SImport "ctypes"; SImport "os"] ++
     SImport "dvdcss" ::
     [SAssign "_POSIX_DVDREAD_LIB" (RStr dvdread._POSIX_DVDREAD_LIB);
      SAssign "_WIN_VLCCORE_LIB" (RStr dvdread._WIN_VLCCORE_LIB);
      SAssign "_WIN_DVDREAD_LIB" (RStr dvdread._WIN_DVDREAD_LIB)] ++
     SIf (OsNameIs "posix")
       [SCDLL "_libdvdread" dvdread._POSIX_DVDREAD_LIB]
       [SIf (OsNameIs "nt")
          [SCDLL "_libvlccore" dvdread._WIN_VLCCORE_LIB;
           SCDLL "_libdvdread" dvdread._WIN_DVDREAD_LIB]
          [SRaiseRuntimeError
             [FLit "Unsupported operating system "; FOsName; FLit ". ";
              FLit "This is almost certainly a bug."]]]
     :: skipn 7 dvdread.body).
  destruct (inert_prefix h (dvdread_imports h) [SImport "ctypes"; SImport "os"] st)
    as (s1 & E1 & S1); [inert_list|].
  rewrite exec_block_app, E1, exec_block_cons.
  cbn [exec]. unfold import.
  destruct (existsb (String.eqb "dvdcss") (imported s1)).
  - (* [dvdcss] imported before: the script's own gate raises *)
    destruct (gate_after_prefix h (dvdread_imports h)
                [SAssign "_POSIX_DVDREAD_LIB" (RStr dvdread._POSIX_DVDREAD_LIB);
                 SAssign "_WIN_VLCCORE_LIB" (RStr dvdread._WIN_VLCCORE_LIB);
                 SAssign "_WIN_DVDREAD_LIB" (RStr dvdread._WIN_DVDREAD_LIB)]
                [SCDLL "_libdvdread" dvdread._POSIX_DVDREAD_LIB]
                [SCDLL "_libvlccore" dvdread._WIN_VLCCORE_LIB;
                 SCDLL "_libdvdread" dvdread._WIN_DVDREAD_LIB]
                (skipn 7 dvdread.body) s1) as (s2 & E2 & S2);
      try assumption; [inert_list|].
    exists s2. split; [exact E2 | eapply same_effects_trans; eassumption].
  - (* the import of [dvdcss] raises *)
    change (dvdread_imports h "dvdcss") with (Some (import_dvdcss h)).
    destruct (import_dvdcss_unsupported h s1 Hp Hn) as (s2 & E2 & S2).
    rewrite E2. exists s2.
    split; [reflexivity | eapply same_effects_trans; eassumption].
Qed.

Lemma import_dvdnav_unsupported h st :
  os_name h <> "posix" -> os_name h <> "nt" ->
  exists st', import_dvdnav h st = Raised (UnsupportedPlatform (os_name h)) st'
              /\ same_effects st st'.
Proof.
  intros Hp Hn. unfold import_dvdnav.
  change dvdnav.body with
    ([SImport "ctypes"; SImport "os"] ++
     SImport "dvdread" ::
     [SAssign "_POSIX_DVDNAV_LIB" (RStr dvdnav._POSIX_DVDNAV_LIB);
      SAssign "_WIN_DVDNAV_LIB" (RStr dvdnav._WIN_DVDNAV_LIB)] ++
     SIf (OsNameIs "posix")
       [SCDLL "_libdvdnav" dvdnav._POSIX_DVDNAV_LIB]
       [SIf (OsNameIs "nt")
          [SCDLL "_libdvdnav" dvdnav._WIN_DVDNAV_LIB]
          [SRaiseRuntimeError
             [FLit "Unsupported operating system "; FOsName; FLit ". ";
              FLit "This is almost certainly a bug."]]]
     :: skipn 6 dvdnav.body).
  destruct (inert_prefix h (dvdnav_imports h) [SImport "ctypes"; SImport "os"] st)
    as (s1 & E1 & S1); [inert_list|].
  rewrite exec_block_app, E1, exec_block_cons.
  cbn [exec]. unfold import.
  destruct (existsb (String.eqb "dvdread") (imported s1)).
  - destruct (gate_after_prefix h (dvdnav_imports h)
                [SAssign "_POSIX_DVDNAV_LIB" (RStr dvdnav._POSIX_DVDNAV_LIB);
                 SAssign "_WIN_DVDNAV_LIB" (RStr dvdnav._WIN_DVDNAV_LIB)]
                [SCDLL "_libdvdnav" dvdnav._POSIX_DVDNAV_LIB]
                [SCDLL "_libdvdnav" dvdnav._WIN_DVDNAV_LIB]
                (skipn 6 dvdnav.body) s1) as (s2 & E2 & S2);
      try assumption; [inert_list|].
    exists s2. split; [exact E2 | eapply same_effects_trans; eassumption].
  - change (dvdnav_imports h "dvdread") with (Some (import_dvdread h)).
    destruct (import_dvdread_unsupported h s1 Hp Hn) as (s2 & E2 & S2).
    rewrite E2. exists s2.
    split; [reflexivity | eapply same_effects_trans; eassumption].
Qed.

(** C6. On a host whose [os.name] is neither ["posix"] nor ["nt"], importing
    any of the three binding modules into a fresh interpreter raises the
    unsupported-platform RuntimeError, and until then no shared library was
    loaded and no symbol was looked up: the trace of observable steps is
    empty and no library or function pointer is bound. *)
Theorem unsupported_platform_fails_fast (h : host) :
  os_name h <> "posix" -> os_name h <> "nt" ->
  forall import_module,
    In import_module [import_dvdcss; import_dvdread; import_dvdnav] ->
    exists st,
      import_module h empty_state = Raised (UnsupportedPlatform (os_name h)) st
      /\ history st = [] /\ libs st = [] /\ funcs st = [].
Proof.
  intros Hp Hn f Hf.
  assert (H : exists st, f h empty_state = Raised (UnsupportedPlatform (os_name h)) st
                         /\ same_effects empty_state st).
  { destruct Hf as [<-|[<-|[<-|[]]]].
    - apply import_dvdcss_unsupported; assumption.
    - apply import_dvdread_unsupported; assumption.
    - apply import_dvdnav_unsupported; assumption. }
  destruct H as (st & E & L & _ & F & T).
  exists st. unfold history. rewrite T, L, F. repeat split. exact E.
Qed.

Lemma unsupported_platform_fails_fast_witness :
  exists st,
    import_dvdnav java_host empty_state =
    Raised (UnsupportedPlatform (os_name java_host)) st
    /\ history st = [] /\ libs st = [] /\ funcs st = [].
Proof.
  apply (unsupported_platform_fails_fast java_host); simpl;
    [discriminate | discriminate | auto].
Defined.

(** * Published structure sizes *)

(** C1, as stated, fails: the import of [dvdread] finishes on a POSIX host
    although the computed size of [_PGCT] is 280 and [_PGC_SIZE] is 236. *)
Lemma size_mismatch_not_caught : ~ size_mismatch_caught posix_host.
Proof.
  intro H.
  specialize (H "_PGCT" dvdread._PGC_SIZE booted_read).
  assert (E : sizeof (types booted_read) (Cls "_PGCT") = 280)
    by (vm_compute; reflexivity).
  rewrite E in H. discriminate H.
  - vm_compute. auto.
  - apply import_dvdread_posix, posix_host_good.
Qed.

(** C1 (amended): [dvdread.py] binds twenty size constants, each right
    after its descriptor, and the import compares none of them with a
    computed size: on a POSIX host it finishes, and the table shows every
    constant with the size ctypes computed for its descriptor. The two
    agree for [_COMMAND_DATA_SIZE] (8, the size of [_VMCmdT]) and for no
    other constant: the size of [_PGCT] is 280 against [_PGC_SIZE] = 236,
    that of [_VTSAttributesT] is 544 against [_VTS_ATTRIBUTES_SIZE] = 542
    and [_VTS_ATTRIBUTES_MIN_SIZE] = 356. *)
Theorem published_sizes_are_unchecked (h : host) :
  good_posix h ->
  exists st,
    import_dvdread h empty_state = Finished st /\
    size_table st =
      [ ("_COMMAND_DATA_SIZE", 8, "_VMCmdT", 8);
        ("_PGC_COMMAND_TBL_SIZE", 8, "_PGCCommandTblT", 32);
        ("_PGC_SIZE", 236, "_PGCT", 280);
        ("_PGCI_SRP_SIZE", 8, "_PGCISrPT", 16);
        ("_PGCIT_SIZE", 8, "_PGCITT", 24);
        ("_PGCI_LU_SIZE", 8, "_PGCILUT", 16);
        ("_PGCI_UT_SIZE", 8, "_PGCIUTT", 16);
        ("_C_ADT_SIZE", 8, "_CAdTT", 16);
        ("_VOBU_ADMAP_SIZE", 4, "_VOBUAdMapT", 16);
        ("_TT_SRPT_SIZE", 8, "_TtSrPTT", 16);
        ("_PTL_MAIT_COUNTRY_SIZE", 8, "_PtlMaITCountryT", 16);
        ("_PTL_MAIT_SIZE", 8, "_PtlMaITT", 16);
        ("_VTS_ATTRIBUTES_SIZE", 542, "_VTSAttributesT", 544);
        ("_VTS_ATTRIBUTES_MIN_SIZE", 356, "_VTSAttributesT", 544);
        ("_VTS_ATRT_SIZE", 8, "_VTSAtrTT", 24);
        ("_TXTDT_LU_SIZE", 8, "_TxtDtLUT", 16);
        ("_TXTDT_MGI_SIZE", 20, "_TxtDtMgIT", 32);
        ("_VTS_PTT_SRPT_SIZE", 8, "_VTSPtTSrPTT", 24);
        ("_VTS_TMAP_SIZE", 4, "_VTSTMapT", 16);
        ("_VTS_TMAPT_SIZE", 8, "_VTSTMapTT", 24) ] /\
    (forall d c k, In (d, c, k) (size_constants None dvdread.body) ->
       (sizeof (types st) (Cls d) = k <-> c = "_COMMAND_DATA_SIZE")).
Proof.
  intro Hh. exists booted_read. split; [apply import_dvdread_posix, Hh|].
  split; [vm_compute; reflexivity|].
  assert (Hall : forallb (fun '(d, c, k) =>
                            Bool.eqb (sizeof (types booted_read) (Cls d) =? k)
                                     (String.eqb c "_COMMAND_DATA_SIZE"))
                         (size_constants None dvdread.body) = true)
    by (vm_compute; reflexivity).
  intros d c k Hin.
  pose proof (proj1 (forallb_forall _ _) Hall _ Hin) as H. cbv beta iota in H.
  apply Bool.eqb_prop in H.
  rewrite <- Z.eqb_eq, <- String.eqb_eq, H. tauto.
Qed.

Lemma published_sizes_are_unchecked_witness :
  exists st,
    import_dvdread posix_host empty_state = Finished st /\
    sizeof (types st) (Cls "_PGCT") <> dvdread._PGC_SIZE.
Proof.
  destruct (published_sizes_are_unchecked posix_host) as (st & E & _ & H).
  - unfold good_posix. simpl. auto.
  - exists st. split; [exact E|].
    intro Hk.
    apply (H "_PGCT" "_PGC_SIZE" dvdread._PGC_SIZE) in Hk.
    + discriminate Hk.
    + vm_compute. auto.
Defined.

(** * Callback records *)

(** C8, as stated, fails: in [_DVDCSSStreamCB] the read and the
    vectored-read trampolines have the same shape. *)
Lemma stream_shapes_not_distinct :
  ~ shapes_pairwise_distinct (types booted_read) "_DVDCSSStreamCB".
Proof.
  unfold shapes_pairwise_distinct. intro H.
  assert (E : trampoline_shapes (types booted_read) "_DVDCSSStreamCB" =
              [ Some (CFUNCTYPE (POINTER c_int) [c_void_p; c_uint64]);
                Some (CFUNCTYPE (POINTER c_int) [c_void_p; c_void_p; c_int]);
                Some (CFUNCTYPE (POINTER c_int) [c_void_p; c_void_p; c_int]);
                Some (CFUNCTYPE c_void_p [c_void_p; c_int; POINTER c_char]) ])
    by (vm_compute; reflexivity).
  rewrite E in H.
  inversion H as [|x l _ H1]; subst.
  inversion H1 as [|y m Hn _]; subst.
  apply Hn. left. reflexivity.
Qed.

(** C8 (amended): in both stream callback records the seek trampoline, the
    read trampoline and the logging sink have pairwise distinct shapes; the
    vectored-read trampoline has the shape of the read trampoline,
    [CFUNCTYPE(POINTER(c_int), c_void_p, c_void_p, c_int)]. *)
Theorem stream_shapes (h : host) :
  good_posix h ->
  exists st,
    import_dvdread h empty_state = Finished st /\
    forall cb, In cb ["_DVDCSSStreamCB"; "_DVDReaderStreamCB"] ->
      exists seek read readv log,
        trampoline_shapes (types st) cb = [Some seek; Some read; Some readv; Some log] /\
        NoDup [seek; read; log] /\
        readv = read /\
        read = CFUNCTYPE (POINTER c_int) [c_void_p; c_void_p; c_int].
Proof.
  intro Hh. exists booted_read. split; [apply import_dvdread_posix, Hh|].
  intros cb [<-|[<-|[]]];
    (do 4 eexists; split; [vm_compute; reflexivity|];
     split; [|split; reflexivity]);
    repeat constructor; simpl; intuition discriminate.
Qed.

Lemma stream_shapes_witness :
  exists st,
    import_dvdread posix_host empty_state = Finished st /\
    forall cb, In cb ["_DVDCSSStreamCB"; "_DVDReaderStreamCB"] ->
      exists seek read readv log,
        trampoline_shapes (types st) cb = [Some seek; Some read; Some readv; Some log] /\
        NoDup [seek; read; log] /\
        readv = read /\
        read = CFUNCTYPE (POINTER c_int) [c_void_p; c_void_p; c_int].
Proof.
  apply (stream_shapes posix_host). unfold good_posix. simpl. auto.
Defined.

(** * The wrappers of dvdnav.py *)

Lemma convert_args_default i args zs :
  Forall2 (fun v z => default_param v = Some z) args zs ->
  convert_args i [] args = Ok zs.
Proof.
  intro H. revert i. induction H as [|v z vs zs' Hv _ IH]; intro i; simpl.
  - reflexivity.
  - rewrite Hv, IH. reflexivity.
Qed.

Lemma mem_In x l : In x l -> mem x l = true.
Proof.
  intro H. apply existsb_exists. exists x. split; [exact H | apply String.eqb_refl].
Qed.

(** C9. Every wrapper of [dvdnav.py] other than [dvdnav_get_angle_info]
    assigns no attribute but [restype] and [argtypes], and where it assigns
    [argtypes] the function pointer has its argument types declared.
    [dvdnav_get_angle_info] assigns [restype] and [argstype]: the tuple
    lands in the instance dictionary and [argtypes] stays undeclared. Its
    arguments therefore cross the boundary unchecked: the three Python
    integers 7, 1 and 2, given where the navigation context and two
    pointers are expected, reach the native function as they are, although
    the tuple the script wrote rejects the first of them; and so do any
    arguments ctypes converts by default. *)
Theorem argtypes_misspelled_once (h : host) :
  good_posix h ->
  exists st,
    import_dvdnav h empty_state = Finished st /\
    (forall x, In x (wrappers dvdnav.body) -> x <> "dvdnav_get_angle_info" ->
       (forall a, In a (attrs_set dvdnav.body x) -> a = "restype" \/ a = "argtypes") /\
       (In "argtypes" (attrs_set dvdnav.body x) ->
        exists ts, argtypes_of st x = Some ts)) /\
    In "dvdnav_get_angle_info" (wrappers dvdnav.body) /\
    attrs_set dvdnav.body "dvdnav_get_angle_info" = ["restype"; "argstype"] /\
    argtypes_of st "dvdnav_get_angle_info" = None /\
    (forall native,
       ffi_call native st "dvdnav_get_angle_info" [PInt 7; PInt 1; PInt 2] =
       (log (ENative "dvdnav_get_angle_info" [7; 1; 2]
                     (native "dvdnav_get_angle_info" [7; 1; 2])) st,
        Ok (PInt (wrap true 32 (native "dvdnav_get_angle_info" [7; 1; 2]))))) /\
    (exists ts,
       misspelled_argtypes st "dvdnav_get_angle_info" "argstype" = Some ts /\
       convert_args 0 ts [PInt 7; PInt 1; PInt 2] = Err (ArgumentError 1)) /\
    (forall native args zs,
       Forall2 (fun v z => default_param v = Some z) args zs ->
       ffi_call native st "dvdnav_get_angle_info" args =
       (log (ENative "dvdnav_get_angle_info" zs
                     (native "dvdnav_get_angle_info" zs)) st,
        Ok (PInt (wrap true 32 (native "dvdnav_get_angle_info" zs))))).
Proof.
  intro Hh. exists booted_nav. split; [apply import_dvdnav_posix, Hh|].
  assert (E : lookup "dvdnav_get_angle_info" (funcs booted_nav) =
              Some (mkcfunc "libdvdnav.so.4" "dvdnav_get_angle_info"
                      (Some c_int32) None
                      [("argstype",
                        VTuple [POINTER (Cls "_DVDNavS"); POINTER c_uint32;
                                POINTER c_uint32])]))
    by (vm_compute; reflexivity).
  split; [|split; [|split; [|split; [|split; [|split]]]]].
  - assert (Hall : forallb (fun x => String.eqb x "dvdnav_get_angle_info"
                                     || (only_restype_and_argtypes x
                                         && argtypes_took_effect booted_nav x))
                           (wrappers dvdnav.body) = true)
      by (vm_compute; reflexivity).
    intros x Hx Hne.
    pose proof (proj1 (forallb_forall _ _) Hall x Hx) as H. cbv beta in H.
    apply String.eqb_neq in Hne. rewrite Hne, orb_false_l in H.
    apply andb_prop in H. destruct H as [H1 H2]. split.
    + intros a Ha.
      pose proof (proj1 (forallb_forall _ _) H1 a Ha) as H. cbv beta in H.
      apply orb_prop in H. destruct H as [H|H]; apply String.eqb_eq in H; auto.
    + intro Ha. unfold argtypes_took_effect in H2.
      rewrite (mem_In _ _ Ha) in H2. cbn [negb] in H2. rewrite orb_false_l in H2.
      destruct (argtypes_of booted_nav x) as [ts|]; [eauto | discriminate].
  - vm_compute. tauto.
  - vm_compute. reflexivity.
  - vm_compute. reflexivity.
  - intro native. unfold ffi_call. rewrite E. reflexivity.
  - unfold misspelled_argtypes. rewrite E. eexists. split; reflexivity.
  - intros native args zs Hargs. unfold ffi_call.
    rewrite E. cbn [fn_argtypes fn_symbol fn_dict fn_restype].
    rewrite (convert_args_default 0%nat args zs Hargs).
    reflexivity.
Qed.

Lemma argtypes_misspelled_once_witness :
  exists st,
    import_dvdnav posix_host empty_state = Finished st /\
    argtypes_of st "dvdnav_get_angle_info" = None /\
    ffi_call sample_native st "dvdnav_get_angle_info" [PInt 7; PInt 1; PInt 2] =
    (log (ENative "dvdnav_get_angle_info" [7; 1; 2] 0) st, Ok (PInt 0)).
Proof.
  destruct (argtypes_misspelled_once posix_host)
    as (st & E & _ & _ & _ & A & C & _).
  - unfold good_posix. simpl. auto.
  - exists st. split; [exact E|]. split; [exact A|].
    exact (C sample_native).
Defined.

(** A sibling whose [argtypes] is spelled out checks its arguments: a
    Python integer where the navigation context is expected does not reach
    the native side. *)
Lemma angle_change_checks_its_arguments native :
  ffi_call native booted_nav "dvdnav_angle_change" [PInt 7; PInt 1] =
  (booted_nav, Err (ArgumentError 1)).
Proof.
  unfold ffi_call.
  assert (E : lookup "dvdnav_angle_change" (funcs booted_nav) =
              Some (mkcfunc "libdvdnav.so.4" "dvdnav_angle_change"
                      (Some c_int32)
                      (Some [POINTER (Cls "_DVDNavS"); c_uint32]) []))
    by (vm_compute; reflexivity).
  rewrite E. reflexivity.
Qed.

(** * The navigation context *)

(** C10, as stated, fails: [vm], declared after the repeated name, has the
    same offset whether the name is declared once or twice. *)
Lemma repeated_name_does_not_shift_all : ~ repeated_name_shifts_all booted_nav.
Proof.
  intro H. specialize (H "vm").
  assert (E1 : offset_in (layout_as_patched booted_nav) "vm" = Some 2280)
    by (vm_compute; reflexivity).
  assert (E2 : offset_in (layout_declared_once booted_nav) "vm" = Some 2280)
    by (vm_compute; reflexivity).
  rewrite E1, E2 in H.
  assert (Hin : In "vm" (names_after "spu_clut_changed" dvdnav._DVDNavS_fields))
    by (vm_compute; tauto).
  specialize (H Hin). vm_compute in H. discriminate H.
Qed.

(** C10 (amended): the field list patched into [_DVDNavS] holds the name
    [spu_clut_changed] at the consecutive positions 11 and 12, and the
    layout places two [c_int] slots under it, at offsets 2256 and 2260. The
    four [c_int] fields that follow ([started], [use_read_ahead],
    [pgc_based], [cur_cell_time]) sit one [c_int] (4 bytes) further than in
    a layout declaring the name once. The fields from [vm] to [err_str] and
    the size of the structure are the same in both layouts: the second slot
    takes the place of the padding that otherwise aligns the pointer
    [vm]. *)
Theorem repeated_name_shifts_ints_only (h : host) :
  good_posix h ->
  exists st,
    import_dvdnav h empty_state = Finished st /\
    positions_of "spu_clut_changed" dvdnav._DVDNavS_fields = [11; 12]%nat /\
    map (fun p => (pf_type p, pf_offset p))
        (filter (fun p => String.eqb (pf_name p) "spu_clut_changed")
                (layout_as_patched st)) = [(c_int, 2256); (c_int, 2260)] /\
    (forall f, In f ["started"; "use_read_ahead"; "pgc_based"; "cur_cell_time"] ->
       exists o, offset_in (layout_declared_once st) f = Some o /\
                 offset_in (layout_as_patched st) f = Some (o + sizeof (types st) c_int)) /\
    (forall f, In f ["vm"; "vm_lock"; "priv"; "logcb"; "cache"; "err_str"] ->
       exists o, offset_in (layout_declared_once st) f = Some o /\
                 offset_in (layout_as_patched st) f = Some o) /\
    names_after "spu_clut_changed" dvdnav._DVDNavS_fields =
      ["started"; "use_read_ahead"; "pgc_based"; "cur_cell_time";
       "vm"; "vm_lock"; "priv"; "logcb"; "cache"; "err_str"] /\
    sizeof (types st) dvdnav._DVDNavS =
      snd (fst (layout (types st) KStructure
                       (declare_once None dvdnav._DVDNavS_fields))).
Proof.
  intro Hh. exists booted_nav. split; [apply import_dvdnav_posix, Hh|].
  split; [vm_compute; reflexivity|].
  split; [vm_compute; reflexivity|].
  split; [|split; [|split; vm_compute; reflexivity]].
  - intros f Hf. simpl in Hf.
    repeat (destruct Hf as [<-|Hf];
            [eexists; split; vm_compute; reflexivity|]).
    contradiction.
  - intros f Hf. simpl in Hf.
    repeat (destruct Hf as [<-|Hf];
            [eexists; split; vm_compute; reflexivity|]).
    contradiction.
Qed.

Lemma repeated_name_shifts_ints_only_witness :
  exists st,
    import_dvdnav posix_host empty_state = Finished st /\
    positions_of "spu_clut_changed" dvdnav._DVDNavS_fields = [11; 12]%nat.
Proof.
  destruct (repeated_name_shifts_ints_only posix_host) as (st & E & P & _).
  - unfold good_posix. simpl. auto.
  - exists st. split; assumption.
Defined.

(** * Foreign calls after the import *)

Lemma ffi_call_funcs native st f args :
  funcs (fst (ffi_call native st f args)) = funcs st.
Proof.
  unfold ffi_call. destruct (lookup f (funcs st)) as [fp|]; [|reflexivity].
  destruct (convert_args 0 _ args); [|reflexivity].
  destruct (lookup "errcheck" (fn_dict fp)); reflexivity.
Qed.

(** Calls never rebind a wrapper: the function pointer objects stay as the
    import left them. *)
Lemma in_use_funcs native st : in_use native st -> funcs st = funcs booted_nav.
Proof.
  induction 1 as [|st f args _ IH]; [reflexivity|].
  rewrite ffi_call_funcs. exact IH.
Qed.

Lemma dvdcss_close_bound :
  lookup "dvdcss_close" (funcs booted_nav) =
  Some (mkcfunc "libdvdcss.so.2" "dvdcss_close" (Some c_int)
                (Some [POINTER (Cls "_DVDCSSS")]) []).
Proof. vm_compute. reflexivity. Qed.

Lemma dvd_close_bound :
  lookup "dvd_close" (funcs booted_nav) =
  Some (mkcfunc "libdvdread.so.8" "DVDClose" None
                (Some [POINTER (Cls "_DVDReaderS")]) []).
Proof. vm_compute. reflexivity. Qed.

Lemma dvdcss_read_bound :
  lookup "dvdcss_read" (funcs booted_nav) =
  Some (mkcfunc "libdvdcss.so.2" "dvdcss_read" (Some c_int)
                (Some [POINTER (Cls "_DVDCSSS"); c_void_p; c_int; c_int]) []).
Proof. vm_compute. reflexivity. Qed.

Lemma dvdcss_readv_bound :
  lookup "dvdcss_readv" (funcs booted_nav) =
  Some (mkcfunc "libdvdcss.so.2" "dvdcss_readv" (Some c_int)
                (Some [POINTER (Cls "_DVDCSSS"); c_void_p; c_int; c_int]) []).
Proof. vm_compute. reflexivity. Qed.

Lemma dvd_read_blocks_bound :
  lookup "dvd_read_blocks" (funcs booted_nav) =
  Some (mkcfunc "libdvdread.so.8" "DVDReadBlocks" (Some c_ssize_t)
                (Some [POINTER (Cls "_DVDFileS"); c_int; c_size_t;
                       POINTER c_char]) []).
Proof. vm_compute. reflexivity. Qed.

Lemma dvd_read_bytes_bound :
  lookup "dvd_read_bytes" (funcs booted_nav) =
  Some (mkcfunc "libdvdread.so.8" "DVDReadBytes" (Some c_ssize_t)
                (Some [POINTER (Cls "_DVDFileS"); c_void_p; c_size_t]) []).
Proof. vm_compute. reflexivity. Qed.

Lemma wrap_signed_32 z : fits_signed 32 z -> wrap true 32 z = z.
Proof.
  unfold fits_signed, wrap.
  change (2 ^ (32 - 1)) with 2147483648. change (2 ^ 32) with 4294967296.
  intro H. rewrite Z.mod_small by lia. lia.
Qed.

Lemma wrap_signed_64 z : fits_signed 64 z -> wrap true 64 z = z.
Proof.
  unfold fits_signed, wrap.
  change (2 ^ (64 - 1)) with 9223372036854775808.
  change (2 ^ 64) with 18446744073709551616.
  intro H. rewrite Z.mod_small by lia. lia.
Qed.

Ltac call_through Hst bound :=
  unfold ffi_call; rewrite (in_use_funcs _ _ Hst), bound; reflexivity.

(** C3, as stated, fails: after [dvdcss_open] returned the handle 4096 and
    [dvdcss_close] closed it, a second [dvdcss_close] on it is not rejected;
    it returns the native result. *)
Lemma second_close_is_not_rejected : ~ lifecycle_enforced sample_native.
Proof.
  intro H.
  set (st1 := fst (ffi_call sample_native booted_nav "dvdcss_open"
                            [PPtr c_char 100])).
  set (st2 := fst (ffi_call sample_native st1 "dvdcss_close"
                            [PPtr dvdcss._DVDCSSS 4096])).
  assert (U : in_use sample_native st2)
    by (apply in_use_call, in_use_call, in_use_boot).
  destruct (H st2 4096 U) as [Hclose _].
  assert (C : handle_state_of st2 4096 = Closed) by (vm_compute; reflexivity).
  destruct (Hclose C) as [[e He] _].
  assert (R : snd (ffi_call sample_native st2 "dvdcss_close"
                            [PPtr dvdcss._DVDCSSS 4096]) = Ok (PInt 0))
    by (vm_compute; reflexivity).
  rewrite R in He. discriminate He.
Qed.

(** C3 (amended): the wrappers keep no record of handles. In every state
    the host program can reach after the import, [dvdcss_close] and
    [dvd_close] called with a pointer of the declared type, and
    [dvdcss_read] called with such a pointer, reach the native entry point
    and return its result, whatever was done with the handle before: a
    second close is forwarded like the first, and so is a read through a
    handle that was never opened or is closed. *)
Theorem close_and_read_always_forwarded native st a :
  in_use native st ->
  ffi_call native st "dvdcss_close" [PPtr dvdcss._DVDCSSS a] =
    (log (ENative "dvdcss_close" [a] (native "dvdcss_close" [a])) st,
     Ok (PInt (wrap true 32 (native "dvdcss_close" [a]))))
  /\ ffi_call native st "dvd_close" [PPtr dvdread._DVDReaderS a] =
    (log (ENative "DVDClose" [a] (native "DVDClose" [a])) st, Ok PNone)
  /\ forall buf n flags,
      let zs := [a; wrap false 64 buf; wrap true 32 n; wrap true 32 flags] in
      ffi_call native st "dvdcss_read"
               [PPtr dvdcss._DVDCSSS a; PInt buf; PInt n; PInt flags] =
      (log (ENative "dvdcss_read" zs (native "dvdcss_read" zs)) st,
       Ok (PInt (wrap true 32 (native "dvdcss_read" zs)))).
Proof.
  intro Hst. split; [|split].
  - call_through Hst dvdcss_close_bound.
  - call_through Hst dvd_close_bound.
  - intros buf n flags zs. subst zs. call_through Hst dvdcss_read_bound.
Qed.

Lemma close_and_read_always_forwarded_witness :
  exists st,
    ffi_call sample_native booted_nav "dvdcss_close" [PPtr dvdcss._DVDCSSS 4096]
    = (st, Ok (PInt (wrap true 32 (sample_native "dvdcss_close" [4096])))).
Proof.
  eexists.
  apply (proj1 (close_and_read_always_forwarded sample_native booted_nav 4096
                  (in_use_boot sample_native))).
Defined.

(** C7. In every state the host program can reach after the import, a call
    of the read family ([dvd_read_blocks], [dvd_read_bytes], [dvdcss_read],
    [dvdcss_readv]) with arguments of the declared types returns [Ok] with
    the very integer the native function returned - a count or a negative
    status alike - and never an exception. *)
Theorem read_results_pass_through native st :
  in_use native st ->
  (forall f off n buf,
     let zs := [f; wrap true 32 off; wrap false 64 n; buf] in
     fits_signed 64 (native "DVDReadBlocks" zs) ->
     ffi_call native st "dvd_read_blocks"
              [PPtr dvdread._DVDFileS f; PInt off; PInt n; PPtr c_char buf] =
     (log (ENative "DVDReadBlocks" zs (native "DVDReadBlocks" zs)) st,
      Ok (PInt (native "DVDReadBlocks" zs)))) /\
  (forall f buf n,
     let zs := [f; buf; wrap false 64 n] in
     fits_signed 64 (native "DVDReadBytes" zs) ->
     ffi_call native st "dvd_read_bytes"
              [PPtr dvdread._DVDFileS f; PPtr c_char buf; PInt n] =
     (log (ENative "DVDReadBytes" zs (native "DVDReadBytes" zs)) st,
      Ok (PInt (native "DVDReadBytes" zs)))) /\
  (forall sym, In sym ["dvdcss_read"; "dvdcss_readv"] ->
   forall a buf n flags,
     let zs := [a; buf; wrap true 32 n; wrap true 32 flags] in
     fits_signed 32 (native sym zs) ->
     ffi_call native st sym
              [PPtr dvdcss._DVDCSSS a; PPtr c_char buf; PInt n; PInt flags] =
     (log (ENative sym zs (native sym zs)) st, Ok (PInt (native sym zs)))).
Proof.
  intro Hst. split; [|split].
  - intros f off n buf zs Hr.
    replace (PInt (native "DVDReadBlocks" zs))
      with (PInt (wrap true 64 (native "DVDReadBlocks" zs)))
      by (rewrite wrap_signed_64; auto).
    subst zs. call_through Hst dvd_read_blocks_bound.
  - intros f buf n zs Hr.
    replace (PInt (native "DVDReadBytes" zs))
      with (PInt (wrap true 64 (native "DVDReadBytes" zs)))
      by (rewrite wrap_signed_64; auto).
    subst zs. call_through Hst dvd_read_bytes_bound.
  - intros sym Hsym a buf n flags zs Hr.
    replace (PInt (native sym zs)) with (PInt (wrap true 32 (native sym zs)))
      by (rewrite wrap_signed_32; auto).
    subst zs. destruct Hsym as [<-|[<-|[]]].
    + call_through Hst dvdcss_read_bound.
    + call_through Hst dvdcss_readv_bound.
Qed.

Lemma read_results_pass_through_witness :
  exists st,
    ffi_call failing_native booted_nav "dvd_read_blocks"
             [PPtr dvdread._DVDFileS 4096; PInt 0; PInt 1; PPtr c_char 8192]
    = (st, Ok (PInt (-1))).
Proof.
  eexists.
  apply (proj1 (read_results_pass_through failing_native booted_nav
                  (in_use_boot failing_native)) 4096 0 1 8192).
  unfold fits_signed, failing_native.
  split; [apply Z.leb_le | apply Z.ltb_lt]; vm_compute; reflexivity.
Defined.

(** * Shell-then-patch declarations *)

Lemma lookup_some_in {A : Type} k (l : list (string * A)) v :
  lookup k l = Some v -> In (k, v) l.
Proof.
  induction l as [|[k' v'] r IH]; simpl; [discriminate|].
  destruct (String.eqb k k') eqn:E.
  - apply String.eqb_eq in E. intros [= ->]. subst. left. reflexivity.
  - intro H. right. apply IH, H.
Qed.

Lemma mem_true_in x l : mem x l = true -> In x l.
Proof.
  unfold mem. intro H. apply existsb_exists in H. destruct H as (y & Hy & E).
  apply String.eqb_eq in E. subst. exact Hy.
Qed.

Lemma find_index_nth e l : forall i j,
  find_index e l i = Some j ->
  exists k, (j = i + k)%nat /\ nth_error l k = Some e.
Proof.
  induction l as [|x r IH]; intros i j; simpl; [discriminate|].
  destruct (event_eq_dec x e) as [->|_].
  - intros [= <-]. exists 0%nat. split; [lia | reflexivity].
  - intro H. destruct (IH _ _ H) as (k & -> & Hk).
    exists (S k). split; [lia | exact Hk].
Qed.

Lemma declared_in_firstn tr j b :
  declared_in (firstn j tr) b = true ->
  exists k w, (k < j)%nat /\ nth_error tr k = Some (EClass b w).
Proof.
  unfold declared_in. intro H. apply existsb_exists in H.
  destruct H as (e & He & Hb).
  destruct e as [| |n w| | |]; try discriminate.
  apply String.eqb_eq in Hb. subst n.
  apply In_nth_error in He. destruct He as (k & Hk).
  assert (Hlt : (k < length (firstn j tr))%nat)
    by (apply nth_error_Some; rewrite Hk; discriminate).
  assert (Hj : (k < j)%nat)
    by (pose proof (firstn_le_length j tr); lia).
  exists k, w. split; [exact Hj|].
  rewrite nth_error_firstn in Hk.
  apply Nat.ltb_lt in Hj. rewrite Hj in Hk. exact Hk.
Qed.

Lemma patched_onceb_sound tr ct name :
  patched_onceb tr ct name = true -> patched_once tr ct name.
Proof.
  unfold patched_onceb, patched_once.
  destruct (find_index (EClass name false) tr 0) as [i|] eqn:Ei; [|discriminate].
  destruct (find_index (EFields name) tr 0) as [j|] eqn:Ej; [|discriminate].
  intro H. apply andb_prop in H. destruct H as [H Hfinal].
  apply andb_prop in H. destruct H as [H Hrefs].
  apply andb_prop in H. destruct H as [Hlt Hcount].
  destruct (find_index_nth _ _ _ _ Ei) as (ki & -> & Hi).
  destruct (find_index_nth _ _ _ _ Ej) as (kj & -> & Hj).
  exists ki, kj. simpl in Hlt.
  apply Nat.ltb_lt in Hlt. apply Nat.eqb_eq in Hcount.
  repeat split; try assumption.
  - intros b Hb. apply declared_in_firstn.
    apply (proj1 (forallb_forall _ _) Hrefs b Hb).
  - destruct (lookup name ct) as [c|]; [|discriminate]. exists c. auto.
Qed.

(** A set closed under [refs] that holds what [a] mentions holds all that
    [a] reaches. *)
Lemma closed_set_holds_reachable ct R a :
  (forall x, In x (a :: R) -> incl (refs ct x) R) ->
  forall y, clos_trans_1n string (refers ct) a y -> In y R.
Proof.
  intros Hc.
  assert (G : forall x y, clos_trans_1n string (refers ct) x y ->
                          In x (a :: R) -> In y R).
  { induction 1 as [x y Hxy | x y z Hxy _ IH]; intro Hx.
    - apply (Hc x Hx y Hxy).
    - apply IH. right. apply (Hc x Hx y Hxy). }
  intros y H. apply (G a y H). left. reflexivity.
Qed.

Lemma closed_under_refs_sound ct a R :
  closed_under_refs ct a R = true ->
  forall x, In x (a :: R) -> incl (refs ct x) R.
Proof.
  unfold closed_under_refs. intros H x Hx y Hy.
  pose proof (proj1 (forallb_forall _ _) H x Hx) as Hx'. cbv beta in Hx'.
  apply mem_true_in. apply (proj1 (forallb_forall _ _) Hx' y Hy).
Qed.

Lemma in_cycle_declared ct a : in_cycle ct a -> In a (map fst ct).
Proof.
  intro H. apply clos_trans_t1n in H.
  assert (G : exists b, refers ct a b)
    by (inversion H; subst; eexists; eassumption).
  destruct G as (b & Hb). unfold refers, refs in Hb.
  destruct (lookup a ct) as [c|] eqn:E; [|contradiction].
  apply lookup_some_in in E. apply (in_map fst) in E. exact E.
Qed.

Lemma cycle_check_sound tr ct a :
  cycle_check tr ct a = true -> in_cycle ct a -> patched_once tr ct a.
Proof.
  unfold cycle_check. intros H Hcyc.
  apply andb_prop in H. destruct H as [Hclosed H].
  apply clos_trans_t1n in Hcyc.
  pose proof (closed_set_holds_reachable ct _ a
                (closed_under_refs_sound ct a _ Hclosed) a Hcyc) as Hin.
  rewrite (mem_In _ _ Hin) in H. cbn [negb] in H. rewrite orb_false_l in H.
  apply patched_onceb_sound, H.
Qed.

Lemma shells_in tr n : In (EClass n false) tr -> In n (shells tr).
Proof.
  intro H. unfold shells. apply in_flat_map.
  exists (EClass n false). split; [exact H | left; reflexivity].
Qed.

Lemma shells_out tr n : In n (shells tr) -> In (EClass n false) tr.
Proof.
  unfold shells. intro H. apply in_flat_map in H.
  destruct H as (e & He & Hn).
  destruct e as [| |m [|]| | |]; simpl in Hn; try contradiction.
  destruct Hn as [->|[]]. exact He.
Qed.

(** C4. On a POSIX host the import of [dvdnav] (which imports [dvdread]
    and [dvdcss]) finishes without a single call into a native library, so
    no handle is opened before it ends. Every class that is self- or
    mutually referential, and every class declared as an empty shell -
    among them [_DVDTitle], [_DVDCSSS], [_DVDInputS], [_DVDFileS],
    [_DVDReaderS], [_VMT] and [_DVDNavS] - follows the protocol: the empty
    class statement comes first, exactly one [_fields_] assignment takes
    effect later, every class its fields mention is declared before that
    assignment, and the layout is fixed when the import ends. *)
Theorem shells_patched_exactly_once (h : host) :
  good_posix h ->
  exists st,
    import_dvdnav h empty_state = Finished st /\
    native_calls st = [] /\
    (forall name,
       in_cycle (types st) name \/ In (EClass name false) (history st) ->
       patched_once (history st) (types st) name) /\
    Forall (fun name => In (EClass name false) (history st))
           ["_DVDTitle"; "_DVDCSSS"; "_DVDInputS"; "_DVDFileS"; "_DVDReaderS";
            "_VMT"; "_DVDNavS"] /\
    in_cycle (types st) "_DVDTitle" /\ in_cycle (types st) "_DVDCSSS".
Proof.
  intro Hh. exists booted_nav. split; [apply import_dvdnav_posix, Hh|].
  split; [vm_compute; reflexivity|].
  split; [|split; [|split]].
  - intros name [Hcyc | Hshell].
    + assert (Hall : forallb (cycle_check (history booted_nav) (types booted_nav))
                             (map fst (types booted_nav)) = true)
        by (vm_compute; reflexivity).
      apply cycle_check_sound; [|exact Hcyc].
      apply (proj1 (forallb_forall _ _) Hall name).
      apply in_cycle_declared, Hcyc.
    + assert (Hall : forallb (patched_onceb (history booted_nav) (types booted_nav))
                             (shells (history booted_nav)) = true)
        by (vm_compute; reflexivity).
      apply patched_onceb_sound.
      apply (proj1 (forallb_forall _ _) Hall name).
      apply shells_in, Hshell.
  - apply Forall_forall. intros name Hname. apply shells_out, mem_true_in.
    revert name Hname. apply Forall_forall.
    repeat (apply Forall_cons; [vm_compute; reflexivity|]). apply Forall_nil.
  - apply t_step. apply mem_true_in. vm_compute. reflexivity.
  - apply t_step. apply mem_true_in. vm_compute. reflexivity.
Qed.

Lemma shells_patched_exactly_once_witness :
  exists st,
    import_dvdnav posix_host empty_state = Finished st /\
    native_calls st = [] /\
    patched_once (history st) (types st) "_DVDNavS".
Proof.
  destruct (shells_patched_exactly_once posix_host) as (st & E & N & P & F & _).
  - unfold good_posix. simpl. auto.
  - exists st. split; [exact E|]. split; [exact N|].
    apply P. right.
    apply (proj1 (Forall_forall _ _) F). simpl. tauto.
Defined.

(** The two fields appended to the [_fields_] list of [_DVDCSSS] after the
    assignment change the list object only: the layout, fixed by the
    assignment, has neither. *)
Lemma appended_fields_not_laid_out :
  match lookup "_DVDCSSS" (types booted_nav) with
  | Some c =>
      option_map (fun fs => map f_name (skipn 16 fs)) (cls_fields c)
        = Some ["p_stream"; "p_stream_cb"] /\
      length (cls_layout c) = 16%nat /\
      offset_in (cls_layout c) "p_stream" = None /\
      offset_in (cls_layout c) "p_stream_cb" = None
  | None => False
  end.
Proof. vm_compute. repeat split. Qed.
(** * Bit-field packing *)

Lemma bits_eqb_sound a : forall b, bits_eqb a b = true -> a = b.
Proof.
  induction a as [|[[[n U] s] w] a' IH]; intros [|[[[n' U'] s'] w'] b'];
    simpl; try discriminate; [reflexivity|].
  intro H.
  apply andb_prop in H. destruct H as [H Hr].
  apply andb_prop in H. destruct H as [H Hw].
  apply andb_prop in H. destruct H as [H Hs].
  apply andb_prop in H. destruct H as [Hn HU].
  apply String.eqb_eq in Hn. apply Z.eqb_eq in HU, Hs, Hw.
  subst. f_equal. apply IH, Hr.
Qed.

Lemma packed_as_declaredb_sound c :
  packed_as_declaredb c = true -> packed_as_declared c.
Proof.
  unfold packed_as_declaredb, packed_as_declared. intros H fs Hfs.
  rewrite Hfs in H.
  destruct (spanning_fields fs); [|discriminate].
  split; [reflexivity | apply bits_eqb_sound, H].
Qed.

(** C5, at the failing input. Twelve classes of the three modules bear bit
    fields. In every class but [_BtnIT] the claim holds: no declared bit
    field spans past its storage unit, and ctypes placed every field in a
    unit of its declared type at its declared bits, counted from the least
    significant bit in declaration order. In [_BtnIT] the sixteen [c_uint]
    bit fields declare 80 bits; [y_start], 10 bits wide, is declared at bit
    26 of a 32-bit unit and spans past it. ctypes does not pack it there:
    it leaves bits 26 to 31 unused and places [y_start] at bit 0 of the
    next unit, so [y_start] and the ten fields after it sit 6 bits above
    their declared place, the fields take 12 bytes instead of 10, [cmd]
    lands at byte 12 and the record takes 20 bytes, where the declared bits
    followed by [cmd] take 18. *)
Theorem y_start_spans_its_storage_unit (h : host) :
  good_posix h ->
  exists st,
    import_dvdnav h empty_state = Finished st /\
    bit_field_classes (types st) =
      ["_VideoAttrT"; "_AudioAttrT._AppInfo._Karaoke";
       "_AudioAttrT._AppInfo._Surround"; "_AudioAttrT"; "_MultichannelExtT";
       "_SubPAttrT"; "_CellPlaybackT"; "_UserOpsT"; "_PGCISrPT";
       "_PlaybackTypeT"; "_HLGIT"; "_BtnIT"] /\
    (forall name c, lookup name (types st) = Some c -> name <> "_BtnIT" ->
       packed_as_declared c) /\
    (exists c, lookup "_BtnIT" (types st) = Some c /\
               cls_fields c = Some dvdread._BtnIT_fields /\
               ~ packed_as_declared c) /\
    spanning_fields dvdread._BtnIT_fields = ["y_start"] /\
    declared_bits None dvdread._BtnIT_fields =
      [ ("btn_coln", 32, 0, 2); ("x_start", 32, 2, 10); ("zero1", 32, 12, 2);
        ("x_end", 32, 14, 10); ("auto_action_mode", 32, 24, 2);
        ("y_start", 32, 26, 10); ("zero2", 32, 36, 2); ("y_end", 32, 38, 10);
        ("zero3", 32, 48, 2); ("up", 32, 50, 6); ("zero4", 32, 56, 2);
        ("down", 32, 58, 6); ("zero5", 32, 64, 2); ("left", 32, 66, 6);
        ("zero6", 32, 72, 2); ("right", 32, 74, 6) ] /\
    placed_bits None (layout_of st "_BtnIT") =
      [ ("btn_coln", 32, 0, 2); ("x_start", 32, 2, 10); ("zero1", 32, 12, 2);
        ("x_end", 32, 14, 10); ("auto_action_mode", 32, 24, 2);
        ("y_start", 32, 32, 10); ("zero2", 32, 42, 2); ("y_end", 32, 44, 10);
        ("zero3", 32, 54, 2); ("up", 32, 56, 6); ("zero4", 32, 62, 2);
        ("down", 32, 64, 6); ("zero5", 32, 70, 2); ("left", 32, 72, 6);
        ("zero6", 32, 78, 2); ("right", 32, 80, 6) ] /\
    declared_end dvdread._BtnIT_fields = 8 * 10 /\
    offset_in (layout_of st "_BtnIT") "cmd" = Some 12 /\
    sizeof (types st) (Cls "_BtnIT") = 20 /\
    declared_end dvdread._BtnIT_fields / 8 + sizeof (types st) (Cls "_VMCmdT")
      = 18.
Proof.
  intro Hh. exists booted_nav. split; [apply import_dvdnav_posix, Hh|].
  split; [vm_compute; reflexivity|].
  split; [|split; [|do 6 (split; [vm_compute; reflexivity|]);
                     vm_compute; reflexivity]].
  - assert (Hall : forallb (fun nc => String.eqb (fst nc) "_BtnIT"
                                      || packed_as_declaredb (snd nc))
                           (types booted_nav) = true)
      by (vm_compute; reflexivity).
    intros name c Hc Hne. apply lookup_some_in in Hc.
    pose proof (proj1 (forallb_forall _ _) Hall _ Hc) as H. cbv beta in H.
    cbn [fst snd] in H. apply String.eqb_neq in Hne.
    rewrite Hne, orb_false_l in H.
    apply packed_as_declaredb_sound, H.
  - destruct (lookup "_BtnIT" (types booted_nav)) as [c|] eqn:E;
      [|vm_compute in E; discriminate E].
    exists c. split; [reflexivity|].
    assert (F : option_map cls_fields (lookup "_BtnIT" (types booted_nav)) =
                Some (Some dvdread._BtnIT_fields))
      by (vm_compute; reflexivity).
    rewrite E in F. injection F as F.
    split; [exact F|].
    intro P. destruct (P _ F) as [S _].
    vm_compute in S. discriminate S.
Qed.

Lemma y_start_spans_its_storage_unit_witness :
  exists st,
    import_dvdnav posix_host empty_state = Finished st /\
    spanning_fields dvdread._BtnIT_fields = ["y_start"] /\
    offset_in (layout_of st "_BtnIT") "cmd" = Some 12.
Proof.
  destruct (y_start_spans_its_storage_unit posix_host)
    as (st & E & _ & _ & _ & S & _ & _ & _ & O & _ & _).
  - unfold good_posix. simpl. auto.
  - exists st. split; [exact E|]. split; [exact S | exact O].
Defined.
(** * Hosts on which an import fails *)

Lemma nt_agree h :
  os_name h = "nt" ->
  host_agree h (mkhost "nt" (expandvars h) (can_load h) (has_symbol h)).
Proof. intro H. repeat split; simpl; auto. Qed.

(** X1. On Windows none of the three modules can be imported: [dvdcss.py]
    raises its RuntimeError, and [dvdread.py] and [dvdnav.py] import
    [dvdcss] before they reach their own platform test, so their branches
    for [os.name == 'nt'] (which load the libraries of a VLC installation)
    never run. Nothing is loaded, declared or bound when the error is
    raised. *)
Theorem windows_import_fails (h : host) :
  os_name h = "nt" ->
  forall import_module,
    In import_module [import_dvdcss; import_dvdread; import_dvdnav] ->
    exists st,
      import_module h empty_state = Raised WindowsUnsupported st /\
      nothing_bound st.
Proof.
  intros Hos f Hf.
  exists (mkstate ["os"; "ctypes"] [] [] [] []).
  split; [|repeat split].
  pose proof (nt_agree h Hos) as Ha.
  destruct Hf as [<-|[<-|[<-|[]]]].
  - rewrite (import_dvdcss_ext h _ _ Ha).
    generalize (expandvars h) (can_load h) (has_symbol h). intros ev cl hs.
    vm_compute. reflexivity.
  - rewrite (import_dvdread_ext h _ _ Ha).
    generalize (expandvars h) (can_load h) (has_symbol h). intros ev cl hs.
    vm_compute. reflexivity.
  - rewrite (import_dvdnav_ext h _ _ Ha).
    generalize (expandvars h) (can_load h) (has_symbol h). intros ev cl hs.
    vm_compute. reflexivity.
Qed.

Lemma windows_import_fails_witness :
  exists st,
    import_dvdnav windows_host empty_state = Raised WindowsUnsupported st /\
    nothing_bound st.
Proof.
  apply (windows_import_fails windows_host).
  - reflexivity.
  - right. right. left. reflexivity.
Defined.

Lemma without_agree h lib :
  os_name h = "posix" -> can_load h lib = false ->
  host_agree h
    (mkhost "posix" (expandvars h)
            (fun p => if String.eqb p lib then false else can_load h p)
            (has_symbol h)).
Proof.
  intros Hos Hl. repeat split; simpl; auto.
  intro p. destruct (String.eqb p lib) eqn:E; [|reflexivity].
  apply String.eqb_eq in E. subst p. exact Hl.
Qed.

(** X2. [dvdcss.py] does not control for the library not being installed:
    on a POSIX host that cannot load [libdvdcss.so.2] the import raises
    the OSError of [ctypes.CDLL]. Because [dvdread.py] and [dvdnav.py]
    import [dvdcss] first, they fail in the same way, before they load
    their own library, whether that one is installed or not. *)
Theorem missing_libdvdcss_blocks_every_import (h : host) :
  os_name h = "posix" ->
  can_load h "libdvdcss.so.2" = false ->
  forall import_module,
    In import_module [import_dvdcss; import_dvdread; import_dvdnav] ->
    exists st,
      import_module h empty_state = Raised (OSError "libdvdcss.so.2") st /\
      nothing_bound st.
Proof.
  intros Hos Hl f Hf.
  exists (mkstate ["os"; "ctypes"] [] [] [] []).
  split; [|repeat split].
  pose proof (without_agree h _ Hos Hl) as Ha.
  destruct Hf as [<-|[<-|[<-|[]]]].
  - rewrite (import_dvdcss_ext h _ _ Ha).
    generalize (expandvars h) (can_load h) (has_symbol h). intros ev cl hs.
    vm_compute. reflexivity.
  - rewrite (import_dvdread_ext h _ _ Ha).
    generalize (expandvars h) (can_load h) (has_symbol h). intros ev cl hs.
    vm_compute. reflexivity.
  - rewrite (import_dvdnav_ext h _ _ Ha).
    generalize (expandvars h) (can_load h) (has_symbol h). intros ev cl hs.
    vm_compute. reflexivity.
Qed.

Lemma missing_libdvdcss_blocks_every_import_witness :
  exists st,
    import_dvdread (posix_without "libdvdcss.so.2") empty_state =
    Raised (OSError "libdvdcss.so.2") st /\
    nothing_bound st.
Proof.
  apply (missing_libdvdcss_blocks_every_import (posix_without "libdvdcss.so.2")).
  - reflexivity.
  - reflexivity.
  - right. left. reflexivity.
Defined.

Lemma later_library_agree h lib :
  os_name h = "posix" ->
  (forall l s, has_symbol h l s = true) ->
  (forall p, p <> lib -> can_load h p = true) ->
  can_load h lib = false ->
  host_agree h
    (mkhost "posix" (expandvars h) (fun p => negb (String.eqb p lib))
            (fun _ _ => true)).
Proof.
  intros Hos Hs Hp Hl. repeat split; simpl; auto.
  intro p. destruct (String.eqb p lib) eqn:E.
  - apply String.eqb_eq in E. subst p. exact Hl.
  - apply String.eqb_neq in E. apply Hp, E.
Qed.

Lemma same_effects_imported st modules :
  same_effects st
    (mkstate modules (libs st) (types st) (funcs st) (trace st)).
Proof. repeat split. Qed.

(** X3. When [libdvdcss.so.2] loads but the library of a later module does
    not, the import fails at that module's [ctypes.CDLL] with the OSError
    naming the library, and the modules imported before it stay complete:
    without [libdvdread.so.8], importing [dvdread] or [dvdnav] leaves
    exactly the libraries, classes, function pointers and steps of an
    import of [dvdcss]; without [libdvdnav.so.4], importing [dvdnav] leaves
    exactly those of an import of [dvdread]. *)
Theorem missing_later_library_keeps_earlier_modules (h : host) (lib : string) :
  os_name h = "posix" ->
  (forall l s, has_symbol h l s = true) ->
  (forall p, p <> lib -> can_load h p = true) ->
  can_load h lib = false ->
  (lib = "libdvdread.so.8" ->
   forall import_module, In import_module [import_dvdread; import_dvdnav] ->
     exists st,
       import_module h empty_state = Raised (OSError lib) st /\
       same_effects booted_css st) /\
  (lib = "libdvdnav.so.4" ->
   exists st,
     import_dvdnav h empty_state = Raised (OSError lib) st /\
     same_effects booted_read st).
Proof.
  intros Hos Hs Hp Hl.
  pose proof (later_library_agree h lib Hos Hs Hp Hl) as Ha.
  split.
  - intros -> f Hf.
    exists (mkstate ["dvdcss"; "os"; "ctypes"] (libs booted_css)
                    (types booted_css) (funcs booted_css) (trace booted_css)).
    split; [|apply same_effects_imported].
    destruct Hf as [<-|[<-|[]]].
    + rewrite (import_dvdread_ext h _ _ Ha).
      generalize (expandvars h). intro ev. vm_compute. reflexivity.
    + rewrite (import_dvdnav_ext h _ _ Ha).
      generalize (expandvars h). intro ev. vm_compute. reflexivity.
  - intros ->.
    exists (mkstate ["dvdread"; "dvdcss"; "os"; "ctypes"] (libs booted_read)
                    (types booted_read) (funcs booted_read) (trace booted_read)).
    split; [|apply same_effects_imported].
    rewrite (import_dvdnav_ext h _ _ Ha).
    generalize (expandvars h). intro ev. vm_compute. reflexivity.
Qed.

Lemma missing_later_library_keeps_earlier_modules_witness :
  exists st,
    import_dvdnav (posix_without "libdvdnav.so.4") empty_state =
    Raised (OSError "libdvdnav.so.4") st /\
    same_effects booted_read st.
Proof.
  apply (missing_later_library_keeps_earlier_modules
           (posix_without "libdvdnav.so.4") "libdvdnav.so.4").
  - reflexivity.
  - reflexivity.
  - intros p Hp. simpl. apply String.eqb_neq in Hp. rewrite Hp. reflexivity.
  - reflexivity.
  - reflexivity.
Defined.

(** * Calls through the wrappers *)

Lemma convert_args_errors ts : forall vs i e,
  convert_args i ts vs = Err e ->
  e = TypeError "this function takes more arguments" \/
  exists j, e = ArgumentError j.
Proof.
  induction ts as [|t ts' IH]; intro vs;
    induction vs as [|v vs' IHv]; intros i e; simpl.
  - discriminate.
  - destruct (default_param v).
    + destruct (convert_args (S i) [] vs') eqn:E; [discriminate|].
      intros [= <-]. apply (IHv _ _ E).
    + intros [= <-]. right. eexists. reflexivity.
  - intros [= <-]. left. reflexivity.
  - destruct (from_param t v).
    + destruct (convert_args (S i) ts' vs') eqn:E; [discriminate|].
      intros [= <-]. apply (IH _ _ _ E).
    + intros [= <-]. right. eexists. reflexivity.
Qed.

Lemma convert_args_length ts : forall vs i zs,
  convert_args i ts vs = Ok zs -> length zs = length vs.
Proof.
  induction ts as [|t ts' IH]; intro vs;
    induction vs as [|v vs' IHv]; intros i zs; simpl.
  - intros [= <-]. reflexivity.
  - destruct (default_param v); [|discriminate].
    destruct (convert_args (S i) [] vs') eqn:E; [|discriminate].
    intros [= <-]. simpl. f_equal. apply (IHv _ _ E).
  - discriminate.
  - destruct (from_param t v); [|discriminate].
    destruct (convert_args (S i) ts' vs') eqn:E; [|discriminate].
    intros [= <-]. simpl. f_equal. apply (IH _ _ _ E).
Qed.

Lemma booted_wrappers_set_no_errcheck f fp :
  lookup f (funcs booted_nav) = Some fp -> lookup "errcheck" (fn_dict fp) = None.
Proof.
  assert (Hall : forallb (fun nf => no_errcheck (snd nf)) (funcs booted_nav) = true)
    by (vm_compute; reflexivity).
  intro H. apply lookup_some_in in H.
  pose proof (proj1 (forallb_forall _ _) Hall _ H) as E. cbv beta in E.
  cbn [snd] in E. unfold no_errcheck in E.
  destruct (lookup "errcheck" (fn_dict fp)); [discriminate | reflexivity].
Qed.

(** A call through a bound wrapper, in any state after the import: the
    arguments are converted, the native function is called once and its
    result converted; nothing else happens. *)
Lemma ffi_call_bound native st f fp args :
  in_use native st -> lookup f (funcs st) = Some fp ->
  ffi_call native st f args =
  match convert_args 0 (match fn_argtypes fp with
                        | Some ts => ts
                        | None => []
                        end) args with
  | Err e => (st, Err e)
  | Ok zs =>
      (log (ENative (fn_symbol fp) zs (native (fn_symbol fp) zs)) st,
       Ok (to_py (fn_restype fp) (native (fn_symbol fp) zs)))
  end.
Proof.
  intros Hst Hf. unfold ffi_call. rewrite Hf.
  rewrite (in_use_funcs _ _ Hst) in Hf.
  rewrite (booted_wrappers_set_no_errcheck _ _ Hf). reflexivity.
Qed.

Lemma native_calls_log_native sym zs ret st :
  native_calls (log (ENative sym zs ret) st) = native_calls st ++ [(sym, zs)].
Proof.
  unfold native_calls, history, log. cbn [trace rev].
  rewrite flat_map_app. reflexivity.
Qed.

(** X4. No wrapper of the three modules checks what the native function
    returns. In every state the host program can reach after the import, a
    call through any wrapper either raises before the native function is
    reached - a TypeError for too few arguments or an ArgumentError for an
    argument of the wrong type, the state unchanged - or it calls the
    native function exactly once with one C argument per Python argument
    and returns its converted result. A native failure never becomes an
    exception: a status code comes back as the integer it is, and an entry
    point declared to return a pointer gives a null pointer object when
    the native side returns NULL. *)
Theorem native_results_are_never_checked native st f fp args :
  in_use native st -> lookup f (funcs st) = Some fp ->
  (exists e,
     ffi_call native st f args = (st, Err e) /\
     (e = TypeError "this function takes more arguments" \/
      exists i, e = ArgumentError i)) \/
  (exists zs,
     length zs = length args /\
     ffi_call native st f args =
       (log (ENative (fn_symbol fp) zs (native (fn_symbol fp) zs)) st,
        Ok (to_py (fn_restype fp) (native (fn_symbol fp) zs))) /\
     native_calls (fst (ffi_call native st f args)) =
       native_calls st ++ [(fn_symbol fp, zs)] /\
     (forall t, fn_restype fp = Some (POINTER t) ->
                native (fn_symbol fp) zs = 0 ->
                snd (ffi_call native st f args) = Ok (PPtr t 0))).
Proof.
  intros Hst Hf. rewrite (ffi_call_bound _ _ _ _ args Hst Hf).
  destruct (convert_args 0 _ args) as [zs|e] eqn:E.
  - right. exists zs. split; [apply (convert_args_length _ _ _ _ E)|].
    split; [reflexivity|].
    split; [cbn [fst]; apply native_calls_log_native|].
    intros t Ht H0. cbn [snd]. rewrite Ht, H0. reflexivity.
  - left. exists e. split; [reflexivity | apply (convert_args_errors _ _ _ _ E)].
Qed.

Lemma ifo_open_bound :
  lookup "ifo_open" (funcs booted_nav) =
  Some (mkcfunc "libdvdread.so.8" "ifoOpen" (Some (POINTER (Cls "_IFOHandleT")))
                (Some [POINTER (Cls "_DVDReaderS"); c_int]) []).
Proof. vm_compute. reflexivity. Qed.

Lemma native_results_are_never_checked_witness :
  (exists e,
     ffi_call failing_native booted_nav "ifo_open" [PNone; PInt 1]
     = (booted_nav, Err e) /\
     (e = TypeError "this function takes more arguments" \/
      exists i, e = ArgumentError i)) \/
  (exists zs,
     length zs = 2%nat /\
     ffi_call failing_native booted_nav "ifo_open" [PNone; PInt 1] =
       (log (ENative "ifoOpen" zs (failing_native "ifoOpen" zs)) booted_nav,
        Ok (to_py (Some (POINTER (Cls "_IFOHandleT")))
                  (failing_native "ifoOpen" zs))) /\
     native_calls (fst (ffi_call failing_native booted_nav "ifo_open"
                                 [PNone; PInt 1])) =
       native_calls booted_nav ++ [("ifoOpen", zs)] /\
     (forall t, Some (POINTER (Cls "_IFOHandleT")) = Some (POINTER t) ->
                failing_native "ifoOpen" zs = 0 ->
                snd (ffi_call failing_native booted_nav "ifo_open"
                              [PNone; PInt 1]) = Ok (PPtr t 0))).
Proof.
  exact (native_results_are_never_checked failing_native booted_nav "ifo_open" _
           [PNone; PInt 1] (in_use_boot failing_native) ifo_open_bound).
Defined.

Lemma first_argument_is_pointer f fp :
  lookup f (funcs booted_nav) = Some fp ->
  ~ In f untyped_first_argument ->
  exists t ts, fn_argtypes fp = Some (POINTER t :: ts).
Proof.
  assert (Hall : forallb (fun nf => mem (fst nf) untyped_first_argument
                                    || first_is_pointer (snd nf))
                         (funcs booted_nav) = true)
    by (vm_compute; reflexivity).
  intros H Hn. apply lookup_some_in in H.
  pose proof (proj1 (forallb_forall _ _) Hall _ H) as E. cbv beta in E.
  cbn [fst snd] in E.
  destruct (mem f untyped_first_argument) eqn:M.
  - exfalso. apply Hn, mem_true_in, M.
  - rewrite orb_false_l in E. unfold first_is_pointer in E.
    clear Hall H Hn M.
    destruct (fn_argtypes fp) as [[|a ts]|]; try discriminate E.
    destruct a; try discriminate E. eauto.
Qed.

(** X5. Every wrapper but five ([dvdcss_open_stream], [dvd_open2],
    [dvd_open_stream2], [dvdnav_version], [dvdnav_get_angle_info]) declares
    a typed pointer as its first argument, and ctypes enforces it: a Python
    integer or a pointer to another type given there, with enough
    arguments for the call, is rejected with ArgumentError for argument 1
    before the native function is reached. [None] is no such error: it is
    passed on as a NULL pointer, so the wrappers do not guard the native
    side against a missing handle. *)
Theorem handle_argument_is_type_checked native st f fp :
  in_use native st -> lookup f (funcs st) = Some fp ->
  ~ In f untyped_first_argument ->
  exists t ts,
    fn_argtypes fp = Some (POINTER t :: ts) /\
    (forall v rest,
       (length ts <= length rest)%nat -> wrong_handle t v ->
       ffi_call native st f (v :: rest) = (st, Err (ArgumentError 1))) /\
    (forall rest zs,
       convert_args 1 ts rest = Ok zs ->
       ffi_call native st f (PNone :: rest) =
       (log (ENative (fn_symbol fp) (0 :: zs)
                     (native (fn_symbol fp) (0 :: zs))) st,
        Ok (to_py (fn_restype fp) (native (fn_symbol fp) (0 :: zs))))).
Proof.
  intros Hst Hf Hn.
  assert (Hb : lookup f (funcs booted_nav) = Some fp)
    by (rewrite <- (in_use_funcs _ _ Hst); exact Hf).
  destruct (first_argument_is_pointer f fp Hb Hn) as (t & ts & Ha).
  exists t, ts. split; [exact Ha|]. split.
  - intros v rest _ Hv. rewrite (ffi_call_bound _ _ _ _ _ Hst Hf), Ha.
    destruct v as [|z|t' a|t' raw]; simpl in Hv; try contradiction.
    + reflexivity.
    + cbn [convert_args from_param int_kind]. rewrite Hv. reflexivity.
  - intros rest zs Hz. rewrite (ffi_call_bound _ _ _ _ _ Hst Hf), Ha.
    cbn [convert_args from_param int_kind]. rewrite Hz. reflexivity.
Qed.

Lemma handle_argument_is_type_checked_witness :
  ffi_call sample_native booted_nav "dvd_close" [PInt 4096] =
  (booted_nav, Err (ArgumentError 1)).
Proof.
  destruct (handle_argument_is_type_checked sample_native booted_nav
              "dvd_close" _ (in_use_boot sample_native) dvd_close_bound)
    as (t & ts & Ha & Hbad & _).
  - intros [H|[H|[H|[H|[H|[]]]]]]; discriminate H.
  - injection Ha as _ Hts. apply Hbad; [|exact I].
    rewrite <- Hts. apply le_n.
Defined.

(** * A missing symbol *)

Lemma symbols_in_if c thn els :
  symbols_in (SIf c thn els) = symbols_of thn ++ symbols_of els.
Proof.
  reflexivity.
Qed.

Lemma not_in_symbols_of sym l :
  ~ In sym (symbols_of l) -> Forall (fun s => ~ In sym (symbols_in s)) l.
Proof.
  unfold symbols_of. intro H. apply Forall_forall. intros s Hs Hin.
  apply H. apply in_flat_map. exists s. auto.
Qed.

(** A statement that does not look [sym] up runs alike on two hosts that
    differ in [sym] only. *)
Lemma exec_agree_except sym h h' imp imp' :
  agree_except sym h h' -> imp_agree imp imp' ->
  forall s, ~ In sym (symbols_in s) ->
  forall st, exec h imp s st = exec h' imp' s st.
Proof.
  intros (Hos & Hev & Hload & Hsym) Himp.
  induction s using stmt_nested_ind; intros Hn st.
  - simpl. unfold import. specialize (Himp m).
    destruct (existsb (String.eqb m) (imported st)); [reflexivity|].
    destruct (imp m) as [f|], (imp' m) as [g|]; try contradiction.
    + rewrite Himp. reflexivity.
    + reflexivity.
  - reflexivity.
  - rewrite symbols_in_if in Hn. rewrite !exec_if_block.
    assert (Hc : eval_cond h c = eval_cond h' c)
      by (destruct c; simpl; rewrite Hos; reflexivity).
    rewrite Hc.
    assert (Ht : ~ In sym (symbols_of thn))
      by (intro Hi; apply Hn, in_or_app; left; exact Hi).
    assert (He : ~ In sym (symbols_of els))
      by (intro Hi; apply Hn, in_or_app; right; exact Hi).
    apply not_in_symbols_of in Ht, He.
    destruct (eval_cond h' c); apply exec_block_ext_from; apply Forall_forall;
      intros s Hs st'.
    + apply (proj1 (Forall_forall _ _) H s Hs).
      apply (proj1 (Forall_forall _ _) Ht s Hs).
    + apply (proj1 (Forall_forall _ _) H0 s Hs).
      apply (proj1 (Forall_forall _ _) He s Hs).
  - simpl. do 2 f_equal. clear Hn.
    induction m as [|[s|] r IH]; simpl; rewrite ?IH, ?Hos; reflexivity.
  - simpl. unfold load.
    assert (Hp : eval_path h p = eval_path h' p) by (destruct p; simpl; auto).
    rewrite Hp, Hload. reflexivity.
  - reflexivity.
  - reflexivity.
  - reflexivity.
  - simpl. unfold symbol_lookup. destruct (lookup l (libs st)); [|reflexivity].
    rewrite Hsym; [reflexivity|].
    intros ->. apply Hn. left. reflexivity.
  - reflexivity.
Qed.

Lemma exec_block_agree_except sym h h' imp imp' :
  agree_except sym h h' -> imp_agree imp imp' ->
  forall l, ~ In sym (symbols_of l) ->
  forall st, exec_block h imp l st = exec_block h' imp' l st.
Proof.
  intros Hh Hi l Hn. apply exec_block_ext_from.
  apply not_in_symbols_of in Hn. apply Forall_forall. intros s Hs.
  apply exec_agree_except with (sym := sym); try assumption.
  apply (proj1 (Forall_forall _ _) Hn s Hs).
Qed.

Lemma import_dvdcss_agree_except sym h h' :
  agree_except sym h h' -> ~ In sym (symbols_of dvdcss.body) ->
  forall st, import_dvdcss h st = import_dvdcss h' st.
Proof.
  intros Hh Hn st. apply exec_block_agree_except with (sym := sym);
    [assumption | | assumption].
  intro m. exact I.
Qed.

Lemma import_dvdread_agree_except sym h h' :
  agree_except sym h h' ->
  ~ In sym (symbols_of dvdcss.body) -> ~ In sym (symbols_of dvdread.body) ->
  forall st, import_dvdread h st = import_dvdread h' st.
Proof.
  intros Hh Hc Hr st. apply exec_block_agree_except with (sym := sym);
    [assumption | | assumption].
  intro m. unfold dvdread_imports. destruct (String.eqb m "dvdcss"); [|exact I].
  apply import_dvdcss_agree_except with (sym := sym); assumption.
Qed.

Lemma dvdread_imports_agree sym h h' :
  agree_except sym h h' -> ~ In sym (symbols_of dvdcss.body) ->
  imp_agree (dvdread_imports h) (dvdread_imports h').
Proof.
  intros Hh Hc m. unfold dvdread_imports.
  destruct (String.eqb m "dvdcss"); [|exact I].
  apply import_dvdcss_agree_except with (sym := sym); assumption.
Qed.

Lemma dvdnav_imports_agree sym h h' :
  agree_except sym h h' ->
  ~ In sym (symbols_of dvdcss.body) -> ~ In sym (symbols_of dvdread.body) ->
  imp_agree (dvdnav_imports h) (dvdnav_imports h').
Proof.
  intros Hh Hc Hr m. unfold dvdnav_imports.
  destruct (String.eqb m "dvdread"); [|exact I].
  apply import_dvdread_agree_except with (sym := sym); assumption.
Qed.

Lemma lacks_agree h sym :
  lacks h sym -> agree_except sym h (posix_with (expandvars h)).
Proof.
  intros (Hos & Hl & Hs). repeat split; simpl; auto.
  intros l s Hne. rewrite Hs. apply String.eqb_neq in Hne. rewrite Hne.
  reflexivity.
Qed.

Lemma scan_split h imp P pre x rest : forall st,
  scan h imp P (pre ++ x :: rest) st = true ->
  exists st_pre, exec_block h imp pre st = Finished st_pre /\ P st_pre x = true.
Proof.
  induction pre as [|y r IH]; intro st; simpl; intro H.
  - exists st. split; [reflexivity|].
    apply andb_prop in H. apply H.
  - apply andb_prop in H. destruct H as [_ H].
    destruct (exec h imp y st) as [st'|]; [|discriminate].
    apply IH, H.
Qed.

Lemma lookups_split body x l sym :
  In (x, l, sym) (lookups body) ->
  exists pre rest, body = pre ++ SLookup x l sym :: rest.
Proof.
  unfold lookups. intro H. apply in_flat_map in H.
  destruct H as (s & Hs & Hin).
  destruct s; simpl in Hin; try contradiction.
  destruct Hin as [[= -> -> ->]|[]].
  apply in_split in Hs. exact Hs.
Qed.

Lemma once_before sym pre s rest :
  In sym (symbols_in s) ->
  count_occ string_dec (symbols_of (pre ++ s :: rest)) sym = 1%nat ->
  ~ In sym (symbols_of pre).
Proof.
  unfold symbols_of. intros Hs Hc Hin.
  rewrite flat_map_app, count_occ_app in Hc. cbn [flat_map] in Hc.
  rewrite count_occ_app in Hc.
  apply (count_occ_In string_dec) in Hin, Hs. lia.
Qed.

Lemma names_eqb_sound a : forall b, names_eqb a b = true -> a = b.
Proof.
  induction a as [|x a' IH]; intros [|y b']; simpl; try discriminate;
    [reflexivity|].
  intro H. apply andb_prop in H. destruct H as [H1 H2].
  apply String.eqb_eq in H1. subst. f_equal. apply IH, H2.
Qed.

Lemma not_bound_before x l : ~ In x (bound_before x l).
Proof.
  induction l as [|y r IH]; simpl; [tauto|].
  destruct (String.eqb y x) eqn:E; [simpl; tauto|].
  apply String.eqb_neq in E. simpl. intros [H|H]; [auto | apply IH, H].
Qed.

Lemma lookup_unbound {A : Type} x (l : list (string * A)) :
  ~ In x (map fst l) -> lookup x l = None.
Proof.
  induction l as [|[k v] r IH]; simpl; [reflexivity|].
  intro H. destruct (String.eqb x k) eqn:E.
  - apply String.eqb_eq in E. subst. exfalso. apply H. left. reflexivity.
  - apply IH. intro Hin. apply H. right. exact Hin.
Qed.

Lemma native_calls_log_lookup x l sym st :
  native_calls (log (ELookup x l sym) st) = native_calls st.
Proof.
  unfold native_calls, history, log. cbn [trace rev].
  rewrite flat_map_app. cbn [flat_map]. rewrite !app_nil_r. reflexivity.
Qed.

(** A script whose good run reaches the lookup of [sym] ready for it
    raises AttributeError there on a host that lacks [sym]. *)
Lemma lookup_fails_at sym h h' imp imp' body x l st0 :
  agree_except sym h h' -> imp_agree imp imp' ->
  (forall p, has_symbol h p sym = false) ->
  In (x, l, sym) (lookups body) ->
  count_occ string_dec (symbols_of body) sym = 1%nat ->
  scan h' imp' ready body st0 = true ->
  exists st,
    exec_block h imp body st0 = Raised (AttributeError sym) st /\
    failed_at x st.
Proof.
  intros Hh Hi Hno Hin Hc Hscan.
  destruct (lookups_split _ _ _ _ Hin) as (pre & rest & ->).
  assert (Hpre : ~ In sym (symbols_of pre))
    by (apply (once_before sym pre (SLookup x l sym) rest);
        [left; reflexivity | exact Hc]).
  destruct (scan_split _ _ _ _ _ _ _ Hscan) as (st_pre & Er & Hr).
  exists (log (ELookup x l sym) st_pre). split.
  - rewrite exec_block_app.
    rewrite (exec_block_agree_except sym h h' imp imp' Hh Hi pre Hpre), Er.
    rewrite exec_block_cons. cbn [exec]. unfold symbol_lookup.
    unfold ready in Hr.
    destruct (lookup l (libs st_pre)) as [path|]; [|discriminate Hr].
    rewrite Hno. reflexivity.
  - unfold ready in Hr.
    apply andb_prop in Hr. destruct Hr as [Hr Hnat].
    apply andb_prop in Hr. destruct Hr as [_ Hnames].
    apply names_eqb_sound in Hnames.
    unfold failed_at. rewrite native_calls_log_lookup.
    cbn [log funcs]. split; [exact Hnames|]. split.
    + apply lookup_unbound. rewrite Hnames. apply not_bound_before.
    + destruct (native_calls st_pre); [reflexivity | discriminate Hnat].
Qed.

Lemma import_raises h imp m body st e st' :
  imp m = Some body ->
  existsb (String.eqb m) (imported st) = false ->
  body st = Raised e st' ->
  exec h imp (SImport m) st = Raised e st'.
Proof.
  intros Hm Hi Hb. cbn [exec]. unfold import. rewrite Hi, Hm, Hb. reflexivity.
Qed.

Lemma looked_up_once_sound before body sym :
  looked_up_once before body sym = true ->
  ~ In sym before /\ count_occ string_dec (symbols_of body) sym = 1%nat.
Proof.
  unfold looked_up_once. intro H. apply andb_prop in H. destruct H as [H1 H2].
  split.
  - intro Hin. rewrite (mem_In _ _ Hin) in H1. discriminate H1.
  - apply Nat.eqb_eq, H2.
Qed.

(** The good runs of the three scripts reach every lookup ready for it. *)
Lemma dvdcss_scan ev :
  scan (posix_with ev) no_package ready dvdcss.body standard_modules_only = true.
Proof. vm_compute. reflexivity. Qed.

Lemma dvdread_scan ev :
  scan (posix_with ev) (dvdread_imports (posix_with ev)) ready dvdread.body
       standard_modules_only = true.
Proof. vm_compute. reflexivity. Qed.

Lemma dvdnav_scan ev :
  scan (posix_with ev) (dvdnav_imports (posix_with ev)) ready dvdnav.body
       empty_state = true.
Proof. vm_compute. reflexivity. Qed.

(** Every symbol is looked up once, by one script. *)
Lemma dvdcss_symbols_once :
  forallb (fun xls => looked_up_once [] dvdcss.body (snd xls))
          (lookups dvdcss.body) = true.
Proof. vm_compute. reflexivity. Qed.

Lemma dvdread_symbols_once :
  forallb (fun xls => looked_up_once (symbols_of dvdcss.body) dvdread.body
                                     (snd xls))
          (lookups dvdread.body) = true.
Proof. vm_compute. reflexivity. Qed.

Lemma dvdnav_symbols_once :
  forallb (fun xls => looked_up_once
                        (symbols_of dvdcss.body ++ symbols_of dvdread.body)
                        dvdnav.body (snd xls))
          (lookups dvdnav.body) = true.
Proof. vm_compute. reflexivity. Qed.

Lemma lacks_no_symbol h sym : lacks h sym -> forall p, has_symbol h p sym = false.
Proof.
  intros (_ & _ & Hs) p. rewrite Hs, String.eqb_refl. reflexivity.
Qed.

Lemma dvdcss_fails_at h x l sym :
  lacks h sym -> In (x, l, sym) (lookups dvdcss.body) ->
  exists st,
    import_dvdcss h standard_modules_only = Raised (AttributeError sym) st /\
    failed_at x st.
Proof.
  intros Hh Hin.
  pose proof (proj1 (forallb_forall _ _) dvdcss_symbols_once _ Hin) as H.
  cbv beta in H. cbn [snd] in H.
  apply looked_up_once_sound in H. destruct H as [_ Hc].
  unfold import_dvdcss.
  apply lookup_fails_at with (h' := posix_with (expandvars h))
                             (imp' := no_package) (l := l).
  - apply lacks_agree, Hh.
  - intro m. exact I.
  - apply lacks_no_symbol, Hh.
  - exact Hin.
  - exact Hc.
  - apply dvdcss_scan.
Qed.

Lemma dvdread_fails_at h x l sym :
  lacks h sym -> In (x, l, sym) (lookups dvdread.body) ->
  exists st,
    import_dvdread h standard_modules_only = Raised (AttributeError sym) st /\
    failed_at x st.
Proof.
  intros Hh Hin.
  pose proof (proj1 (forallb_forall _ _) dvdread_symbols_once _ Hin) as H.
  cbv beta in H. cbn [snd] in H.
  apply looked_up_once_sound in H. destruct H as [Hcss Hc].
  unfold import_dvdread.
  apply lookup_fails_at with (h' := posix_with (expandvars h))
                             (imp' := dvdread_imports (posix_with (expandvars h)))
                             (l := l).
  - apply lacks_agree, Hh.
  - apply dvdread_imports_agree with (sym := sym);
      [apply lacks_agree, Hh | exact Hcss].
  - apply lacks_no_symbol, Hh.
  - exact Hin.
  - exact Hc.
  - apply dvdread_scan.
Qed.

Lemma dvdnav_fails_at h x l sym :
  lacks h sym -> In (x, l, sym) (lookups dvdnav.body) ->
  exists st,
    import_dvdnav h empty_state = Raised (AttributeError sym) st /\
    failed_at x st.
Proof.
  intros Hh Hin.
  pose proof (proj1 (forallb_forall _ _) dvdnav_symbols_once _ Hin) as H.
  cbv beta in H. cbn [snd] in H.
  apply looked_up_once_sound in H. destruct H as [Hbefore Hc].
  assert (Hcss : ~ In sym (symbols_of dvdcss.body))
    by (intro Hi; apply Hbefore, in_or_app; left; exact Hi).
  assert (Hread : ~ In sym (symbols_of dvdread.body))
    by (intro Hi; apply Hbefore, in_or_app; right; exact Hi).
  unfold import_dvdnav.
  apply lookup_fails_at with (h' := posix_with (expandvars h))
                             (imp' := dvdnav_imports (posix_with (expandvars h)))
                             (l := l).
  - apply lacks_agree, Hh.
  - apply dvdnav_imports_agree with (sym := sym);
      [apply lacks_agree, Hh | exact Hcss | exact Hread].
  - apply lacks_no_symbol, Hh.
  - exact Hin.
  - exact Hc.
  - apply dvdnav_scan.
Qed.

(** A module that raises fails the module that imports it. *)
Lemma importer_fails h imp body m rest st0 st1 e st :
  exec_block h imp [SImport "ctypes"; SImport "os"] st0 = Finished st1 ->
  existsb (String.eqb m) (imported st1) = false ->
  imp m = Some body ->
  body st1 = Raised e st ->
  exec_block h imp ([SImport "ctypes"; SImport "os"] ++ SImport m :: rest) st0
  = Raised e st.
Proof.
  intros E1 Hi Hm Hb.
  rewrite exec_block_app, E1, exec_block_cons.
  rewrite (import_raises h imp m body st1 e st Hm Hi Hb). reflexivity.
Qed.

Lemma dvdread_fails_in_dvdcss h e st :
  import_dvdcss h standard_modules_only = Raised e st ->
  import_dvdread h standard_modules_only = Raised e st.
Proof.
  intro H. unfold import_dvdread.
  change dvdread.body with
    ([SImport "ctypes"; SImport "os"] ++ SImport "dvdcss" :: skipn 3 dvdread.body).
  apply importer_fails with (st1 := standard_modules_only)
                            (body := import_dvdcss h);
    [reflexivity | reflexivity | reflexivity | exact H].
Qed.

Lemma dvdnav_fails_in_dvdread h e st :
  import_dvdread h standard_modules_only = Raised e st ->
  import_dvdnav h empty_state = Raised e st.
Proof.
  intro H. unfold import_dvdnav.
  change dvdnav.body with
    ([SImport "ctypes"; SImport "os"] ++ SImport "dvdread" :: skipn 3 dvdnav.body).
  apply importer_fails with (st1 := standard_modules_only)
                            (body := import_dvdread h);
    [reflexivity | reflexivity | reflexivity | exact H].
Qed.

(** X6. The scripts bind every symbol when the module is imported, so one
    missing symbol fails the whole import. On a POSIX host on which all
    three libraries load and every symbol resolves but one that a script
    looks up, importing [dvdnav] raises AttributeError for that symbol at
    its lookup, in [dvdnav.py] itself or inside the import of [dvdread] or
    [dvdcss]. When it is raised, the wrappers bound are exactly those the
    three scripts look up before it, in import order; the wrapper of the
    missing symbol and all later ones are unbound, and no native function
    was called. *)
Theorem missing_symbol_fails_import (h : host) (x l sym : string) :
  lacks h sym ->
  In (x, l, sym)
     (lookups dvdcss.body ++ lookups dvdread.body ++ lookups dvdnav.body) ->
  exists st,
    import_dvdnav h empty_state = Raised (AttributeError sym) st /\
    failed_at x st.
Proof.
  intros Hh Hin.
  apply in_app_or in Hin. destruct Hin as [Hin|Hin];
    [|apply in_app_or in Hin; destruct Hin as [Hin|Hin]].
  - destruct (dvdcss_fails_at h x l sym Hh Hin) as (st & E & F).
    exists st. split; [|exact F].
    apply dvdnav_fails_in_dvdread, dvdread_fails_in_dvdcss, E.
  - destruct (dvdread_fails_at h x l sym Hh Hin) as (st & E & F).
    exists st. split; [|exact F].
    apply dvdnav_fails_in_dvdread, E.
  - apply (dvdnav_fails_at h x l sym Hh Hin).
Qed.

Lemma missing_symbol_fails_import_witness :
  exists st,
    import_dvdnav (posix_lacking "DVDOpen2") empty_state =
    Raised (AttributeError "DVDOpen2") st /\
    failed_at "dvd_open2" st.
Proof.
  apply (missing_symbol_fails_import (posix_lacking "DVDOpen2")
           "dvd_open2" "_libdvdread" "DVDOpen2").
  - repeat split.
  - apply in_or_app. right. apply in_or_app. left.
    vm_compute. do 4 right. left. reflexivity.
Defined.

(** * Fields appended after the assignment *)

(** X7. [dvdcss.py] assigns sixteen fields to [_DVDCSSS._fields_] and then
    appends [p_stream] and [p_stream_cb] to the list. The assignment fixed
    the layout, so the appended fields are in the list but not in the
    structure: the class has the sixteen assigned fields and 4200 bytes,
    where a structure declared with all eighteen fields takes 4216. *)
Theorem late_appends_are_not_laid_out (h : host) :
  good_posix h ->
  exists st,
    import_dvdcss h empty_state = Finished st /\
    map f_name (appended_fields "_DVDCSSS" dvdcss.body) =
      ["p_stream"; "p_stream_cb"] /\
    fields_bound st "_DVDCSSS" =
      Some (dvdcss._DVDCSSS_fields ++ appended_fields "_DVDCSSS" dvdcss.body) /\
    map pf_name (layout_of st "_DVDCSSS") = map f_name dvdcss._DVDCSSS_fields /\
    length (layout_of st "_DVDCSSS") = 16%nat /\
    sizeof (types st) dvdcss._DVDCSSS = 4200 /\
    snd (fst (layout (types st) KStructure
                     (dvdcss._DVDCSSS_fields
                        ++ appended_fields "_DVDCSSS" dvdcss.body))) = 4216.
Proof.
  intro Hh. exists booted_css. split; [apply import_dvdcss_posix, Hh|].
  do 5 (split; [vm_compute; reflexivity|]). vm_compute. reflexivity.
Qed.

Lemma late_appends_are_not_laid_out_witness :
  exists st,
    import_dvdcss posix_host empty_state = Finished st /\
    sizeof (types st) dvdcss._DVDCSSS = 4200.
Proof.
  destruct (late_appends_are_not_laid_out posix_host)
    as (st & E & _ & _ & _ & _ & S & _).
  - exact posix_host_good.
  - exists st. split; [exact E | exact S].
Defined.

(** * What the modules export *)

Lemma distinct_sound l : distinct l = true -> NoDup l.
Proof.
  induction l as [|x r IH]; simpl; intro H; [constructor|].
  apply andb_prop in H. destruct H as [H1 H2].
  constructor; [|apply IH, H2].
  intro Hin. rewrite (mem_In _ _ Hin) in H1. discriminate H1.
Qed.

(** X8. The three modules export 152 wrappers under 152 distinct names for
    152 distinct symbols, and declare 86 classes under distinct names: no
    statement of one script rebinds what another statement bound. After the
    import every wrapper is the function pointer of the symbol its script
    looked up, in the library of its own module - [dvdcss] in
    [libdvdcss.so.2], [dvdread] in [libdvdread.so.8], [dvdnav] in
    [libdvdnav.so.4] - in script order. *)
Theorem every_wrapper_has_its_own_symbol (h : host) :
  good_posix h ->
  exists st,
    import_dvdnav h empty_state = Finished st /\
    length all_lookups = 152%nat /\
    NoDup all_wrappers /\
    NoDup (map snd all_lookups) /\
    NoDup (class_names all_statements) /\
    length (class_names all_statements) = 86%nat /\
    map bound_to (funcs st) = map (looked_up_in st) all_lookups /\
    map fst (types st) = class_names all_statements /\
    libs st = [("_libdvdcss", "libdvdcss.so.2");
               ("_libdvdread", "libdvdread.so.8");
               ("_libdvdnav", "libdvdnav.so.4")] /\
    Forall (fun xls => snd (fst xls) = "_libdvdcss") (lookups dvdcss.body) /\
    Forall (fun xls => snd (fst xls) = "_libdvdread") (lookups dvdread.body) /\
    Forall (fun xls => snd (fst xls) = "_libdvdnav") (lookups dvdnav.body).
Proof.
  intro Hh. exists booted_nav. split; [apply import_dvdnav_posix, Hh|].
  split; [vm_compute; reflexivity|].
  split; [apply distinct_sound; vm_compute; reflexivity|].
  split; [apply distinct_sound; vm_compute; reflexivity|].
  split; [apply distinct_sound; vm_compute; reflexivity|].
  do 4 (split; [vm_compute; reflexivity|]).
  split; [|split]; apply Forall_forall; intros xls Hin.
  - assert (Hall : forallb (fun xls => String.eqb (snd (fst xls)) "_libdvdcss")
                           (lookups dvdcss.body) = true)
      by (vm_compute; reflexivity).
    apply String.eqb_eq. apply (proj1 (forallb_forall _ _) Hall _ Hin).
  - assert (Hall : forallb (fun xls => String.eqb (snd (fst xls)) "_libdvdread")
                           (lookups dvdread.body) = true)
      by (vm_compute; reflexivity).
    apply String.eqb_eq. apply (proj1 (forallb_forall _ _) Hall _ Hin).
  - assert (Hall : forallb (fun xls => String.eqb (snd (fst xls)) "_libdvdnav")
                           (lookups dvdnav.body) = true)
      by (vm_compute; reflexivity).
    apply String.eqb_eq. apply (proj1 (forallb_forall _ _) Hall _ Hin).
Qed.

Lemma every_wrapper_has_its_own_symbol_witness :
  exists st,
    import_dvdnav posix_host empty_state = Finished st /\
    map bound_to (funcs st) = map (looked_up_in st) all_lookups.
Proof.
  destruct (every_wrapper_has_its_own_symbol posix_host)
    as (st & E & _ & _ & _ & _ & _ & B & _).
  - exact posix_host_good.
  - exists st. split; [exact E | exact B].
Defined.

(** X9. Every wrapper of the three modules assigns [restype], once, so no
    result is converted with the default of ctypes by omission; and every
    wrapper assigns [argtypes], once, except [dvdnav_version], which
    assigns [restype] only, and [dvdnav_get_angle_info], which misspells
    the attribute. After the import these two are the only wrappers whose
    argument types are undeclared. *)
Theorem wrapper_declarations_are_complete (h : host) :
  good_posix h ->
  exists st,
    import_dvdnav h empty_state = Finished st /\
    (forall x, In x all_wrappers ->
       attrs_set all_statements x = ["restype"; "argtypes"] \/
       (x = "dvdnav_version" /\ attrs_set all_statements x = ["restype"]) \/
       (x = "dvdnav_get_angle_info" /\
        attrs_set all_statements x = ["restype"; "argstype"])) /\
    undeclared_argtypes st = ["dvdnav_version"; "dvdnav_get_angle_info"].
Proof.
  intro Hh. exists booted_nav. split; [apply import_dvdnav_posix, Hh|].
  split; [|vm_compute; reflexivity].
  assert (Hall : forallb (fun x =>
                   names_eqb (attrs_set all_statements x) ["restype"; "argtypes"]
                   || (String.eqb x "dvdnav_version"
                       && names_eqb (attrs_set all_statements x) ["restype"])
                   || (String.eqb x "dvdnav_get_angle_info"
                       && names_eqb (attrs_set all_statements x)
                                    ["restype"; "argstype"]))
                 all_wrappers = true)
    by (vm_compute; reflexivity).
  intros x Hx.
  pose proof (proj1 (forallb_forall _ _) Hall x Hx) as H. cbv beta in H.
  apply orb_prop in H. destruct H as [H|H]; [apply orb_prop in H; destruct H as [H|H]|].
  - left. apply names_eqb_sound, H.
  - right. left. apply andb_prop in H. destruct H as [H1 H2].
    apply String.eqb_eq in H1. apply names_eqb_sound in H2. auto.
  - right. right. apply andb_prop in H. destruct H as [H1 H2].
    apply String.eqb_eq in H1. apply names_eqb_sound in H2. auto.
Qed.

Lemma wrapper_declarations_are_complete_witness :
  exists st,
    import_dvdnav posix_host empty_state = Finished st /\
    undeclared_argtypes st = ["dvdnav_version"; "dvdnav_get_angle_info"].
Proof.
  destruct (wrapper_declarations_are_complete posix_host) as (st & E & _ & U).
  - exact posix_host_good.
  - exists st. split; [exact E | exact U].
Defined.

(** X10. A module leaves what the modules before it bound as it was:
    importing [dvdread] yields the classes, the wrappers and the steps of
    an import of [dvdcss], unchanged and in the same order, followed by its
    own; and importing [dvdnav] yields those of an import of [dvdread]
    followed by its own. *)
Theorem later_modules_only_add (h : host) :
  good_posix h ->
  exists css read nav,
    import_dvdcss h empty_state = Finished css /\
    import_dvdread h empty_state = Finished read /\
    import_dvdnav h empty_state = Finished nav /\
    (exists ct fs evs,
       types read = types css ++ ct /\ funcs read = funcs css ++ fs /\
       history read = history css ++ evs /\
       length ct = 62%nat /\ length fs = 58%nat) /\
    (exists ct fs evs,
       types nav = types read ++ ct /\ funcs nav = funcs read ++ fs /\
       history nav = history read ++ evs /\
       length ct = 19%nat /\ length fs = 86%nat).
Proof.
  intro Hh. exists booted_css, booted_read, booted_nav.
  split; [apply import_dvdcss_posix, Hh|].
  split; [apply import_dvdread_posix, Hh|].
  split; [apply import_dvdnav_posix, Hh|].
  split.
  - exists (skipn 5 (types booted_read)), (skipn 8 (funcs booted_read)),
           (skipn 21 (history booted_read)).
    do 4 (split; [vm_compute; reflexivity|]). vm_compute. reflexivity.
  - exists (skipn 67 (types booted_nav)), (skipn 66 (funcs booted_nav)),
           (skipn 204 (history booted_nav)).
    do 4 (split; [vm_compute; reflexivity|]). vm_compute. reflexivity.
Qed.

Lemma later_modules_only_add_witness :
  exists css read,
    import_dvdcss posix_host empty_state = Finished css /\
    import_dvdread posix_host empty_state = Finished read /\
    exists ct, types read = types css ++ ct.
Proof.
  destruct (later_modules_only_add posix_host)
    as (css & read & nav & Ec & Er & _ & (ct & fs & evs & T & _) & _).
  - exact posix_host_good.
  - exists css, read. split; [exact Ec|]. split; [exact Er|].
    exists ct. exact T.
Defined.

(** * Navigation packets *)

(** X11. The fields [_PCIT] and [_DSIT] declare, laid end to end, take one
    byte less than [_PCI_BYTES] and [_DSI_BYTES] (the packet without its
    substream id): 979 and 1017 bytes. The classes set no packing, so
    ctypes pads them to 1056 and 1040 bytes; each is larger than the packet
    it describes, and the two together no longer fit the 2048 bytes of a
    sector. *)
Theorem nav_packets_are_padded (h : host) :
  good_posix h ->
  exists st,
    import_dvdread h empty_state = Finished st /\
    packed_bytes st dvdread._PCIT = dvdread._PCI_BYTES - 1 /\
    packed_bytes st dvdread._DSIT = dvdread._DSI_BYTES - 1 /\
    sizeof (types st) dvdread._PCIT = 1056 /\
    sizeof (types st) dvdread._DSIT = 1040 /\
    dvdread._PCI_BYTES < sizeof (types st) dvdread._PCIT /\
    dvdread._DSI_BYTES < sizeof (types st) dvdread._DSIT /\
    dvdread._DVD_VIDEO_LB_LEN <
      sizeof (types st) dvdread._PCIT + sizeof (types st) dvdread._DSIT.
Proof.
  intro Hh. exists booted_read. split; [apply import_dvdread_posix, Hh|].
  do 4 (split; [vm_compute; reflexivity|]).
  split; [|split]; apply Z.ltb_lt; vm_compute; reflexivity.
Qed.

Lemma nav_packets_are_padded_witness :
  exists st,
    import_dvdread posix_host empty_state = Finished st /\
    sizeof (types st) dvdread._PCIT = 1056.
Proof.
  destruct (nav_packets_are_padded posix_host)
    as (st & E & _ & _ & S & _).
  - exact posix_host_good.
  - exists st. split; [exact E | exact S].
Defined.
